(** * Artifact staging and license collection: a shallow embedding

    The development follows two Python sources:

    - [apache_beam/runners/portability/stager.py] (class [Stager]), and
    - [container/license_scripts/pull_licenses_py.py].

    Both are sequential orchestration code over a file system, a network,
    subprocesses and (for the stager) an abstract staging backend.  The
    embedding threads an explicit program state through a small
    state-and-exception monad: a raised Python exception leaves the state
    as it was at the point of the raise, exactly like the interpreter. *)

From Stdlib Require Import ZArith Lia Ascii String.
From stdpp Require Import base tactics option list strings gmap.

Open Scope string_scope.
Open Scope list_scope.

(** ** Python strings *)
Module PyStr.

(** [s.startswith(p)] *)
Definition startswith (p s : string) : bool := String.prefix p s.

(** [s.endswith(suf)]: some suffix of [s] is [suf]. *)
Fixpoint endswith (suf s : string) : bool :=
  if String.eqb s suf then true
  else match s with
       | EmptyString => false
       | String _ s' => endswith suf s'
       end.

(** [s.find(sub) != -1] *)
Fixpoint contains (sub s : string) : bool :=
  if String.prefix sub s then true
  else match s with
       | EmptyString => false
       | String _ s' => contains sub s'
       end.

(** [c in s] for a single character. *)
Fixpoint has_char (c : ascii) (s : string) : bool :=
  match s with
  | EmptyString => false
  | String a s' => if Ascii.eqb a c then true else has_char c s'
  end.

(** [s.split(c)] for a one-character separator: never returns the empty
    list, [''.split(',') == ['']]. *)
Fixpoint split_on (c : ascii) (s : string) : list string :=
  match s with
  | EmptyString => [EmptyString]
  | String a s' =>
      if Ascii.eqb a c then EmptyString :: split_on c s'
      else match split_on c s' with
           | hd :: tl => String a hd :: tl
           | [] => [String a EmptyString]
           end
  end.

(** Text that comes from outside (a command line, the output of a process)
    is kept as the bytes of its UTF-8 encoding.  [space_width s] is the
    number of bytes at the head of [s] that encode one white-space
    character, in the sense of [str.isspace], and 0 when [s] does not start
    with one: the ASCII characters 9 to 13 and 28 to 32, and U+0085, U+00A0,
    U+1680, U+2000 to U+200A, U+2028, U+2029, U+202F, U+205F and U+3000. *)
Definition space_width (s : string) : nat :=
  match s with
  | EmptyString => 0
  | String a s1 =>
      let x := nat_of_ascii a in
      if ((9 <=? x) && (x <=? 13)) || ((28 <=? x) && (x <=? 32)) then 1
      else
        match s1 with
        | EmptyString => 0
        | String b s2 =>
            let y := nat_of_ascii b in
            if (x =? 194) && ((y =? 133) || (y =? 160)) then 2
            else
              match s2 with
              | EmptyString => 0
              | String c _ =>
                  let z := nat_of_ascii c in
                  if (x =? 225) && (y =? 154) && (z =? 128) then 3
                  else if (x =? 226) && (y =? 128)
                          && (((128 <=? z) && (z <=? 138))
                              || (z =? 168) || (z =? 169) || (z =? 175)) then 3
                  else if (x =? 226) && (y =? 129) && (z =? 159) then 3
                  else if (x =? 227) && (y =? 128) && (z =? 128) then 3
                  else 0
              end
        end
  end%nat.

(** [s.split()]: the pieces between runs of white space; no piece is
    empty, and [''.split() == []].  [skip] counts the bytes still to drop
    of a white-space character of several bytes, [cur] is the piece being
    read. *)
Fixpoint split_from (skip : nat) (cur s : string) : list string :=
  match s with
  | EmptyString => if String.eqb cur EmptyString then [] else [cur]
  | String a s' =>
      match skip with
      | S k => split_from k cur s'
      | O =>
          match space_width s with
          | O => split_from 0 (cur +:+ String a EmptyString) s'
          | S k =>
              (if String.eqb cur EmptyString then [] else [cur])
              ++ split_from k EmptyString s'
          end
      end
  end.

Definition split_whitespace (s : string) : list string :=
  split_from 0 EmptyString s.

(** Whether a string of bytes is well-formed UTF-8, which is when
    [b.decode('utf-8')] returns: no stray or missing continuation byte, no
    overlong form, no surrogate, nothing above U+10FFFF. *)
Definition continuation (a : ascii) : bool :=
  let x := nat_of_ascii a in ((128 <=? x) && (x <=? 191))%nat.

Fixpoint valid_utf8 (s : string) : bool :=
  match s with
  | EmptyString => true
  | String a s1 =>
      let x := nat_of_ascii a in
      if (x <=? 127)%nat then valid_utf8 s1
      else
        match s1 with
        | EmptyString => false
        | String b s2 =>
            let y := nat_of_ascii b in
            if ((194 <=? x) && (x <=? 223))%nat then continuation b && valid_utf8 s2
            else
              match s2 with
              | EmptyString => false
              | String c s3 =>
                  if (x =? 224)%nat then
                    ((160 <=? y) && (y <=? 191))%nat && continuation c && valid_utf8 s3
                  else if (((225 <=? x) && (x <=? 236)) || (x =? 238) || (x =? 239))%nat
                  then continuation b && continuation c && valid_utf8 s3
                  else if (x =? 237)%nat then
                    ((128 <=? y) && (y <=? 159))%nat && continuation c && valid_utf8 s3
                  else
                    match s3 with
                    | EmptyString => false
                    | String d s4 =>
                        if (x =? 240)%nat then
                          ((144 <=? y) && (y <=? 191))%nat && continuation c
                          && continuation d && valid_utf8 s4
                        else if ((241 <=? x) && (x <=? 243))%nat then
                          continuation b && continuation c && continuation d
                          && valid_utf8 s4
                        else if (x =? 244)%nat then
                          ((128 <=? y) && (y <=? 143))%nat && continuation c
                          && continuation d && valid_utf8 s4
                        else false
                    end
              end
        end
  end.

(** [glob.has_magic(s)]: one of the characters [*], [?] and [[] occurs. *)
Definition has_magic (s : string) : bool :=
  has_char "*" s || has_char "?" s || has_char "[" s.

(** [s.lower()] on ASCII text: only [A-Z] move. *)
Definition lower_ascii (a : ascii) : ascii :=
  let n := nat_of_ascii a in
  if (65 <=? n)%nat && (n <=? 90)%nat then ascii_of_nat (n + 32) else a.

Fixpoint lower (s : string) : string :=
  match s with
  | EmptyString => EmptyString
  | String a s' => String (lower_ascii a) (lower s')
  end.

(** The line feed written by ['\n']. *)
Definition newline : string := String (ascii_of_nat 10) EmptyString.

(** [s.replace(a, b)] for single characters. *)
Fixpoint replace_char (a b : ascii) (s : string) : string :=
  match s with
  | EmptyString => EmptyString
  | String c s' => String (if Ascii.eqb c a then b else c) (replace_char a b s')
  end.

(** [s.rstrip('/')] *)
Fixpoint rstrip_slash (s : string) : string :=
  match s with
  | EmptyString => EmptyString
  | String a s' =>
      match rstrip_slash s' with
      | EmptyString => if Ascii.eqb a "/" then EmptyString else String a EmptyString
      | r => String a r
      end
  end.

Fixpoint all_slashes (s : string) : bool :=
  match s with
  | EmptyString => true
  | String a s' => Ascii.eqb a "/" && all_slashes s'
  end.

(** ['%d' % n] for a natural number. *)
Fixpoint digits_fuel (fuel n : nat) (acc : string) : string :=
  match fuel with
  | O => acc
  | S f =>
      let acc' := String (ascii_of_nat (48 + n mod 10)) acc in
      if (n <? 10)%nat then acc' else digits_fuel f (n / 10) acc'
  end.

Definition str_of_nat (n : nat) : string := digits_fuel (S n) n EmptyString.

(** ['%s' % l] / [str(l)] for a list of plain strings (no quote or
    backslash inside, which is what package names are). *)
Definition repr_str (s : string) : string := "'" +:+ s +:+ "'".

Fixpoint join_with (sep : string) (l : list string) : string :=
  match l with
  | [] => EmptyString
  | [x] => x
  | x :: tl => x +:+ sep +:+ join_with sep tl
  end.

Definition repr_list (l : list string) : string :=
  "[" +:+ join_with ", " (map repr_str l) +:+ "]".

End PyStr.

(** ** [os.path] on POSIX path names *)
Module OsPath.
Import PyStr.

(** [os.path.basename(p)]: what follows the last slash. *)
Definition basename (p : string) : string :=
  List.last (split_on "/" p) EmptyString.

(** [os.path.dirname(p)]: the text up to and including the last slash,
    with trailing slashes removed unless it consists of slashes only. *)
Definition head_raw (p : string) : string :=
  fold_right (fun x acc => x +:+ "/" +:+ acc) EmptyString
             (removelast (split_on "/" p)).

Definition dirname (p : string) : string :=
  let h := head_raw p in
  if all_slashes h then h else rstrip_slash h.

(** [os.path.split(p)] *)
Definition split (p : string) : string * string := (dirname p, basename p).

(** [os.path.join(a, b)] *)
Definition join (a b : string) : string :=
  if startswith "/" b then b
  else if String.eqb a EmptyString || endswith "/" a then a +:+ b
  else a +:+ "/" +:+ b.

(** Name resolution.  A path name denotes a list of components; a relative
    name is taken from the current directory.  The names [.] and [..] get
    no special treatment and there are no symbolic links. *)
Definition components (p : string) : list string :=
  filter (fun x => x ≠ EmptyString) (split_on "/" p).

Definition resolve (cwd : list string) (p : string) : option (list string) :=
  if String.eqb p EmptyString then None
  else if startswith "/" p then Some (components p)
  else Some (cwd ++ components p).

End OsPath.

(** ** Exceptions and the state-and-exception monad *)
Module Py.

(** The exception classes the two programs can meet.  [NotImplementedError]
    is a subclass of [RuntimeError]; [PicklingError] and [HttpLibError]
    stand for whatever the pickler and the HTTP client raise; all of them
    are [Exception]s. *)
Inductive exn : Type :=
| RuntimeError (msg : string)
| NotImplementedError
| ValueError (msg : string)
| KeyError (key : string)
| AttributeError (msg : string)
| UnboundLocalError (name : string)
| FileNotFoundError (path : string)
| FileExistsError (path : string)
| IsADirectoryError (path : string)
| NotADirectoryError (path : string)
| OSError (msg : string)
| CalledProcessError (returncode : Z) (cmd : list string)
| HttpLibError (url : string)
| PicklingError
| JSONDecodeError
| YAMLError
| UnicodeDecodeError
| IndexError (msg : string)
| RetryError (last : exn).

(** [isinstance(e, RuntimeError)] *)
Definition is_RuntimeError (e : exn) : bool :=
  match e with
  | RuntimeError _ | NotImplementedError => true
  | _ => false
  end.

(** [str(e)], as far as the programs print it. *)
Definition exn_str (e : exn) : string :=
  match e with
  | RuntimeError msg | ValueError msg | AttributeError msg | OSError msg
  | IndexError msg => msg
  | KeyError key => key
  | UnboundLocalError name => name
  | FileNotFoundError path | FileExistsError path
  | IsADirectoryError path | NotADirectoryError path => path
  | HttpLibError url => url
  | CalledProcessError _ _ => "CalledProcessError"
  | NotImplementedError => "NotImplementedError"
  | PicklingError => "PicklingError"
  | JSONDecodeError => "JSONDecodeError"
  | YAMLError => "YAMLError"
  | UnicodeDecodeError => "UnicodeDecodeError"
  | RetryError _ => "RetryError"
  end.

Inductive result (A : Type) : Type :=
| Ok (a : A)
| Raise (e : exn).
Arguments Ok {A} a.
Arguments Raise {A} e.

Definition is_ok {A} (r : result A) : bool :=
  match r with Ok _ => true | Raise _ => false end.

(** A computation reads and writes a state of type [S] and either returns
    or raises; the state survives a raise. *)
Definition M (S A : Type) : Type := S -> result A * S.

Definition ret {S A} (a : A) : M S A := fun s => (Ok a, s).
Definition raise {S A} (e : exn) : M S A := fun s => (Raise e, s).
Definition bind {S A B} (m : M S A) (k : A -> M S B) : M S B :=
  fun s => match m s with
           | (Ok a, s') => k a s'
           | (Raise e, s') => (Raise e, s')
           end.
Definition get {S} : M S S := fun s => (Ok s, s).
Definition gets {S A} (f : S -> A) : M S A := fun s => (Ok (f s), s).
Definition modify {S} (f : S -> S) : M S unit := fun s => (Ok tt, f s).

(** [b.decode('utf-8')]: the text, kept as these same bytes. *)
Definition decode_utf8 (b : string) : result string :=
  if PyStr.valid_utf8 b then Ok b else Raise UnicodeDecodeError.

(** A pure step that may raise. *)
Definition of_result {S A} (r : result A) : M S A := fun s => (r, s).

(** [try: m  except Exception as e: h e] *)
Definition try_except {S A} (m : M S A) (h : exn -> M S A) : M S A :=
  fun s => match m s with
           | (Ok a, s') => (Ok a, s')
           | (Raise e, s') => h e s'
           end.

(** [try: m  finally: fin] where [fin] does not return: the outcome of [m]
    stands unless [fin] itself raises. *)
Definition try_finally {S A} (m : M S A) (fin : M S unit) : M S A :=
  fun s => match m s with
           | (r, s') =>
               match fin s' with
               | (Ok _, s'') => (r, s'')
               | (Raise e, s'') => (Raise e, s'')
               end
           end.

(** [if c: m] *)
Definition when {S} (c : bool) (m : M S unit) : M S unit :=
  if c then m else ret tt.

Declare Scope py_scope.
Delimit Scope py_scope with py.
Notation "'let*' x ':=' m 'in' k" := (bind m (fun x => k))
  (at level 10, x name, m at level 100, k at level 200) : py_scope.
Notation "'do*' m 'in' k" := (bind m (fun _ => k))
  (at level 10, m at level 100, k at level 200) : py_scope.

(** [for x in l: body x], threading the loop-carried local [acc]. *)
Fixpoint for_fold {S A X} (l : list X) (body : X -> A -> M S A) (acc : A)
  : M S A :=
  match l with
  | [] => ret acc
  | x :: l' => bind (body x acc) (fun acc' => for_fold l' body acc')
  end.

End Py.

(** ** The local file system

    A flat table from resolved names (lists of components) to nodes, kept
    in creation order.  The root [[]] is always a directory.  Directory
    listings come out in creation order: Python leaves the order of
    [os.listdir] and [glob.glob] unspecified, and this is one order the
    interpreter may produce. *)
Module FS.
Import Py.

Inductive node : Type :=
| File (data : string)
| Dir.

Definition path : Type := list string.
Definition t : Type := list (path * node).

Fixpoint assoc (p : path) (fs : t) : option node :=
  match fs with
  | [] => None
  | (q, n) :: rest => if decide (p = q) then Some n else assoc p rest
  end.

Definition lookup (p : path) (fs : t) : option node :=
  match p with
  | [] => Some Dir
  | _ => assoc p fs
  end.

Definition parent (p : path) : path := removelast p.

Fixpoint is_prefix (d q : path) : bool :=
  match d, q with
  | [], _ => true
  | x :: d', y :: q' => bool_decide (x = y) && is_prefix d' q'
  | _ :: _, [] => false
  end.

Definition isfile (p : path) (fs : t) : bool :=
  match lookup p fs with Some (File _) => true | _ => false end.
Definition isdir (p : path) (fs : t) : bool :=
  match lookup p fs with Some Dir => true | _ => false end.
Definition exists_ (p : path) (fs : t) : bool :=
  match lookup p fs with Some _ => true | None => false end.

(** Replace the node stored at [p], keeping its position. *)
Fixpoint replace (p : path) (n : node) (fs : t) : t :=
  match fs with
  | [] => []
  | (q, m) :: rest =>
      if decide (p = q) then (q, n) :: rest else (q, m) :: replace p n rest
  end.

(** Creating an entry needs its parent directory. *)
Definition create (nm : string) (p : path) (n : node) (fs : t) : result t :=
  match lookup (parent p) fs with
  | Some Dir => Ok (fs ++ [(p, n)])
  | Some (File _) => Raise (NotADirectoryError nm)
  | None => Raise (FileNotFoundError nm)
  end.

(** [os.mkdir] *)
Definition mkdir (nm : string) (p : path) (fs : t) : result t :=
  match lookup p fs with
  | Some _ => Raise (FileExistsError nm)
  | None => create nm p Dir fs
  end.

(** [open(p, 'w')] followed by one [write] and [close]. *)
Definition write (nm : string) (p : path) (data : string) (fs : t) : result t :=
  match lookup p fs with
  | Some Dir => Raise (IsADirectoryError nm)
  | Some (File _) => Ok (replace p (File data) fs)
  | None => create nm p (File data) fs
  end.

(** [open(p).read()] *)
Definition read (nm : string) (p : path) (fs : t) : result string :=
  match lookup p fs with
  | Some (File d) => Ok d
  | Some Dir => Raise (IsADirectoryError nm)
  | None => Raise (FileNotFoundError nm)
  end.

Definition child_name (d : path) (e : path * node) : option string :=
  match e.1 with
  | [] => None
  | q => if decide (parent q = d) then Some (List.last q EmptyString) else None
  end.

Definition children (d : path) (fs : t) : list string :=
  omap (child_name d) fs.

(** [os.listdir] *)
Definition listdir (nm : string) (p : path) (fs : t) : result (list string) :=
  match lookup p fs with
  | Some Dir => Ok (children p fs)
  | Some (File _) => Raise (NotADirectoryError nm)
  | None => Raise (FileNotFoundError nm)
  end.

Definition outside (d : path) (e : path * node) : bool := negb (is_prefix d e.1).

(** [shutil.rmtree]; the root itself cannot be removed. *)
Definition rmtree (nm : string) (p : path) (fs : t) : result t :=
  match p with
  | [] => Raise (OSError nm)
  | _ =>
      match lookup p fs with
      | Some Dir => Ok (List.filter (outside p) fs)
      | Some (File _) => Raise (NotADirectoryError nm)
      | None => Raise (FileNotFoundError nm)
      end
  end.

(** [os.makedirs] without [exist_ok]: the missing ancestors are created
    on the way. *)
Fixpoint makedirs_from (nm : string) (done : path) (rest : list string)
  (fs : t) : result t :=
  match rest with
  | [] => Ok fs
  | c :: rest' =>
      let d := done ++ [c] in
      match lookup d fs with
      | Some Dir => makedirs_from nm d rest' fs
      | Some (File _) => Raise (NotADirectoryError nm)
      | None => makedirs_from nm d rest' (fs ++ [(d, Dir)])
      end
  end.

Definition makedirs (nm : string) (p : path) (fs : t) : result t :=
  match lookup p fs with
  | Some _ => Raise (FileExistsError nm)
  | None => makedirs_from nm [] p fs
  end.

(** The entries strictly below [src], renamed below [dst]. *)
Definition moved (src dst : path) (e : path * node) : option (path * node) :=
  if is_prefix src e.1 && negb (bool_decide (e.1 = src))
  then Some (dst ++ drop (length src) e.1, e.2)
  else None.

(** [shutil.copytree(src, dst)] *)
Definition copytree (nsrc ndst : string) (src dst : path) (fs : t) : result t :=
  match lookup src fs with
  | Some Dir =>
      match makedirs ndst dst fs with
      | Ok fs' => Ok (fs' ++ omap (moved src dst) fs)
      | Raise e => Raise e
      end
  | Some (File _) => Raise (NotADirectoryError nsrc)
  | None => Raise (FileNotFoundError nsrc)
  end.

(** A table is well formed when every entry has a name and sits in a
    directory of the table (or in the root). *)
Definition wf (fs : t) : bool :=
  forallb (fun e => match e.1 with
                    | [] => false
                    | p => isdir (parent p) fs
                    end) fs.

End FS.

(** ** The world outside the interpreter *)
Module Os.
Import Py PyStr.

Inductive proc_outcome : Type :=
| Exited (returncode : Z)
| SpawnFailed.

(** What an observer of the run can see, oldest first. *)
Inductive event : Type :=
| EvHttp (url : string)
| EvExec (cmd : list string) (outcome : proc_outcome)
| EvSleep (secs : N)
| EvStage (local_path artifact_name : string)
| EvCommit
| EvLog (level msg : string)
| EvPrint (msg : string).

Record World : Type := mkWorld {
  fs : FS.t;
  cwd : FS.path;
  clock : nat;
  events : list event
}.

(** The parts of the environment the program cannot control.  Both take the
    time of the call, so that a server or a tool may answer differently from
    one attempt to the next.
    - [http_get t url]: status and body, or [None] when the transport fails;
    - [run_process t cwd cmd fs]: exit code, standard output, standard
      error and the file system the process leaves behind, or [None] when
      the program cannot be started.
    The third part stands for a piece of the library that is not spelled
    out here:
    - [glob_dirs cwd fs pattern]: the directories [glob] finds for a
      directory pattern that has wildcards in it. *)
Record Env : Type := mkEnv {
  http_get : nat -> string -> option (Z * string);
  run_process : nat -> FS.path -> list string -> FS.t ->
                option (Z * string * string * FS.t);
  glob_dirs : FS.path -> FS.t -> string -> list string
}.

Definition set_fs (f : FS.t) (w : World) : World :=
  mkWorld f (cwd w) (clock w) (events w).
Definition set_cwd (c : FS.path) (w : World) : World :=
  mkWorld (fs w) c (clock w) (events w).
Definition emit (e : event) : M World unit :=
  modify (fun w => mkWorld (fs w) (cwd w) (clock w) (events w ++ [e])).
Definition tick : M World nat :=
  fun w => (Ok (clock w), mkWorld (fs w) (cwd w) (S (clock w)) (events w)).

Definition log (level msg : string) : M World unit := emit (EvLog level msg).
Definition print (msg : string) : M World unit := emit (EvPrint msg).
Definition sleep (secs : N) : M World unit := emit (EvSleep secs).

(** Run a file-system operation on the node a name resolves to. *)
Definition on_path {A} (p : string) (missing : result A)
  (op : FS.path -> FS.t -> result A) : M World A :=
  fun w => match OsPath.resolve (cwd w) p with
           | Some q => (op q (fs w), w)
           | None => (missing, w)
           end.

Definition update_path (p : string) (op : FS.path -> FS.t -> result FS.t)
  : M World unit :=
  fun w => match OsPath.resolve (cwd w) p with
           | Some q => match op q (fs w) with
                       | Ok f => (Ok tt, set_fs f w)
                       | Raise e => (Raise e, w)
                       end
           | None => (Raise (FileNotFoundError p), w)
           end.

Definition isfile (p : string) : M World bool :=
  on_path p (Ok false) (fun q f => Ok (FS.isfile q f)).
Definition isdir (p : string) : M World bool :=
  on_path p (Ok false) (fun q f => Ok (FS.isdir q f)).
Definition exists_ (p : string) : M World bool :=
  on_path p (Ok false) (fun q f => Ok (FS.exists_ q f)).

Definition mkdir (p : string) : M World unit := update_path p (FS.mkdir p).
Definition makedirs (p : string) : M World unit := update_path p (FS.makedirs p).
Definition rmtree (p : string) : M World unit := update_path p (FS.rmtree p).
Definition write_file (p data : string) : M World unit :=
  update_path p (fun q => FS.write p q data).
Definition read_file (p : string) : M World string :=
  on_path p (Raise (FileNotFoundError p)) (FS.read p).
Definition listdir (p : string) : M World (list string) :=
  on_path p (Raise (FileNotFoundError p)) (FS.listdir p).

(** [shutil.copyfile(src, dst)] *)
Definition copyfile (src dst : string) : M World unit :=
  (let* data := read_file src in write_file dst data)%py.

(** [shutil.copy(src, dst)]: into [dst] when it is a directory. *)
Definition copy (src dst : string) : M World unit :=
  (let* d := isdir dst in
   copyfile src (if d then OsPath.join dst (OsPath.basename src) else dst))%py.

(** [shutil.copytree(src, dst)] *)
Definition copytree (src dst : string) : M World unit :=
  fun w => match OsPath.resolve (cwd w) src, OsPath.resolve (cwd w) dst with
           | Some s, Some d =>
               match FS.copytree src dst s d (fs w) with
               | Ok f => (Ok tt, set_fs f w)
               | Raise e => (Raise e, w)
               end
           | None, _ => (Raise (FileNotFoundError src), w)
           | _, None => (Raise (FileNotFoundError dst), w)
           end.

(** [os.getcwd()] and [os.chdir(p)] *)
Definition getcwd : M World string :=
  gets (fun w => "/" +:+ join_with "/" (cwd w)).

Definition chdir (p : string) : M World unit :=
  fun w => match OsPath.resolve (cwd w) p with
           | Some q => match FS.lookup q (fs w) with
                       | Some FS.Dir => (Ok tt, set_cwd q w)
                       | Some (FS.File _) => (Raise (NotADirectoryError p), w)
                       | None => (Raise (FileNotFoundError p), w)
                       end
           | None => (Raise (FileNotFoundError p), w)
           end.

(** The entries of the directory [d] that [glob] matches against [*]
    followed by the plain text [suffix]: those that end in that text and do
    not start with a dot (a leading dot is matched only by a pattern that
    starts with one).  A directory that cannot be listed has none. *)
Definition glob_match (suffix name : string) : bool :=
  endswith suffix name && negb (startswith "." name).

Definition glob_in_dir (d suffix : string) (w : World) : list string :=
  let here := if String.eqb d "" then Some (cwd w) else OsPath.resolve (cwd w) d in
  let names :=
    match here with
    | Some q => match FS.listdir d q (fs w) with
                | Ok l => l
                | Raise _ => []
                end
    | None => []
    end in
  List.filter (glob_match suffix) names.

(** [tempfile.mkdtemp(dir=dir)]: candidate names are tried in turn until
    [os.mkdir] accepts one, at most [TMP_MAX] times.  The interpreter draws
    the candidates at random; here the k-th candidate is [tmp] followed by
    the decimal digits of [k]. *)
Definition TMP_MAX : nat := 100 * 100.

Definition temp_name (k : nat) : string := "tmp" +:+ str_of_nat k.

Fixpoint mkdtemp_from (fuel k : nat) (dir : string) : M World string :=
  match fuel with
  | O => raise (FileExistsError "No usable temporary directory name found")
  | S fuel' =>
      let file := OsPath.join dir (temp_name k) in
      fun w => match mkdir file w with
               | (Ok _, w') => (Ok file, w')
               | (Raise (FileExistsError _), w') => mkdtemp_from fuel' (S k) dir w'
               | (Raise e, w') => (Raise e, w')
               end
  end.

Definition mkdtemp (dir : string) : M World string :=
  mkdtemp_from TMP_MAX 0 dir.

Section WithEnv.
Context (E : Env).

(** [glob.glob(pattern)] for a pattern whose last component is [*] followed
    by plain text, which is what both patterns of the stager are.  The
    directory part is taken as it is written when it has no wildcard;
    otherwise it stands for the directories it expands to, and the last
    component is matched in each of them. *)
Definition glob_paths (pattern : string) (w : World) : list string :=
  let d := OsPath.dirname pattern in
  let suffix := match OsPath.basename pattern with
                | String "*" rest => rest
                | other => other
                end in
  let dirs := if has_magic d then glob_dirs E (cwd w) (fs w) d else [d] in
  flat_map (fun d' => map (OsPath.join d') (glob_in_dir d' suffix w)) dirs.

Definition glob (pattern : string) : M World (list string) :=
  fun w => (Ok (glob_paths pattern w), w).

(** One HTTP GET, as [httplib2.Http().request(url)] performs it. *)
Definition http_request (url : string) : M World (Z * string) :=
  (let* t := tick in
   do* emit (EvHttp url) in
   match http_get E t url with
   | Some r => ret r
   | None => raise (HttpLibError url)
   end)%py.

(** [subprocess.Popen(cmd).communicate()] with both pipes captured. *)
Definition communicate (cmd : list string) : M World (Z * string * string) :=
  (let* t := tick in
   fun w => match run_process E t (cwd w) cmd (fs w) with
            | Some (rc, out, err, f) =>
                (do* emit (EvExec cmd (Exited rc)) in ret (rc, out, err))
                  (set_fs f w)
            | None =>
                (do* emit (EvExec cmd SpawnFailed) in
                 raise (OSError "cannot start the program")) w
            end)%py.

(** [processes.check_output(cmd)]: the output, or [CalledProcessError] on
    a non-zero exit code. *)
Definition check_output (cmd : list string) : M World string :=
  (let* r := communicate cmd in
   match r with
   | (rc, out, _) =>
       if (rc =? 0)%Z then ret out else raise (CalledProcessError rc cmd)
   end)%py.

End WithEnv.

End Os.

(** ** [apache_beam.io.filesystems.FileSystems] *)
Module FileSystems.

(** Modelled from the spec: [FileSystems.join] and the splitting done by
    [FileSystems.split], of [apache_beam.io.filesystems], which is not among
    the sources.  The spec has a staged resource carry a name with no path
    component below the staging location; on the slash-separated local and
    remote names the stager handles, joining and splitting are those of
    [os.path]. *)
Definition join (basepath name : string) : string := OsPath.join basepath name.
Definition split_path (p : string) : string * string := OsPath.split p.

(** [FileSystems.split(p)] first asks for the file system that is
    registered for the scheme of [p] and raises [ValueError] when there is
    none.  Which paths have a file system depends on the installation: it
    is the parameter [has_filesystem].  The stager joins below the staging
    location and below its own temporary directory only; [join] is taken
    on paths that have a file system. *)
Definition split (has_filesystem : string -> bool) (p : string)
  : Py.result (string * string) :=
  if has_filesystem p then Py.Ok (split_path p)
  else Py.Raise (Py.ValueError
         ("Unable to get filesystem from specified path, please use the correct path or ensure the required dependency is installed. Path specified: "
          +:+ p)).

End FileSystems.

(** ** [stager.py] *)
Module Stager.
Import Py PyStr Os.

(** Standard file names used for staging files. *)
Definition WORKFLOW_TARBALL_FILE : string := "workflow.tar.gz".
Definition REQUIREMENTS_FILE : string := "requirements.txt".
Definition EXTRA_PACKAGES_FILE : string := "extra_packages.txt".

Definition retry_on_non_zero_exit (exception : exn) : bool :=
  match exception with
  | CalledProcessError returncode _ => negb (returncode =? 0)%Z
  | _ => false
  end.

(** The abstract class: an implementation provides [stage_artifact] and
    [commit_manifest].  The staging location and the manifest are the
    implementation's own state [B]; it may read the local world, which it
    does not change. *)
Class Stager (B : Type) : Type := {
  stage_artifact : World -> string -> string -> B -> result unit * B;
  commit_manifest : World -> B -> result string * B
}.

Record State (B : Type) : Type := mkState {
  world : World;
  backend : B
}.
Arguments mkState {B} world backend.
Arguments world {B} s.
Arguments backend {B} s.

(** The options the stager reads.  [experiment_jar_packages] is the value of
    [lookup_experiment('jar_packages')]; [sdk_location] is [None] when the
    options object has no such attribute. *)
Record PipelineOptions : Type := mkOptions {
  requirements_file : option string;
  requirements_cache : option string;
  setup_file : option string;
  extra_packages : option (list string);
  experiment_jar_packages : option string;
  save_main_session : bool;
  sdk_location : option string;
  dataflow_worker_jar : option string
}.

(** Names and facts the module imports or asks the interpreter for;
    [has_filesystem p] says whether [FileSystems] has a file system for the
    path [p]. *)
Record StagerEnv : Type := mkStagerEnv {
  os_env : Env;
  BEAM_PACKAGE_NAME : string;
  DATAFLOW_SDK_TARBALL_FILE : string;
  PICKLED_MAIN_SESSION_FILE : string;
  gettempdir : string;
  environ_BEAM_PYTHON : option string;
  sys_executable : string;
  sys_version_info : nat * nat;
  distribution_version : string -> option string;
  pickled_session : option string;
  initial_delay_secs : N;
  has_filesystem : string -> bool
}.

Definition Populate : Type :=
  string -> string -> FS.path -> FS.t -> result unit * FS.t.

Section WithBackend.
Context {B : Type} `{Stager B} (E : StagerEnv).

Local Open Scope py_scope.

(** A step that only touches the local world. *)
Definition liftW {A} (m : M World A) : M (State B) A :=
  fun s => match m (world s) with
           | (r, w) => (r, mkState w (backend s))
           end.

Definition self_stage_artifact (local_path_to_artifact artifact_name : string)
  : M (State B) unit :=
  do* liftW (emit (EvStage local_path_to_artifact artifact_name)) in
  fun s => match stage_artifact (world s) local_path_to_artifact artifact_name
                   (backend s) with
           | (r, b) => (r, mkState (world s) b)
           end.

Definition self_commit_manifest : M (State B) string :=
  do* liftW (emit EvCommit) in
  fun s => match commit_manifest (world s) (backend s) with
           | (r, b) => (r, mkState (world s) b)
           end.

(** [Stager._download_file].  A response body and the contents of a file
    are both strings of bytes here, as [str] is under Python 2, which the
    source still supports (see the ABI tag in [_stage_beam_sdk]): the body
    is written as it was received. *)
Definition _download_file (from_url to_path : string) : M World unit :=
  if startswith "http://" from_url || startswith "https://" from_url then
    try_except
      (let* r := http_request (os_env E) from_url in
       if (400 <=? r.1)%Z then
         raise (RuntimeError ("Artifact not found at " +:+ from_url))
       else write_file to_path r.2)
      (fun e =>
         do* log "info" "Failed to download Artifact from %s" in
         raise e)
  else
    let* d := isdir (OsPath.dirname to_path) in
    do* when (negb d)
          (do* log "info" "Created folder (since we have not done yet, and any errors will follow): %s " in
           mkdir (OsPath.dirname to_path)) in
    copyfile from_url to_path.

Definition _is_remote_path (path : string) : bool := contains "://" path.

(** The first loop of [_stage_jar_packages]: [local_packages] is the
    loop-carried list. *)
Definition jar_package_step (staging_temp_dir package : string)
  (local_packages : list string) : M World (list string) :=
  if negb (endswith ".jar" (OsPath.basename package)) then
    raise (RuntimeError
      ("The --experiment='jar_packages=' option expects a full path ending with .jar instead of "
       +:+ package))
  else
    let* f := isfile package in
    if negb f then
      if _is_remote_path package then
        do* log "info" "Downloading jar package: %s locally before staging" in
        let* parts := of_result (FileSystems.split (has_filesystem E) package) in
        let last_component := parts.2 in
        let local_file_path := FileSystems.join staging_temp_dir last_component in
        do* _download_file package local_file_path in
        ret local_packages
      else
        raise (RuntimeError
          ("The file " +:+ package +:+
           " cannot be found. It was specified in the --experiment='jar_packages=' command line option."))
    else ret (local_packages ++ [package]).

(** The staging loop shared by the jar and extra-package paths. *)
Definition stage_package_step (staging_location package : string)
  (resources : list string) : M (State B) (list string) :=
  let basename := OsPath.basename package in
  let staged_path := FileSystems.join staging_location basename in
  do* self_stage_artifact package staged_path in
  ret (resources ++ [basename]).

Definition _stage_jar_packages (jar_packages : list string)
  (staging_location temp_dir : string) : M (State B) (list string) :=
  let resources := [] in
  let* staging_temp_dir := liftW (mkdtemp temp_dir) in
  let local_packages := [] in
  let* local_packages :=
    liftW (for_fold jar_packages (jar_package_step staging_temp_dir) local_packages) in
  let* names := liftW (listdir staging_temp_dir) in
  let local_packages :=
    local_packages ++ map (FileSystems.join staging_temp_dir) names in
  let* resources :=
    for_fold local_packages (stage_package_step staging_location) resources in
  ret resources.

Definition supported_extra_package (package : string) : bool :=
  endswith ".tar" (OsPath.basename package)
  || endswith ".tar.gz" (OsPath.basename package)
  || endswith ".whl" (OsPath.basename package)
  || endswith ".zip" (OsPath.basename package).

Definition extra_package_step (staging_temp_dir package : string)
  (local_packages : list string) : M World (list string) :=
  if negb (supported_extra_package package) then
    raise (RuntimeError
      ("The --extra_package option expects a full path ending with .tar, .tar.gz, .whl or .zip instead of "
       +:+ package))
  else
    do* when (endswith ".whl" (OsPath.basename package))
          (log "warning" "The .whl package %s is provided in --extra_package. This functionality is not officially supported.") in
    let* f := isfile package in
    if negb f then
      if _is_remote_path package then
        do* log "info" "Downloading extra package: %s locally before staging" in
        let* parts := of_result (FileSystems.split (has_filesystem E) package) in
        let last_component := parts.2 in
        let local_file_path := FileSystems.join staging_temp_dir last_component in
        do* _download_file package local_file_path in
        ret local_packages
      else
        raise (RuntimeError
          ("The file " +:+ package +:+
           " cannot be found. It was specified in the --extra_packages command line option."))
    else ret (local_packages ++ [package]).

(** The lines written to [extra_packages.txt]. *)
Definition manifest_text (local_packages : list string) : string :=
  fold_right (fun package acc => OsPath.basename package +:+ newline +:+ acc)
             "" local_packages.

Definition _stage_extra_packages (extra_packages : list string)
  (staging_location temp_dir : string) : M (State B) (list string) :=
  let resources := [] in
  let* staging_temp_dir := liftW (mkdtemp temp_dir) in
  let local_packages := [] in
  let* local_packages :=
    liftW (for_fold extra_packages (extra_package_step staging_temp_dir) local_packages) in
  let* names := liftW (listdir staging_temp_dir) in
  let local_packages :=
    local_packages ++ map (FileSystems.join staging_temp_dir) names in
  let* resources :=
    for_fold local_packages (stage_package_step staging_location) resources in
  do* liftW (write_file (OsPath.join temp_dir EXTRA_PACKAGES_FILE)
                        (manifest_text local_packages)) in
  let staged_path := FileSystems.join staging_location EXTRA_PACKAGES_FILE in
  do* self_stage_artifact (OsPath.join temp_dir EXTRA_PACKAGES_FILE) staged_path in
  ret (resources ++ [EXTRA_PACKAGES_FILE]).

Definition _get_python_executable : M World string :=
  let python_bin :=
    match environ_BEAM_PYTHON E with
    | Some b => if String.eqb b "" then sys_executable E else b
    | None => sys_executable E
    end in
  if String.eqb python_bin "" then
    raise (ValueError "Could not find Python executable.")
  else ret python_bin.

(** Modelled from the spec: the decorator [retry.with_exponential_backoff]
    of [apache_beam.utils.retry], which is not among the sources.  In the
    spec's words the decorated download makes 4 attempts, with exponential
    backoff, and is only retried on a failure the filter accepts:
    [num_retries] counts the attempts, the pause before the next attempt
    doubles each time, and a failure the filter rejects is raised at once. *)
Fixpoint backoff_loop {S A} (pause : N -> M S unit) (retry_filter : exn -> bool)
  (more : nat) (delay : N) (fn : M S A) : M S A :=
  try_except fn
    (fun exn_ =>
       if negb (retry_filter exn_) then raise exn_
       else match more with
            | O => raise exn_
            | S more' =>
                do* pause delay in
                backoff_loop pause retry_filter more' (2 * delay)%N fn
            end).

Definition with_exponential_backoff {S A} (pause : N -> M S unit)
  (num_retries : nat) (retry_filter : exn -> bool) (initial_delay : N)
  (fn : M S A) : M S A :=
  backoff_loop pause retry_filter (pred num_retries) initial_delay fn.

(** The undecorated body of [_populate_requirements_cache]. *)
Definition pip_download_requirements (requirements_file cache_dir : string)
  : M World unit :=
  let* python := _get_python_executable in
  let cmd_args :=
    [python; "-m"; "pip"; "download"; "--dest"; cache_dir; "-r";
     requirements_file; "--exists-action"; "i"; "--no-binary"; ":all:"] in
  do* log "info" "Executing command: %s" in
  do* check_output (os_env E) cmd_args in
  ret tt.

Definition _populate_requirements_cache (requirements_file cache_dir : string)
  : M World unit :=
  with_exponential_backoff sleep 4 retry_on_non_zero_exit (initial_delay_secs E)
    (pip_download_requirements requirements_file cache_dir).

Definition _build_setup_package (setup_file temp_dir : string)
  (build_setup_args : option (list string)) : M World string :=
  let* saved_current_directory := getcwd in
  try_finally
    (do* chdir (OsPath.dirname setup_file) in
     let* build_setup_args :=
       match build_setup_args with
       | None =>
           let* python := _get_python_executable in
           ret [python; OsPath.basename setup_file; "sdist"; "--dist-dir"; temp_dir]
       | Some args => ret args
       end in
     do* log "info" "Executing command: %s" in
     do* check_output (os_env E) build_setup_args in
     let* output_files := glob (os_env E) (OsPath.join temp_dir "*.tar.gz") in
     match output_files with
     | [] => raise (RuntimeError
                      ("File " +:+ OsPath.join temp_dir "*.tar.gz" +:+ " not found."))
     | first :: _ => ret first
     end)
    (chdir saved_current_directory).

Definition _desired_sdk_filename_in_staging_location (sdk_location : string)
  : result string :=
  if endswith ".whl" sdk_location then
    match FileSystems.split (has_filesystem E) sdk_location with
    | Ok parts =>
        let wheel_filename := parts.2 in
        if startswith "apache_beam" wheel_filename then Ok wheel_filename
        else Raise (RuntimeError ("Unrecognized SDK wheel file: " +:+ sdk_location))
    | Raise e => Raise e
    end
  else Ok (DATAFLOW_SDK_TARBALL_FILE E).

Definition first_existing (expected_files : list string) : M World (option string) :=
  for_fold expected_files
    (fun sdk_file found =>
       match found with
       | Some _ => ret found
       | None =>
           let* e := exists_ sdk_file in
           ret (if e then Some sdk_file else None)
       end) None.

Definition _download_pypi_sdk_package (temp_dir : string) (fetch_binary : bool)
  (language_version_tag language_implementation_tag abi_tag platform_tag : string)
  : M World string :=
  let package_name := BEAM_PACKAGE_NAME E in
  let* version :=
    match distribution_version E package_name with
    | Some v => ret v
    | None =>
        raise (RuntimeError
          ("Please set --sdk_location command-line option or install a valid "
           +:+ package_name +:+ " distribution."))
    end in
  let* python := _get_python_executable in
  let cmd_args :=
    [python; "-m"; "pip"; "download"; "--dest"; temp_dir;
     package_name +:+ "==" +:+ version; "--no-deps"] in
  let* plan :=
    if fetch_binary then
      do* log "info" "Downloading binary distribution of the SDK from PyPi" in
      ret (cmd_args ++
             ["--only-binary"; ":all:"; "--python-version"; language_version_tag;
              "--implementation"; language_implementation_tag;
              "--abi"; abi_tag; "--platform"; platform_tag],
           [OsPath.join temp_dir
              (replace_char "-" "_" package_name +:+ "-" +:+ version +:+ "-"
               +:+ language_implementation_tag +:+ language_version_tag +:+ "-"
               +:+ abi_tag +:+ "-" +:+ platform_tag +:+ ".whl")])
    else
      do* log "info" "Downloading source distribution of the SDK from PyPi" in
      ret (cmd_args ++ ["--no-binary"; ":all:"],
           [OsPath.join temp_dir (package_name +:+ "-" +:+ version +:+ ".zip");
            OsPath.join temp_dir (package_name +:+ "-" +:+ version +:+ ".tar.gz")])
  in
  let cmd_args := plan.1 in
  let expected_files := plan.2 in
  do* log "info" "Executing command: %s" in
  do* try_except (check_output (os_env E) cmd_args)
        (fun e =>
           match e with
           | CalledProcessError _ _ => raise (RuntimeError "CalledProcessError")
           | _ => raise e
           end) in
  let* found := first_existing expected_files in
  match found with
  | Some sdk_file => ret sdk_file
  | None =>
      raise (RuntimeError
        "Failed to download a distribution for the running SDK. Expected either one of %s to be found in the download folder.")
  end.

Definition _stage_beam_sdk (sdk_remote_location staging_location temp_dir : string)
  : M (State B) (list string) :=
  if String.eqb sdk_remote_location "pypi" then
    let* sdk_local_file :=
      liftW (_download_pypi_sdk_package temp_dir false "27" "cp" "cp27mu"
               "manylinux1_x86_64") in
    let* sdk_sources_staged_name :=
      of_result (_desired_sdk_filename_in_staging_location sdk_local_file) in
    let staged_path := FileSystems.join staging_location sdk_sources_staged_name in
    do* liftW (log "info" "Staging SDK sources from PyPI to %s") in
    do* self_stage_artifact sdk_local_file staged_path in
    let staged_sdk_files := [sdk_sources_staged_name] in
    try_except
      (let major := (sys_version_info E).1 in
       let minor := (sys_version_info E).2 in
       let* sdk_local_file :=
         liftW (_download_pypi_sdk_package temp_dir true
                  (str_of_nat major +:+ str_of_nat minor) "cp"
                  ("cp" +:+ str_of_nat major +:+ str_of_nat minor +:+
                   (if (major <? 3)%nat then "mu" else "m"))
                  "manylinux1_x86_64") in
       let* sdk_binary_staged_name :=
         of_result (_desired_sdk_filename_in_staging_location sdk_local_file) in
       let staged_path := FileSystems.join staging_location sdk_binary_staged_name in
       do* liftW (log "info" "Staging binary distribution of the SDK from PyPI to %s") in
       do* self_stage_artifact sdk_local_file staged_path in
       ret (staged_sdk_files ++ [sdk_binary_staged_name]))
      (fun e =>
         if is_RuntimeError e then
           do* liftW (log "warning" "Failed to download requested binary distribution of the SDK: %s") in
           ret staged_sdk_files
         else raise e)
  else if _is_remote_path sdk_remote_location then
    let local_download_file := OsPath.join temp_dir "beam-sdk.tar.gz" in
    do* liftW (_download_file sdk_remote_location local_download_file) in
    let* staged_name :=
      of_result (_desired_sdk_filename_in_staging_location sdk_remote_location) in
    let staged_path := FileSystems.join staging_location staged_name in
    do* liftW (log "info" "Staging Beam SDK from %s to %s") in
    do* self_stage_artifact local_download_file staged_path in
    ret [staged_name]
  else
    raise (RuntimeError
      ("The --sdk_location option was used with an unsupported type of location: "
       +:+ sdk_remote_location)).

(** The test hook [populate_requirements_cache]: a callable that fills the
    cache directory, that is, acts on the file system. *)
Definition call_populate (callable : Populate) (requirements_file cache_dir : string)
  : M World unit :=
  fun w => match callable requirements_file cache_dir (cwd w) (fs w) with
           | (r, f) => (r, set_fs f w)
           end.

(** [stage_job_resources], one definition per block of the method; each
    block receives and returns the list [resources]. *)
Definition requirements_cache_path (options : PipelineOptions) : string :=
  match requirements_cache options with
  | None => OsPath.join (gettempdir E) "dataflow-requirements-cache"
  | Some c => c
  end.

Definition stage_cached_package (staging_location pkg : string)
  (resources : list string) : M (State B) (list string) :=
  do* self_stage_artifact pkg
        (FileSystems.join staging_location (OsPath.basename pkg)) in
  ret (resources ++ [OsPath.basename pkg]).

(** The requirements block up to and including the call that fills the
    cache directory. *)
Definition fetch_requirements (options : PipelineOptions)
  (populate_requirements_cache : option Populate)
  (staging_location rf : string) (resources : list string)
  : M (State B) (list string) :=
  let* f := liftW (isfile rf) in
  if negb f then
    raise (RuntimeError
      ("The file " +:+ rf +:+
       " cannot be found. It was specified in the --requirements_file command line option."))
  else
    let staged_path := FileSystems.join staging_location REQUIREMENTS_FILE in
    do* self_stage_artifact rf staged_path in
    let resources := resources ++ [REQUIREMENTS_FILE] in
    let* present := liftW (exists_ (requirements_cache_path options)) in
    do* when (negb present) (liftW (makedirs (requirements_cache_path options))) in
    do* liftW (match populate_requirements_cache with
               | Some callable => call_populate callable
               | None => _populate_requirements_cache
               end rf (requirements_cache_path options)) in
    ret resources.

Definition stage_requirements (options : PipelineOptions)
  (populate_requirements_cache : option Populate)
  (staging_location : string) (resources : list string)
  : M (State B) (list string) :=
  match requirements_file options with
  | None => ret resources
  | Some rf =>
      let* resources :=
        fetch_requirements options populate_requirements_cache staging_location rf
          resources in
      let* pkgs :=
        liftW (glob (os_env E) (OsPath.join (requirements_cache_path options) "*")) in
      for_fold pkgs (stage_cached_package staging_location) resources
  end.

Definition stage_setup_file (options : PipelineOptions)
  (build_setup_args : option (list string)) (temp_dir staging_location : string)
  (resources : list string) : M (State B) (list string) :=
  match setup_file options with
  | None => ret resources
  | Some sf =>
      let* f := liftW (isfile sf) in
      if negb f then
        raise (RuntimeError
          ("The file " +:+ sf +:+
           " cannot be found. It was specified in the --setup_file command line option."))
      else if negb (String.eqb (OsPath.basename sf) "setup.py") then
        raise (RuntimeError
          ("The --setup_file option expects the full path to a file named setup.py instead of "
           +:+ sf))
      else
        let* tarball_file := liftW (_build_setup_package sf temp_dir build_setup_args) in
        let staged_path := FileSystems.join staging_location WORKFLOW_TARBALL_FILE in
        do* self_stage_artifact tarball_file staged_path in
        ret (resources ++ [WORKFLOW_TARBALL_FILE])
  end.

Definition stage_extra (options : PipelineOptions) (temp_dir staging_location : string)
  (resources : list string) : M (State B) (list string) :=
  match extra_packages options with
  | None => ret resources
  | Some pkgs =>
      let* staged := _stage_extra_packages pkgs staging_location temp_dir in
      ret (resources ++ staged)
  end.

Definition stage_jars (options : PipelineOptions) (temp_dir staging_location : string)
  (resources : list string) : M (State B) (list string) :=
  match experiment_jar_packages options with
  | None => ret resources
  | Some jar_packages =>
      let* staged :=
        _stage_jar_packages (split_on "," jar_packages) staging_location temp_dir in
      ret (resources ++ staged)
  end.

(** [pickler.dump_session(file)] *)
Definition dump_session (file : string) : M World unit :=
  match pickled_session E with
  | Some data => write_file file data
  | None => raise PicklingError
  end.

Definition stage_main_session (options : PipelineOptions)
  (temp_dir staging_location : string) (resources : list string)
  : M (State B) (list string) :=
  if save_main_session options then
    let pickled_session_file := OsPath.join temp_dir (PICKLED_MAIN_SESSION_FILE E) in
    do* liftW (dump_session pickled_session_file) in
    let staged_path := FileSystems.join staging_location (PICKLED_MAIN_SESSION_FILE E) in
    do* self_stage_artifact pickled_session_file staged_path in
    ret (resources ++ [PICKLED_MAIN_SESSION_FILE E])
  else ret resources.

Definition stage_sdk (options : PipelineOptions) (temp_dir staging_location : string)
  (resources : list string) : M (State B) (list string) :=
  match sdk_location options with
  | None => ret resources
  | Some loc =>
      if String.eqb loc "default" || _is_remote_path loc then
        let sdk_remote_location := if String.eqb loc "default" then "pypi" else loc in
        let* staged := _stage_beam_sdk sdk_remote_location staging_location temp_dir in
        ret (resources ++ staged)
      else if String.eqb loc "container" then ret resources
      else
        let* d := liftW (isdir loc) in
        let sdk_path := if d then OsPath.join loc (DATAFLOW_SDK_TARBALL_FILE E) else loc in
        let* f := liftW (isfile sdk_path) in
        if f then
          do* liftW (log "info" "Copying Beam SDK %s to staging location.") in
          let* name := of_result (_desired_sdk_filename_in_staging_location loc) in
          let staged_path := FileSystems.join staging_location name in
          do* self_stage_artifact sdk_path staged_path in
          let* parts := of_result (FileSystems.split (has_filesystem E) staged_path) in
          let sdk_staged_filename := parts.2 in
          ret (resources ++ [sdk_staged_filename])
        else if String.eqb loc "default" then
          raise (RuntimeError ("Cannot find default Beam SDK tar file " +:+ sdk_path))
        else if String.eqb loc "" then
          do* liftW (log "info" "Beam SDK will not be staged since --sdk_location is empty.") in
          ret resources
        else
          raise (RuntimeError
            ("The file " +:+ sdk_path +:+
             " cannot be found. Its location was specified by the --sdk_location command-line option."))
  end.

Definition stage_worker_jar (options : PipelineOptions) (staging_location : string)
  (resources : list string) : M (State B) (list string) :=
  match dataflow_worker_jar options with
  | None => ret resources
  | Some jar =>
      let jar_staged_filename := "dataflow-worker.jar" in
      let staged_path := FileSystems.join staging_location jar_staged_filename in
      do* self_stage_artifact jar staged_path in
      ret (resources ++ [jar_staged_filename])
  end.

(** [temp_dir or tempfile.mkdtemp()] *)
Definition choose_temp_dir (temp_dir : option string) : M World string :=
  match temp_dir with
  | Some t => if String.eqb t "" then mkdtemp (gettempdir E) else ret t
  | None => mkdtemp (gettempdir E)
  end.

(** Everything between the choice of the temporary directory and its
    removal. *)
Definition stage_all (options : PipelineOptions)
  (build_setup_args : option (list string)) (temp_dir : string)
  (populate_requirements_cache : option Populate)
  (staging_location : option string) : M (State B) (list string) :=
  let resources := [] in
  match staging_location with
  | None => raise (RuntimeError "The staging_location must be specified.")
  | Some staging_location =>
      let* resources :=
        stage_requirements options populate_requirements_cache staging_location resources in
      let* resources :=
        stage_setup_file options build_setup_args temp_dir staging_location resources in
      let* resources := stage_extra options temp_dir staging_location resources in
      let* resources := stage_jars options temp_dir staging_location resources in
      let* resources := stage_main_session options temp_dir staging_location resources in
      let* resources := stage_sdk options temp_dir staging_location resources in
      stage_worker_jar options staging_location resources
  end.

Definition stage_job_resources (options : PipelineOptions)
  (build_setup_args : option (list string)) (temp_dir : option string)
  (populate_requirements_cache : option Populate)
  (staging_location : option string) : M (State B) (string * list string) :=
  let* temp_dir := liftW (choose_temp_dir temp_dir) in
  let* resources :=
    stage_all options build_setup_args temp_dir populate_requirements_cache
      staging_location in
  do* liftW (rmtree temp_dir) in
  let* retrieval_token := self_commit_manifest in
  ret (retrieval_token, resources).

End WithBackend.

End Stager.

(** ** [pull_licenses_py.py] *)
Module PullLicenses.
Import Py PyStr Os.

(** One entry of the JSON list printed by [pip-licenses]; the script reads
    the keys [Name] and [LicenseFile]. *)
Record Dep : Type := mkDep {
  Name : string;
  LicenseFile : string
}.

(** What the script gets from libraries: the JSON and YAML parsers, and the
    interpreter's version. *)
Record ScriptEnv : Type := mkScriptEnv {
  os_env : Env;
  json_loads : string -> result (list Dep);
  yaml_full_load : string -> result (gmap string (gmap string (gmap string string)));
  sys_version_info : nat * nat
}.

(** [tenacity.retry(stop=stop_after_attempt(n))]: the call is repeated, with
    no pause, as long as it raises; when the n-th attempt raises too, the
    decorator raises [RetryError].  A call that returns, whatever the value,
    is never repeated. *)
Fixpoint retry_loop {S A} (more : nat) (fn : M S A) : M S A :=
  try_except fn
    (fun e =>
       match more with
       | O => raise (RetryError e)
       | S more' => retry_loop more' fn
       end).

Definition retry {S A} (stop_after_attempt : nat) (fn : M S A) : M S A :=
  retry_loop (pred stop_after_attempt) fn.

(** [finally: fin; return result], where the local [result] is assigned by
    the last statement of the [try] body and of the handler.  The [return]
    discards an exception in flight; when neither the body nor the handler
    reached its last statement, [result] is unbound and reading it raises
    [UnboundLocalError]. *)
Definition finally_return_result {S A} (body_and_handler : M S A)
  (fin : M S unit) : M S A :=
  fun s => match body_and_handler s with
           | (r, s') =>
               match fin s' with
               | (Raise e, s'') => (Raise e, s'')
               | (Ok _, s'') =>
                   match r with
                   | Ok result_ => (Ok result_, s'')
                   | Raise _ => (Raise (UnboundLocalError "result"), s'')
                   end
               end
           end.

(** [e.decode('utf-8')] on an exception object: exceptions have no such
    attribute. *)
Definition exn_decode {S} (e : exn) : M S string :=
  raise (AttributeError "exception object has no attribute 'decode'").

Definition license_dir : string := "/opt/apache/beam/third_party_licenses".

Section WithEnv.
Context (E : ScriptEnv).

Local Open Scope py_scope.

(** [run_bash_command].  [Popen] takes the program from the head of the
    argument list and raises [IndexError] when the list is empty; the two
    streams are bytes and are decoded where the source decodes them. *)
Definition run_bash_command (command : string) : M World string :=
  let* r :=
    match split_whitespace command with
    | [] => raise (IndexError "list index out of range")
    | cmd => communicate (os_env E) cmd
    end in
  match r with
  | (_, result_, error) =>
      if negb (String.eqb error "") then
        let* text := of_result (decode_utf8 error) in
        raise (RuntimeError
          ("Error occurred when running a bash command. command: " +:+ command
           +:+ ", error: " +:+ text))
      else of_result (decode_utf8 result_)
  end.

Definition run_pip_licenses : M World (list Dep) :=
  let command := "pip-licenses --with-license-file --format=json" in
  let* dependencies := run_bash_command command in
  of_result (json_loads E dependencies).

(** The undecorated body of [copy_license_files]. *)
Definition copy_license_files_body (dep : Dep) : M World bool :=
  let source_license_file := LicenseFile dep in
  if String.eqb (lower source_license_file) "unknown" then ret false
  else
    let name := lower (Name dep) in
    let dest_dir := license_dir +:+ "/" +:+ name in
    try_except
      (do* mkdir dest_dir in
       do* copy source_license_file (dest_dir +:+ "/LICENSE") in
       do* print ("Successfully pulled license for " +:+ name +:+ " with pip-licenses.") in
       ret true)
      (fun e =>
         do* print (exn_str e) in
         ret false).

Definition copy_license_files (dep : Dep) : M World bool :=
  retry 3 (copy_license_files_body dep).

(** [wget.download(url, out)] *)
Definition wget_download (url out : string) : M World unit :=
  let* r := http_request (os_env E) url in
  if (400 <=? r.1)%Z then raise (HttpLibError url)
  else write_file out r.2.

(** The [try] body of [pull_from_url], up to [result = True]. *)
Definition pull_from_url_try (dep : string) (config : gmap string string)
  (dest_dir cur_temp_dir : string) : M World bool :=
  let* license :=
    match config !! "license" with
    | Some v => ret v
    | None => raise (KeyError "license")
    end in
  do* (if String.eqb license "skip" then
         print ("Skip pulling license for  " +:+ dep)
       else if String.eqb license "manual" then
         do* copyfile ("/tmp/manual_licenses/" +:+ dep +:+ "/LICENSE")
               (cur_temp_dir +:+ "/LICENSE") in
         print ("Successfully copied license for " +:+ dep +:+
                " from manual_licenses/" +:+ dep +:+ "/LICENSE.")
       else
         do* wget_download license (cur_temp_dir +:+ "/LICENSE") in
         print ("Successfully pulled license for " +:+ dep +:+ " from internet.")) in
  do* match config !! "notice" with
      | Some notice => wget_download notice (cur_temp_dir +:+ "/NOTICE")
      | None => ret tt
      end in
  let* entries := listdir cur_temp_dir in
  do* match entries with
      | [] => ret tt
      | _ :: _ => copytree cur_temp_dir dest_dir
      end in
  ret true.

(** The handler of [pull_from_url]: the message is built first, from
    [e.decode('utf-8')]; [result = False] comes after the [print]. *)
Definition pull_from_url_except (dep : string) (e : exn) : M World bool :=
  let* error := exn_decode e in
  do* print ("Error occurred when pull license for " +:+ dep +:+ " from %s. Error: "
             +:+ error) in
  ret false.

(** The undecorated body of [pull_from_url]. *)
Definition pull_from_url_body (dep : string)
  (configs : gmap string (gmap string string)) : M World bool :=
  match configs !! dep with
  | Some config =>
      let dest_dir := license_dir +:+ "/" +:+ dep in
      let cur_temp_dir := "temp_license_" +:+ dep in
      do* mkdir cur_temp_dir in
      finally_return_result
        (try_except (pull_from_url_try dep config dest_dir cur_temp_dir)
                    (pull_from_url_except dep))
        (rmtree cur_temp_dir)
  | None => ret false
  end.

Definition pull_from_url (dep : string)
  (configs : gmap string (gmap string string)) : M World bool :=
  retry 3 (pull_from_url_body dep configs).

(** The text of the final [RuntimeError]. *)
Definition how_to : string :=
  "These licenses were not able to be pulled automatically. Please search code source of the dependencies on the internet and add urls to RAW license file at sdks/python/container/license_scripts/dep_urls_py.yaml for each missing license and rerun the test. If no such urls can be found, you need to manually add LICENSE and NOTICE (if possible) files at sdks/python/container/license_scripts/manual_licenses/{dep}/ and add entries to sdks/python/container/license_scripts/dep_urls_py.yaml.".

Definition missing_licenses_message (no_licenses : list string) : string :=
  let py_ver := str_of_nat (sys_version_info E).1 +:+ "." +:+
                str_of_nat (sys_version_info E).2 in
  "Some dependencies are missing licenses at python" +:+ py_ver +:+
  " environment. " +:+ repr_list no_licenses +:+ " " +:+ newline +:+ " " +:+ how_to.

(** [copy_license_files(dep) or pull_from_url(name, configs)]: the second
    call, and the lookup of [pip_dependencies] among its arguments, happen
    only when the first returns [False]. *)
Definition obtain_license
  (dep_config : gmap string (gmap string (gmap string string)))
  (dep : Dep) : M World bool :=
  let* copied := copy_license_files dep in
  if copied then ret true
  else
    let* configs :=
      match dep_config !! "pip_dependencies" with
      | Some c => ret c
      | None => raise (KeyError "pip_dependencies")
      end in
    pull_from_url (lower (Name dep)) configs.

(** One round of the loop over [dependencies]; [no_licenses] is the
    loop-carried list. *)
Definition license_step
  (dep_config : gmap string (gmap string (gmap string string)))
  (dep : Dep) (no_licenses : list string) : M World (list string) :=
  let* obtained := obtain_license dep_config dep in
  if negb obtained then ret (no_licenses ++ [lower (Name dep)])
  else ret no_licenses.

(** The script's [__main__] block. *)
Definition main : M World unit :=
  do* makedirs license_dir in
  let no_licenses := [] in
  let* text := read_file "/tmp/dep_urls_py.yaml" in
  let* dep_config := of_result (yaml_full_load E text) in
  let* dependencies := run_pip_licenses in
  let* no_licenses := for_fold dependencies (license_step dep_config) no_licenses in
  match no_licenses with
  | [] => ret tt
  | _ :: _ => raise (RuntimeError (missing_licenses_message no_licenses))
  end.

End WithEnv.

End PullLicenses.


(** ** The class [Stager] on its own *)
Module StagerBase.
Import Py.

(** [Stager.stage_artifact] and [Stager.commit_manifest] as the class
    itself defines them: both raise [NotImplementedError]. *)
Definition abstract_stager : Stager.Stager unit := {|
  Stager.stage_artifact _ _ _ b := (Raise NotImplementedError, b);
  Stager.commit_manifest _ b := (Raise NotImplementedError, b)
|}.

End StagerBase.
(** ** Concrete worlds on which the programs are run *)
Module Scenario.
Import Py PyStr Os.

(** A staging backend in the manner of a local-disk stager: it copies the
    bytes of the local file under the artifact's name and fails when the
    file cannot be read; committing hands out a token and counts. *)
Record Disk : Type := mkDisk {
  staged : list (string * string);
  commits : nat
}.

#[export] Instance disk_stager : Stager.Stager Disk := {|
  Stager.stage_artifact w local_path artifact_name b :=
    match read_file local_path w with
    | (Ok data, _) => (Ok tt, mkDisk (staged b ++ [(artifact_name, data)]) (commits b))
    | (Raise e, _) => (Raise e, b)
    end;
  Stager.commit_manifest w b := (Ok "token", mkDisk (staged b) (S (commits b)))
|}.

(** An installation that has the local file system only: a path that
    starts with a scheme (a letter, then letters, digits, [+], [-] or [.],
    then [://]) has no file system. *)
Definition scheme_char (a : ascii) : bool :=
  let x := nat_of_ascii a in
  (((65 <=? x) && (x <=? 90)) || ((97 <=? x) && (x <=? 122))
   || ((48 <=? x) && (x <=? 57)) || (x =? 43) || (x =? 45) || (x =? 46))%nat.

Fixpoint scheme_ends (s : string) : bool :=
  if String.prefix "://" s then true
  else match s with
       | EmptyString => false
       | String a s' => scheme_char a && scheme_ends s'
       end.

Definition has_scheme (p : string) : bool :=
  match p with
  | EmptyString => false
  | String a s' =>
      let x := nat_of_ascii a in
      (((65 <=? x) && (x <=? 90)) || ((97 <=? x) && (x <=? 122)))%nat
      && scheme_ends s'
  end.

Definition local_file_system_only (p : string) : bool := negb (has_scheme p).

(** No directory pattern with wildcards occurs in the runs below. *)
Definition no_glob_dirs : FS.path -> FS.t -> string -> list string :=
  fun _ _ _ => [].

(** A network that serves two archives, a jar and a notice, and a machine
    on which no program can be started and no Beam distribution is
    installed. *)
Definition served (url : string) : option (Z * string) :=
  if String.eqb url "http://host/a.tar.gz" then Some (200%Z, "A")
  else if String.eqb url "http://host/c.jar" then Some (200%Z, "C")
  else if String.eqb url "http://host/NOTICE" then Some (200%Z, "Notice")
  else if String.eqb url "http://host/gone.tar.gz" then Some (404%Z, "")
  else None.

Definition offline_env : Stager.StagerEnv :=
  Stager.mkStagerEnv
    (mkEnv (fun _ url => served url) (fun _ _ _ _ => None) no_glob_dirs)
    "apache-beam" "dataflow_python_sdk.tar" "pickled_main_session" "/tmp"
    None "/usr/bin/python" (3%nat, 7%nat) (fun _ => None) None 5%N
    local_file_system_only.

Definition disk0 : FS.t :=
  [(["tmp"], FS.Dir);
   (["tmp"; "work"], FS.Dir);
   (["local"], FS.Dir);
   (["local"; "b.tar.gz"], FS.File "B");
   (["local"; "d.jar"], FS.File "D");
   (["local"; "requirements.txt"], FS.File "six");
   (["cache"], FS.Dir);
   (["cache"; "six-1.0.tar.gz"], FS.File "S");
   (["cache"; ".hidden"], FS.File "H")].

Definition start : Stager.State Disk :=
  Stager.mkState (mkWorld disk0 [] 0 []) (mkDisk [] 0).

Definition no_options : Stager.PipelineOptions :=
  Stager.mkOptions None None None None None false None None.

(** A stand-in for the download of requirements, as the tests pass one:
    it puts one more archive into the cache directory. *)
Definition fake_populate : Stager.Populate :=
  fun requirements_file cache_dir cwd f =>
    match OsPath.resolve cwd cache_dir with
    | Some q =>
        match FS.write cache_dir (q ++ ["pkg-2.0.tar.gz"]) "P" f with
        | Ok f' => (Ok tt, f')
        | Raise e => (Raise e, f)
        end
    | None => (Raise (FileNotFoundError cache_dir), f)
    end.


(** A machine on which [pip] starts and exits with code 1 every time. *)
Definition failing_pip_env : Stager.StagerEnv :=
  Stager.mkStagerEnv
    (mkEnv (fun _ url => served url) (fun _ _ _ f => Some (1%Z, "", "", f))
       no_glob_dirs)
    "apache-beam" "dataflow_python_sdk.tar" "pickled_main_session" "/tmp"
    None "/usr/bin/python" (3%nat, 7%nat) (fun _ => None) None 5%N
    local_file_system_only.

Definition missing_requirements : Stager.PipelineOptions :=
  Stager.mkOptions (Some "/local/absent.txt") None None None None false None None.

Definition local_extra : Stager.PipelineOptions :=
  Stager.mkOptions None None None (Some ["/local/b.tar.gz"]) None false None None.

Definition default_sdk : Stager.PipelineOptions :=
  Stager.mkOptions None None None (Some ["/local/b.tar.gz"]) None false
    (Some "default") None.

(** The image build: [pip-licenses] reports three packages.  [six] ships a
    license file; [PyYAML] has an override with a URL that cannot be
    fetched; [apache-beam] has an override that says [skip]. *)
Definition reported : list PullLicenses.Dep :=
  [PullLicenses.mkDep "six" "/site/six/LICENSE";
   PullLicenses.mkDep "apache-beam" "UNKNOWN";
   PullLicenses.mkDep "PyYAML" "UNKNOWN"].

Definition overrides : gmap string (gmap string string) :=
  {[ "apache-beam" := {[ "license" := "skip" ]};
     "pyyaml" := {[ "license" := "http://host/unreachable/LICENSE" ]} ]}.

Definition overrides_skip_only : gmap string (gmap string string) :=
  {[ "apache-beam" := {[ "license" := "skip" ]} ]}.

Definition overrides_skip_notice : gmap string (gmap string string) :=
  {[ "apache-beam" := {[ "license" := "skip"; "notice" := "http://host/NOTICE" ]} ]}.

Definition script_env (deps : list PullLicenses.Dep)
  (cfg : gmap string (gmap string string)) : PullLicenses.ScriptEnv :=
  PullLicenses.mkScriptEnv
    (mkEnv (fun _ url => served url) (fun _ _ _ f => Some (0%Z, "[...]", "", f))
       no_glob_dirs)
    (fun _ => Ok deps)
    (fun _ => Ok {[ "pip_dependencies" := cfg ]})
    (3%nat, 7%nat).

Definition image_disk : FS.t :=
  [(["tmp"], FS.Dir);
   (["tmp"; "dep_urls_py.yaml"], FS.File "pip_dependencies: ...");
   (["site"], FS.Dir);
   (["site"; "six"], FS.Dir);
   (["site"; "six"; "LICENSE"], FS.File "MIT");
   (["work"], FS.Dir)].

Definition image : World := mkWorld image_disk ["work"] 0 [].

(** The image once the script has created its output directory. *)
Definition image_started : World :=
  (Os.makedirs PullLicenses.license_dir image).2.

End Scenario.

(** ** More machines and disks *)
Module ScenarioMore.
Import Py PyStr Os Scenario.

(** A machine on which every program that is started exits with code 0
    after it has put one archive, [apache-beam-2.0.tar.gz], into
    [/tmp/work]; the installed Beam distribution has version 2.0. *)
Definition builder_env : Stager.StagerEnv :=
  Stager.mkStagerEnv
    (mkEnv (fun _ url => served url)
       (fun _ _ _ f =>
          match FS.write "apache-beam-2.0.tar.gz"
                  ["tmp"; "work"; "apache-beam-2.0.tar.gz"] "SDK" f with
          | Ok f' => Some (0%Z, "", "", f')
          | Raise _ => Some (1%Z, "", "cannot write", f)
          end)
       no_glob_dirs)
    "apache-beam" "dataflow_python_sdk.tar" "pickled_main_session" "/tmp"
    None "/usr/bin/python" (3%nat, 7%nat)
    (fun name => if String.eqb name "apache-beam" then Some "2.0" else None)
    None 5%N local_file_system_only.

(** The disk of [start], with the process in [/tmp]. *)
Definition in_tmp : World := mkWorld disk0 ["tmp"] 0 [].

(** The disk of [start] with one more archive and one more jar. *)
Definition disk1 : FS.t :=
  disk0 ++ [(["local"; "a.zip"], FS.File "Z"); (["local"; "e.jar"], FS.File "E")].

Definition start1 : Stager.State Disk :=
  Stager.mkState (mkWorld disk1 [] 0 []) (mkDisk [] 0).

(** A requirements file and two extra packages. *)
Definition several_packages : Stager.PipelineOptions :=
  Stager.mkOptions (Some "/local/requirements.txt") (Some "/cache") None
    (Some ["/local/b.tar.gz"; "/local/a.zip"]) None false None None.

(** A network that serves one license, and a machine on which every
    program exits with code 1, the text [[]] on its standard output and
    nothing on its standard error. *)
Definition license_server (url : string) : option (Z * string) :=
  if String.eqb url "http://host/pkg/LICENSE" then Some (200%Z, "BSD") else None.

Definition licensed_env : PullLicenses.ScriptEnv :=
  PullLicenses.mkScriptEnv
    (mkEnv (fun _ url => license_server url) (fun _ _ _ f => Some (1%Z, "[]", "", f))
       no_glob_dirs)
    (fun _ => Ok [])
    (fun _ => Ok ∅)
    (3%nat, 7%nat).

Definition overrides_url : gmap string (gmap string string) :=
  {[ "pkg" := {[ "license" := "http://host/pkg/LICENSE" ]} ]}.

Definition overrides_manual : gmap string (gmap string string) :=
  {[ "pkg" := {[ "license" := "manual" ]} ]}.

(** The image with a license that was added by hand, once the script has
    created its output directory. *)
Definition manual_disk : FS.t :=
  image_disk
  ++ [(["tmp"; "manual_licenses"], FS.Dir);
      (["tmp"; "manual_licenses"; "pkg"], FS.Dir);
      (["tmp"; "manual_licenses"; "pkg"; "LICENSE"], FS.File "Apache-2.0")].

Definition manual_started : World :=
  (Os.makedirs PullLicenses.license_dir (mkWorld manual_disk ["work"] 0 [])).2.

End ScenarioMore.
(** * Properties *)

(** ** Strings and path names *)
Module StrFacts.
Import PyStr OsPath.

(** [+:+] does not unfold under [simpl]; these two equations compute it. *)
Lemma sapp_nil_l (t : string) : "" +:+ t = t.
Proof. reflexivity. Qed.

Lemma sapp_cons a (s t : string) : String a s +:+ t = String a (s +:+ t).
Proof. reflexivity. Qed.


Lemma sapp_assoc (a b c : string) : (a +:+ b) +:+ c = a +:+ (b +:+ c).
Proof.
  induction a as [|x a IH]; [done|]. by rewrite !sapp_cons, IH.
Qed.

Lemma split_on_nonempty c s : split_on c s <> [].
Proof.
  induction s as [|a s IH]; simpl; [done|].
  destruct (Ascii.eqb a c); [done|]. by destruct (split_on c s).
Qed.

(** Splitting distributes over a separator. *)
Lemma split_on_app c (a b : string) :
  split_on c (a +:+ String c b) = split_on c a ++ split_on c b.
Proof.
  induction a as [|x a IH].
  - rewrite sapp_nil_l. simpl. by rewrite Ascii.eqb_refl.
  - rewrite sapp_cons. simpl. destruct (Ascii.eqb x c); [by rewrite IH|].
    rewrite IH. pose proof (split_on_nonempty c a).
    by destruct (split_on c a).
Qed.

(** A text without the separator is one piece. *)
Lemma split_on_plain c (s : string) :
  has_char c s = false -> split_on c s = [s].
Proof.
  induction s as [|a s IH]; simpl; [done|].
  destruct (Ascii.eqb a c); [done|]. intros Hs. by rewrite IH.
Qed.




Lemma components_app_slash (a b : string) :
  components (a +:+ String "/" b) = components a ++ components b.
Proof. unfold components. by rewrite split_on_app, filter_app. Qed.

Lemma components_plain (n : string) :
  has_char "/" n = false -> n <> "" -> components n = [n].
Proof.
  intros Hn Hne. unfold components. rewrite split_on_plain by done.
  rewrite filter_cons. by case_decide.
Qed.






Lemma endswith_cons suf a (s : string) :
  endswith suf (String a s) =
  if String.eqb (String a s) suf then true else endswith suf s.
Proof. reflexivity. Qed.


Lemma endswith_app (suf a : string) : endswith suf (a +:+ suf) = true.
Proof.
  induction a as [|x a IH].
  - rewrite sapp_nil_l. destruct suf; simpl; [done|].
    by rewrite Ascii.eqb_refl, String.eqb_refl.
  - rewrite sapp_cons, endswith_cons, IH.
    by destruct (String.eqb (String x (a +:+ suf)) suf).
Qed.

End StrFacts.

(** ** The string and path functions on sample inputs *)
Module PyStrTests.
Import PyStr OsPath.

Example endswith_tar_gz : endswith ".tar.gz" "pkg-1.0.tar.gz" = true.
Proof. reflexivity. Qed.
Example endswith_no : endswith ".tar" "pkg-1.0.tar.gz" = false.
Proof. reflexivity. Qed.
Example contains_remote : contains "://" "http://host/a.jar" = true.
Proof. reflexivity. Qed.
Example split_commas : split_on "," "a.jar,b.jar" = ["a.jar"; "b.jar"].
Proof. reflexivity. Qed.
Example split_empty : split_on "," "" = [""].
Proof. reflexivity. Qed.
Example basename_url : basename "http://host/dir/a.tar.gz" = "a.tar.gz".
Proof. reflexivity. Qed.
Example basename_trailing : basename "/tmp/dir/" = "".
Proof. reflexivity. Qed.
Example dirname_plain : dirname "/tmp/dir/setup.py" = "/tmp/dir".
Proof. reflexivity. Qed.
Example dirname_none : dirname "setup.py" = "".
Proof. reflexivity. Qed.
Example dirname_root : dirname "/setup.py" = "/".
Proof. reflexivity. Qed.
Example dirname_double : dirname "/tmp//x" = "/tmp".
Proof. reflexivity. Qed.
Example join_plain : join "/tmp" "x" = "/tmp/x".
Proof. reflexivity. Qed.
Example join_slash : join "/tmp/" "x" = "/tmp/x".
Proof. reflexivity. Qed.
Example join_abs : join "/tmp" "/x" = "/x".
Proof. reflexivity. Qed.
Example lower_mixed : lower "PyYAML" = "pyyaml".
Proof. reflexivity. Qed.
Example str_of_nat_37 : str_of_nat 37 = "37".
Proof. reflexivity. Qed.
Example str_of_nat_0 : str_of_nat 0 = "0".
Proof. reflexivity. Qed.
Example repr_two : repr_list ["a"; "b"] = "['a', 'b']".
Proof. reflexivity. Qed.
Example resolve_rel : resolve ["work"] "temp_license_x" = Some ["work"; "temp_license_x"].
Proof. reflexivity. Qed.
Example resolve_abs : resolve ["work"] "/opt//apache/" = Some ["opt"; "apache"].
Proof. reflexivity. Qed.

Example glob_star_plain : Os.glob_match "" "six-1.0.tar.gz" = true.
Proof. reflexivity. Qed.
Example glob_star_dotfile : Os.glob_match "" ".hidden" = false.
Proof. reflexivity. Qed.
Example glob_star_suffix : Os.glob_match ".tar.gz" "pkg-1.0.zip" = false.
Proof. reflexivity. Qed.

End PyStrTests.


(** ** [os.path.join], [basename], [dirname] and name resolution *)
Module PathFacts.
Import PyStr OsPath StrFacts.

#[local] Arguments String.prefix : simpl never.

(** A single path component: not empty and without a slash. *)
Definition is_name (n : string) : Prop := has_char "/" n = false /\ n <> "".

Lemma prefix_cons a (p : string) b (s : string) :
  String.prefix (String a p) (String b s)
  = if Ascii.ascii_dec a b then String.prefix p s else false.
Proof. reflexivity. Qed.

Lemma startswith_slash_plain (n : string) :
  has_char "/" n = false -> startswith "/" n = false.
Proof.
  destruct n as [|a n]; [done|]. unfold startswith. rewrite prefix_cons.
  destruct (Ascii.ascii_dec "/" a) as [<-|]; [|done]. simpl. done.
Qed.

Lemma endswith_slash_inv (d : string) :
  endswith "/" d = true -> exists d', d = d' +:+ "/".
Proof.
  induction d as [|a d IH]; [done|]. rewrite endswith_cons.
  destruct (String.eqb (String a d) "/") eqn:Heq.
  - apply String.eqb_eq in Heq as ->. by exists "".
  - intros (d' & ->)%IH. by exists (String a d').
Qed.

(** The three shapes of [join d n] for a name [n]. *)
Lemma join_cases (d n : string) :
  has_char "/" n = false ->
  (d = "" /\ join d n = n)
  \/ (exists d', d = d' +:+ "/" /\ join d n = d' +:+ String "/" n)
  \/ (d <> "" /\ endswith "/" d = false /\ join d n = d +:+ String "/" n).
Proof.
  intros Hn. unfold join. rewrite (startswith_slash_plain n Hn).
  destruct (String.eqb d "") eqn:Hd.
  - apply String.eqb_eq in Hd as ->. by left.
  - apply String.eqb_neq in Hd. simpl.
    destruct (endswith "/" d) eqn:He.
    + right; left. apply endswith_slash_inv in He as (d' & ->). exists d'.
      split; [done|]. by rewrite sapp_assoc.
    + right; right. done.
Qed.

Lemma components_empty : components "" = [].
Proof. reflexivity. Qed.

Lemma components_join (d n : string) :
  is_name n -> components (join d n) = components d ++ [n].
Proof.
  intros [Hn Hne]. destruct (join_cases d n Hn)
    as [[-> ->] | [(d' & -> & ->) | (_ & _ & ->)]].
  - by rewrite (components_plain n).
  - rewrite !components_app_slash, (components_plain n) by done.
    by rewrite components_empty, app_nil_r.
  - by rewrite components_app_slash, (components_plain n).
Qed.

Lemma basename_join (d n : string) :
  has_char "/" n = false -> basename (join d n) = n.
Proof.
  intros Hn. unfold basename. destruct (join_cases d n Hn)
    as [[-> ->] | [(d' & -> & ->) | (_ & _ & ->)]].
  - by rewrite (split_on_plain _ n).
  - by rewrite split_on_app, (split_on_plain _ n), last_last.
  - by rewrite split_on_app, (split_on_plain _ n), last_last.
Qed.

Lemma startswith_app a (p b : string) :
  p <> "" -> startswith (String a "") (p +:+ b) = startswith (String a "") p.
Proof.
  destruct p as [|x p]; [done|]. intros _. rewrite sapp_cons.
  unfold startswith. rewrite !prefix_cons.
  destruct (Ascii.ascii_dec a x); [|done]. by destruct (p +:+ b), p.
Qed.

Lemma join_startswith (d n : string) :
  has_char "/" n = false -> d <> "" ->
  startswith "/" (join d n) = startswith "/" d.
Proof.
  intros Hn Hd. destruct (join_cases d n Hn)
    as [[-> ->] | [(d' & -> & ->) | (_ & _ & ->)]]; [done| |].
  - destruct d' as [|x d']; [|by rewrite !startswith_app].
    rewrite !sapp_nil_l. unfold startswith. rewrite !prefix_cons. by destruct n.
  - by rewrite startswith_app.
Qed.

Lemma join_nonempty (d n : string) :
  has_char "/" n = false -> n <> "" -> join d n <> "".
Proof.
  intros Hn Hne. destruct (join_cases d n Hn)
    as [[-> ->] | [(d' & -> & ->) | (_ & _ & ->)]]; [done| |].
  - by destruct d'.
  - by destruct d.
Qed.

(** The directory a name is resolved in when it is used as the first
    argument of [join]: the empty name stands for the current directory. *)
Definition resolve_dir (cwd : list string) (d : string) : option (list string) :=
  if String.eqb d "" then Some cwd else resolve cwd d.

Lemma resolve_join cwd (d n : string) :
  is_name n ->
  resolve cwd (join d n) = (fun q => q ++ [n]) <$> resolve_dir cwd d.
Proof.
  intros [Hn Hne]. unfold resolve, resolve_dir.
  pose proof (join_nonempty d n Hn Hne) as Hj. apply String.eqb_neq in Hj.
  rewrite Hj. destruct (String.eqb d "") eqn:Hd.
  - apply String.eqb_eq in Hd as ->. simpl.
    unfold join. rewrite (startswith_slash_plain n Hn). simpl.
    rewrite sapp_nil_l, (startswith_slash_plain n Hn). simpl.
    by rewrite (components_plain n).
  - unfold resolve. rewrite Hd. apply String.eqb_neq in Hd.
    rewrite join_startswith by done.
    rewrite components_join by done.
    destruct (startswith "/" d); simpl; [done | by rewrite app_assoc].
Qed.








End PathFacts.
(** ** The file system: facts *)
Module FSFacts.
Import Py FS.

Lemma is_prefix_refl (p : path) : is_prefix p p = true.
Proof. induction p as [|x p IH]; simpl; [done|]. by rewrite bool_decide_true. Qed.

Lemma assoc_filter_none (keep : path * node -> bool) (q : path) (fs : t) :
  (forall n, keep (q, n) = false) -> assoc q (List.filter keep fs) = None.
Proof.
  intros Hk. induction fs as [|[p n] fs IH]; simpl; [done|].
  destruct (keep (p, n)) eqn:Hkeep; [|done]. simpl.
  destruct (decide (q = p)) as [->|]; [|done]. by rewrite Hk in Hkeep.
Qed.

(** After [rmtree] the directory is gone. *)
Lemma lookup_rmtree nm (q : path) (fs fs' : t) :
  rmtree nm q fs = Ok fs' -> lookup q fs' = None.
Proof.
  unfold rmtree. destruct q as [|c q]; [done|].
  destruct (lookup (c :: q) fs) as [[]|]; try done. intros [= <-].
  simpl. apply assoc_filter_none. intros n. unfold outside. simpl.
  by rewrite bool_decide_true, is_prefix_refl.
Qed.

Lemma is_prefix_spec (d q : path) :
  is_prefix d q = true <-> exists r, q = d ++ r.
Proof.
  revert q. induction d as [|x d IH]; intros q; simpl.
  - split; [by exists q | done].
  - destruct q as [|y q]; [split; [done | by intros (r & ?)]|].
    rewrite andb_true_iff, bool_decide_eq_true, IH. split.
    + intros (-> & r & ->). by exists r.
    + intros (r & [= -> ->]). eauto.
Qed.

Lemma assoc_in (p : path) (n : node) (fs : t) :
  (p, n) ∈ fs -> is_Some (assoc p fs).
Proof.
  induction fs as [|[q m] fs IH]; [by intros ?%elem_of_nil|].
  intros Hin. simpl. destruct (decide (p = q)); [by eexists|].
  apply elem_of_cons in Hin as [[= -> ->]|Hin]; [done | by apply IH].
Qed.

Lemma assoc_Some_in (p : path) (n : node) (fs : t) :
  assoc p fs = Some n -> (p, n) ∈ fs.
Proof.
  induction fs as [|[q m] fs IH]; [done|]. simpl.
  destruct (decide (p = q)) as [->|].
  - intros [= ->]. left.
  - intros H. right. by apply IH.
Qed.

Lemma assoc_app (p : path) (fs1 fs2 : t) :
  assoc p (fs1 ++ fs2) = match assoc p fs1 with
                         | Some n => Some n
                         | None => assoc p fs2
                         end.
Proof.
  induction fs1 as [|[q m] fs1 IH]; [done|]. simpl.
  by destruct (decide (p = q)).
Qed.

Lemma wf_entry (fs : t) (p : path) (n : node) :
  wf fs = true -> (p, n) ∈ fs -> p <> [] /\ isdir (parent p) fs = true.
Proof.
  unfold wf. rewrite forallb_forall. intros Hwf Hin%list_elem_of_In.
  specialize (Hwf _ Hin). simpl in Hwf. by destruct p.
Qed.

Lemma parent_app (q r : path) : r <> [] -> parent (q ++ r) = q ++ parent r.
Proof. intros Hr. unfold parent. by apply removelast_app. Qed.

Lemma parent_length (p : path) : p <> [] -> length (parent p) < length p.
Proof.
  intros Hp. destruct (exists_last Hp) as (l & x & ->). unfold parent.
  rewrite removelast_last, length_app. simpl. lia.
Qed.

(** In a well-formed table nothing lies below a name that does not
    exist. *)
Lemma no_descendants (fs : t) (q : path) :
  wf fs = true -> lookup q fs = None ->
  forall e, e ∈ fs -> is_prefix q e.1 = false.
Proof.
  intros Hwf Hq. assert (q <> []) as Hne by (by destruct q).
  assert (forall k p n, length p < k -> (p, n) ∈ fs -> is_prefix q p = false) as Hk.
  { induction k as [|k IH]; intros p n Hlen Hin; [lia|].
    destruct (is_prefix q p) eqn:Hpre; [|done]. exfalso.
    apply is_prefix_spec in Hpre as (r & ->).
    destruct (wf_entry fs _ _ Hwf Hin) as [Hp Hdir].
    destruct r as [|x r].
    - rewrite app_nil_r in Hin. apply assoc_in in Hin as [m Hm].
      destruct q; [done|]. simpl in Hq. congruence.
    - rewrite parent_app in Hdir by done. unfold isdir in Hdir.
      destruct (lookup (q ++ parent (x :: r)) fs) as [[]|] eqn:Hl; try done.
      assert (q ++ parent (x :: r) <> []) as Hne' by (by destruct q).
      assert (assoc (q ++ parent (x :: r)) fs = Some Dir) as Ha.
      { revert Hl. unfold lookup. by destruct (q ++ parent (x :: r)). }
      apply assoc_Some_in in Ha.
      assert (is_prefix q (q ++ parent (x :: r)) = false) as Hf.
      { eapply IH; [|exact Ha]. rewrite length_app in *.
        assert (length (parent (x :: r)) < length (x :: r))
          by (by apply parent_length).
        lia. }
      assert (is_prefix q (q ++ parent (x :: r)) = true) as Ht
        by (apply is_prefix_spec; eauto).
      congruence. }
  intros [p n] Hin. simpl. apply (Hk (S (length p)) p n); [lia | done].
Qed.

Lemma filter_all {A} (f : A -> bool) (l : list A) :
  (forall x, x ∈ l -> f x = true) -> List.filter f l = l.
Proof.
  induction l as [|x l IH]; intros Hf; simpl; [done|].
  rewrite (Hf x) by left. f_equal. apply IH. intros y Hy. apply Hf. by right.
Qed.

Lemma parent_self (q : path) : q <> [] -> parent q <> q.
Proof.
  intros Hq Heq. pose proof (parent_length q Hq). rewrite Heq in *. lia.
Qed.

Lemma omap_none {A C} (f : A -> option C) (l : list A) :
  (forall x, x ∈ l -> f x = None) -> omap f l = [].
Proof.
  induction l as [|x l IH]; intros Hf; [done|]. simpl.
  rewrite (Hf x) by left. apply IH. intros y Hy. apply Hf. by right.
Qed.

Lemma child_is_below (q : path) (e : path * node) (name : string) :
  child_name q e = Some name -> is_prefix q e.1 = true.
Proof.
  unfold child_name. destruct e as [p n]. cbn [fst].
  destruct p as [|x p]; [done|].
  destruct (decide (parent (x :: p) = q)) as [<-|]; [|done]. intros _.
  apply is_prefix_spec. exists [List.last (x :: p) ""].
  unfold parent. by apply app_removelast_last.
Qed.

(** A name that does not exist in a well-formed table has no entries. *)
Lemma children_fresh (fs : t) (q : path) :
  wf fs = true -> lookup q fs = None -> children q fs = [].
Proof.
  intros Hwf Hq. apply omap_none. intros e He.
  destruct (child_name q e) as [name|] eqn:Hc; [|done].
  apply child_is_below in Hc.
  by rewrite (no_descendants fs q Hwf Hq e He) in Hc.
Qed.

(** Creating a directory and removing it again leaves a well-formed table
    as it was. *)
Lemma rmtree_fresh_dir nm (fs : t) (q : path) :
  wf fs = true -> lookup q fs = None ->
  rmtree nm q (fs ++ [(q, Dir)]) = Ok fs.
Proof.
  intros Hwf Hq. assert (q <> []) as Hne by (by destruct q).
  unfold rmtree. destruct q as [|x q]; [done|].
  unfold lookup in *. rewrite assoc_app, Hq. simpl.
  rewrite decide_True by done. f_equal.
  rewrite List.filter_app. simpl. unfold outside at 2. simpl.
  rewrite bool_decide_true, is_prefix_refl by done. simpl.
  rewrite app_nil_r. apply filter_all. intros e He. unfold outside.
  by rewrite (no_descendants fs (x :: q) Hwf Hq e He).
Qed.

(** *** Appending and replacing entries *)

Lemma lookup_app (q : path) (fs1 fs2 : t) :
  q <> [] ->
  lookup q (fs1 ++ fs2) = match lookup q fs1 with
                          | Some n => Some n
                          | None => assoc q fs2
                          end.
Proof. intros Hq. destruct q; [done|]. apply assoc_app. Qed.

Lemma lookup_append_other (q p : path) (n : node) (fs : t) :
  q <> p -> lookup q (fs ++ [(p, n)]) = lookup q fs.
Proof.
  intros Hne. destruct q as [|x q]; [done|]. rewrite lookup_app by done.
  destruct (lookup (x :: q) fs); [done|]. simpl. by rewrite decide_False.
Qed.

Lemma lookup_append_new (p : path) (n : node) (fs : t) :
  p <> [] -> lookup p fs = None -> lookup p (fs ++ [(p, n)]) = Some n.
Proof.
  intros Hne Hp. rewrite lookup_app, Hp by done. simpl. by rewrite decide_True.
Qed.

Lemma isdir_append (q p : path) (n : node) (fs : t) :
  isdir q fs = true -> isdir q (fs ++ [(p, n)]) = true.
Proof.
  unfold isdir. destruct q as [|x q]; [done|]. rewrite lookup_app by done.
  by destruct (lookup (x :: q) fs) as [[]|].
Qed.

Lemma wf_spec (fs : t) :
  wf fs = true <-> forall p n, (p, n) ∈ fs -> p <> [] /\ isdir (parent p) fs = true.
Proof.
  split; [intros Hwf p n; by apply wf_entry|].
  intros H. unfold wf. apply forallb_forall. intros [p n] Hin%list_elem_of_In.
  destruct (H p n Hin) as [Hp Hd]. simpl. by destruct p.
Qed.

Lemma wf_append (fs : t) (p : path) (n : node) :
  wf fs = true -> p <> [] -> isdir (parent p) fs = true ->
  wf (fs ++ [(p, n)]) = true.
Proof.
  intros Hwf Hp Hd. apply wf_spec. intros q m [Hin|Hin]%elem_of_app.
  - destruct (wf_entry fs q m Hwf Hin) as [Hq Hqd]. split; [done|].
    by apply isdir_append.
  - apply list_elem_of_singleton in Hin as [= -> ->]. split; [done|].
    by apply isdir_append.
Qed.

Lemma assoc_replace (q p : path) (n : node) (fs : t) :
  assoc q (replace p n fs)
  = if decide (q = p)
    then match assoc p fs with Some _ => Some n | None => None end
    else assoc q fs.
Proof.
  induction fs as [|[r m] fs IH]; simpl; [by case_decide|].
  destruct (decide (p = r)) as [->|Hpr]; simpl;
    destruct (decide (q = r)) as [->|Hqr]; simpl;
    rewrite ?decide_True, ?decide_False by done; try done.
Qed.

Lemma replace_keys (p : path) (n : node) (fs : t) :
  map fst (replace p n fs) = map fst fs.
Proof.
  induction fs as [|[r m] fs IH]; [done|]. simpl.
  destruct (decide (p = r)); simpl; [done | by rewrite IH].
Qed.

Lemma lookup_replace_other (q p : path) (n : node) (fs : t) :
  q <> p -> lookup q (replace p n fs) = lookup q fs.
Proof.
  intros Hne. destruct q as [|x q]; [done|]. unfold lookup.
  by rewrite assoc_replace, decide_False.
Qed.

Lemma isdir_replace_file (q p : path) (c c' : string) (fs : t) :
  lookup p fs = Some (File c) ->
  isdir q (replace p (File c') fs) = isdir q fs.
Proof.
  intros Hp. unfold isdir. destruct (decide (q = p)) as [->|Hne].
  - destruct p as [|x p]; [done|]. unfold lookup in *.
    by rewrite assoc_replace, decide_True, Hp.
  - by rewrite lookup_replace_other.
Qed.

Lemma wf_replace_file (fs : t) (p : path) (c c' : string) :
  wf fs = true -> lookup p fs = Some (File c) ->
  wf (replace p (File c') fs) = true.
Proof.
  intros Hwf Hp. apply wf_spec. intros q m Hin.
  assert (q ∈ map fst fs) as Hq.
  { rewrite <- (replace_keys p (File c')). by apply (list_elem_of_fmap_2 fst _ (q, m)). }
  apply list_elem_of_fmap in Hq as ([q' m'] & -> & Hin').
  destruct (wf_entry fs q' m' Hwf Hin') as [Hne Hd]. split; [done|].
  simpl. by rewrite (isdir_replace_file _ _ c c' fs Hp).
Qed.

(** *** Directory listings *)

Definition child_key (d : path) (q : path) : option string :=
  match q with
  | [] => None
  | q' => if decide (parent q' = d) then Some (List.last q' EmptyString) else None
  end.

Lemma child_name_key (d : path) (e : path * node) :
  child_name d e = child_key d e.1.
Proof. by destruct e as [[|x p] n]. Qed.

Lemma omap_keys (d : path) (fs : t) :
  omap (child_name d) fs = omap (child_key d) (map fst fs).
Proof.
  induction fs as [|e fs IH]; [done|].
  rewrite fmap_cons. cbn [omap list_omap]. rewrite child_name_key.
  destruct (child_key d e.1); by rewrite IH.
Qed.

Lemma children_keys (d : path) (fs : t) :
  children d fs = omap (child_key d) (map fst fs).
Proof. apply omap_keys. Qed.

Lemma children_replace (d p : path) (n : node) (fs : t) :
  children d (replace p n fs) = children d fs.
Proof. by rewrite !children_keys, replace_keys. Qed.

Lemma parent_snoc (d : path) (n : string) : parent (d ++ [n]) = d.
Proof. unfold parent. apply removelast_last. Qed.

Lemma children_append_child (d : path) (n : string) (nd : node) (fs : t) :
  children d (fs ++ [(d ++ [n], nd)]) = children d fs ++ [n].
Proof.
  unfold children. rewrite omap_app. f_equal. simpl.
  unfold child_name. cbn [fst]. destruct (d ++ [n]) as [|x r] eqn:Hd.
  { by destruct d. }
  rewrite <- Hd, parent_snoc, decide_True by done. by rewrite last_last.
Qed.

Lemma children_append_other (d p : path) (nd : node) (fs : t) :
  p <> [] -> parent p <> d -> children d (fs ++ [(p, nd)]) = children d fs.
Proof.
  intros Hp Hd. unfold children. rewrite omap_app. simpl.
  unfold child_name at 2. cbn [fst]. destruct p; [done|].
  rewrite decide_False by done. by rewrite app_nil_r.
Qed.

(** A name is listed exactly when the directory has an entry of that name. *)
Lemma elem_of_children (d : path) (n : string) (fs : t) :
  n ∈ children d fs <-> is_Some (assoc (d ++ [n]) fs).
Proof.
  unfold children. rewrite list_elem_of_omap. split.
  - intros ([p nd] & Hin & Hc). unfold child_name in Hc. cbn [fst] in Hc.
    destruct p as [|x p]; [done|].
    destruct (decide (parent (x :: p) = d)) as [<-|]; [|done].
    assert (parent (x :: p) ++ [n] = x :: p) as ->; [|by eapply assoc_in].
    injection Hc as <-. symmetry. unfold parent.
    by apply (app_removelast_last (l:=x :: p)).
  - intros [nd Ha]. exists (d ++ [n], nd). split; [by apply assoc_Some_in|].
    unfold child_name. cbn [fst]. destruct (d ++ [n]) as [|x r] eqn:Hd.
    { by destruct d. }
    rewrite <- Hd, parent_snoc, decide_True by done. by rewrite last_last.
Qed.

(** *** Creating missing directories; a scratch directory copied elsewhere *)

Lemma ancestors_are_dirs (fs : t) (a b : path) :
  wf fs = true -> isdir (a ++ b) fs = true -> isdir a fs = true.
Proof.
  intros Hwf. induction b as [|x b IH] using rev_ind.
  - by rewrite app_nil_r.
  - intros Hd. apply IH. unfold isdir in Hd.
    destruct (lookup (a ++ b ++ [x]) fs) as [[]|] eqn:Hl; try done.
    assert (assoc (a ++ b ++ [x]) fs = Some Dir) as Ha.
    { revert Hl. unfold lookup. destruct (a ++ b ++ [x]) eqn:Hp; [|done].
      by destruct a, b. }
    apply assoc_Some_in in Ha.
    destruct (wf_entry fs _ _ Hwf Ha) as [_ Hpd].
    by rewrite app_assoc, parent_snoc in Hpd.
Qed.

Lemma makedirs_from_cons nm (base : path) c (rest : path) (fs : t) :
  makedirs_from nm base (c :: rest) fs
  = match lookup (base ++ [c]) fs with
    | Some Dir => makedirs_from nm (base ++ [c]) rest fs
    | Some (File _) => Raise (Py.NotADirectoryError nm)
    | None => makedirs_from nm (base ++ [c]) rest (fs ++ [(base ++ [c], Dir)])
    end.
Proof. reflexivity. Qed.

Lemma makedirs_from_new nm (fs : t) (base rest : path) :
  wf fs = true -> rest <> [] ->
  lookup (base ++ rest) fs = None -> isdir (base ++ parent rest) fs = true ->
  makedirs_from nm base rest fs = Ok (fs ++ [(base ++ rest, Dir)]).
Proof.
  intros Hwf. revert base.
  induction rest as [|c rest IH]; intros base Hne Hl Hd; [done|].
  rewrite makedirs_from_cons. destruct rest as [|c' r].
  - by rewrite Hl.
  - assert (isdir (base ++ [c]) fs = true) as Hc.
    { apply (ancestors_are_dirs fs _ (parent (c' :: r)) Hwf).
      by rewrite <- app_assoc. }
    unfold isdir in Hc. destruct (lookup (base ++ [c]) fs) as [[]|]; try done.
    rewrite (IH (base ++ [c])); [by rewrite <- app_assoc | done | |];
      by rewrite <- app_assoc.
Qed.

Lemma makedirs_new nm (fs : t) (dst : path) :
  wf fs = true -> lookup dst fs = None -> isdir (parent dst) fs = true ->
  makedirs nm dst fs = Ok (fs ++ [(dst, Dir)]).
Proof.
  intros Hwf Hl Hd. unfold makedirs. rewrite Hl.
  apply (makedirs_from_new nm fs [] dst); [done | by destruct dst | done | done].
Qed.

Lemma is_prefix_app_r (q d r : path) :
  is_prefix q d = true -> is_prefix q (d ++ r) = true.
Proof.
  intros (x & ->)%is_prefix_spec. apply is_prefix_spec. exists (x ++ r).
  by rewrite app_assoc.
Qed.

Lemma lookup_below_missing (fs : t) (q r : path) :
  wf fs = true -> lookup q fs = None -> lookup (q ++ r) fs = None.
Proof.
  intros Hwf Hq. destruct (lookup (q ++ r) fs) as [n|] eqn:Hl; [|done].
  exfalso. assert (assoc (q ++ r) fs = Some n) as Ha.
  { revert Hl. unfold lookup. destruct (q ++ r) eqn:Hp; [|done].
    by destruct q. }
  apply assoc_Some_in in Ha.
  pose proof (no_descendants fs q Hwf Hq _ Ha) as Hf. cbn [fst] in Hf.
  assert (is_prefix q (q ++ r) = true) by (apply is_prefix_spec; eauto).
  congruence.
Qed.

Section Scratch.
Context (fs : t) (q dst : path) (name body : string).
Hypothesis Hwf : wf fs = true.
Hypothesis Hq : lookup q fs = None.
Hypothesis Hqp : isdir (parent q) fs = true.
Hypothesis Hdst : lookup dst fs = None.
Hypothesis Hdp : isdir (parent dst) fs = true.
Hypothesis Hout : is_prefix q (dst ++ [name]) = false.

(** The scratch directory [q] once it holds the one file [name]. *)
Definition scratch : t := (fs ++ [(q, Dir)]) ++ [(q ++ [name], File body)].

(** The table once the scratch directory has been copied to [dst]. *)
Definition copied (base : t) : t :=
  (base ++ [(dst, Dir)]) ++ [(dst ++ [name], File body)].

Lemma scratch_names :
  q <> [] /\ q ++ [name] <> q /\ dst <> q /\ dst <> q ++ [name]
  /\ q <> dst ++ [name] /\ is_prefix q dst = false.
Proof.
  assert (q <> []) as Hne by (by destruct q).
  assert (is_prefix q dst = false) as Hqd.
  { destruct (is_prefix q dst) eqn:Hp; [|done].
    apply (is_prefix_app_r q dst [name]) in Hp. congruence. }
  split; [done|]. split.
  { intros Heq. apply (f_equal length) in Heq. rewrite length_app in Heq.
    simpl in Heq. lia. }
  split; [intros ->; by rewrite is_prefix_refl in Hqd|].
  split.
  { intros ->. by rewrite (proj2 (is_prefix_spec q (q ++ [name]))) in Hqd by eauto. }
  split; [intros ->; by rewrite is_prefix_refl in Hout | done].
Qed.

Lemma scratch_write nm :
  write nm (q ++ [name]) body (fs ++ [(q, Dir)]) = Ok scratch.
Proof.
  destruct scratch_names as (Hne & Hqn & _).
  unfold write, create.
  rewrite lookup_append_other, (lookup_below_missing fs q [name]) by done.
  by rewrite parent_snoc, lookup_append_new.
Qed.

Lemma scratch_children : children q scratch = [name].
Proof.
  destruct scratch_names as (Hne & _).
  unfold scratch. rewrite children_append_child.
  rewrite children_append_other; [|done|by apply parent_self].
  by rewrite children_fresh.
Qed.

Lemma scratch_lookup : lookup q scratch = Some Dir.
Proof.
  destruct scratch_names as (Hne & Hqn & _).
  unfold scratch. rewrite lookup_append_other by done.
  by apply lookup_append_new.
Qed.

Lemma scratch_wf : wf scratch = true.
Proof.
  destruct scratch_names as (Hne & _).
  apply wf_append; [by apply wf_append | by destruct q |].
  rewrite parent_snoc. unfold isdir. by rewrite lookup_append_new.
Qed.

Lemma scratch_moved : omap (moved q dst) scratch = [(dst ++ [name], File body)].
Proof.
  destruct scratch_names as (Hne & Hqn & _).
  unfold scratch. rewrite !omap_app.
  rewrite (omap_none (moved q dst) fs).
  2:{ intros e He. unfold moved. by rewrite (no_descendants fs q Hwf Hq e He). }
  cbn [omap list_omap app]. unfold moved. cbn [fst snd].
  rewrite is_prefix_refl, bool_decide_true by done. cbn [negb andb].
  rewrite (proj2 (is_prefix_spec q (q ++ [name]))) by eauto.
  rewrite bool_decide_false by done. cbn [negb andb app].
  by rewrite drop_app_length.
Qed.

Lemma scratch_copytree nsrc ndst :
  copytree nsrc ndst q dst scratch = Ok (copied scratch).
Proof.
  destruct scratch_names as (Hne & Hqn & Hdq & Hdqn & _).
  unfold copytree. rewrite scratch_lookup.
  rewrite (makedirs_new ndst scratch dst scratch_wf).
  - by rewrite scratch_moved.
  - unfold scratch. by rewrite !lookup_append_other.
  - unfold scratch. by do 2 apply isdir_append.
Qed.

Lemma scratch_rmtree nm : rmtree nm q (copied scratch) = Ok (copied fs).
Proof.
  destruct scratch_names as (Hne & Hqn & Hdq & Hdqn & Hqdn & Hqd).
  unfold rmtree.
  assert (lookup q (copied scratch) = Some Dir) as Hl.
  { unfold copied. rewrite !lookup_append_other by done. apply scratch_lookup. }
  destruct q as [|x q'] eqn:Eq; [done|]. rewrite <- Eq in *. rewrite Hl.
  f_equal. unfold copied, scratch. rewrite !List.filter_app.
  rewrite (filter_all (outside q) fs).
  2:{ intros e He. unfold outside. by rewrite (no_descendants fs q Hwf Hq e He). }
  cbn [List.filter]. unfold outside. cbn [fst].
  rewrite is_prefix_refl, Hqd, Hout.
  rewrite (proj2 (is_prefix_spec q (q ++ [name]))) by eauto.
  cbn [negb]. by rewrite !app_nil_r.
Qed.

End Scratch.

(** After the round trip the only new file is the copy of [name]. *)
Lemma copied_isfile (fs : t) (dst : path) (name body : string) (p : path) :
  lookup dst fs = None ->
  p <> dst ++ [name] -> isfile p (copied dst name body fs) = isfile p fs.
Proof.
  intros Hdst Hp. unfold isfile, copied. rewrite lookup_append_other by done.
  destruct (decide (p = dst)) as [->|Hpd].
  - rewrite lookup_append_new, Hdst; [done | by destruct dst | done].
  - by rewrite lookup_append_other.
Qed.


End FSFacts.


(** ** Reasoning about computations *)
Module MonadFacts.
Import Py.

Lemma bind_ok_inv {S A B} (m : M S A) (k : A -> M S B) s b s' :
  bind m k s = (Ok b, s') ->
  exists a s1, m s = (Ok a, s1) /\ k a s1 = (Ok b, s').
Proof.
  unfold bind. destruct (m s) as [[a|e] s1]; [eauto | discriminate].
Qed.

Lemma bind_raise_inv {S A B} (m : M S A) (k : A -> M S B) s e s' :
  bind m k s = (Raise e, s') ->
  m s = (Raise e, s') \/ exists a s1, m s = (Ok a, s1) /\ k a s1 = (Raise e, s').
Proof.
  unfold bind. destruct (m s) as [[a|e0] s1]; [eauto | intros [= -> ->]; eauto].
Qed.

Lemma bind_ok {S A B} (m : M S A) (k : A -> M S B) s a s1 :
  m s = (Ok a, s1) -> bind m k s = k a s1.
Proof. intros Hm. unfold bind. by rewrite Hm. Qed.

Lemma bind_raise {S A B} (m : M S A) (k : A -> M S B) s e s1 :
  m s = (Raise e, s1) -> bind m k s = (Raise e, s1).
Proof. intros Hm. unfold bind. by rewrite Hm. Qed.

(** A computation respects a relation on states when every run, returning
    or raising, ends in a state related to the one it started in. *)
Definition respects {S A} (R : S -> S -> Prop) (m : M S A) : Prop :=
  forall s, R s (m s).2.

Section Respects.
Context {S : Type} (R : S -> S -> Prop) `{!PreOrder R}.

Lemma respects_ret {A} (a : A) : respects R (ret a).
Proof. intros s. simpl. reflexivity. Qed.

Lemma respects_raise {A} e : respects R (@raise S A e).
Proof. intros s. simpl. reflexivity. Qed.

Lemma respects_of_result {A} (r : result A) : respects R (of_result r).
Proof. intros s. simpl. reflexivity. Qed.

Lemma respects_gets {A} (f : S -> A) : respects R (gets f).
Proof. intros s. simpl. reflexivity. Qed.

Lemma respects_bind {A B} (m : M S A) (k : A -> M S B) :
  respects R m -> (forall a, respects R (k a)) -> respects R (bind m k).
Proof.
  intros Hm Hk s. unfold bind. specialize (Hm s).
  destruct (m s) as [[a|e] s1]; simpl in *; [|done].
  etrans; [exact Hm | apply Hk].
Qed.

Lemma respects_try_except {A} (m : M S A) (h : exn -> M S A) :
  respects R m -> (forall e, respects R (h e)) -> respects R (try_except m h).
Proof.
  intros Hm Hh s. unfold try_except. specialize (Hm s).
  destruct (m s) as [[a|e] s1]; simpl in *; [done|].
  etrans; [exact Hm | apply Hh].
Qed.

Lemma respects_try_finally {A} (m : M S A) (fin : M S unit) :
  respects R m -> respects R fin -> respects R (try_finally m fin).
Proof.
  intros Hm Hf s. unfold try_finally. specialize (Hm s).
  destruct (m s) as [r s1]. specialize (Hf s1).
  destruct (fin s1) as [[u|e] s2]; simpl in *; etrans; eauto.
Qed.

Lemma respects_when (c : bool) (m : M S unit) :
  respects R m -> respects R (when c m).
Proof. destruct c; simpl; [done | intros _; apply respects_ret]. Qed.

Lemma respects_for_fold {A X} (l : list X) (body : X -> A -> M S A) acc :
  (forall x a, x ∈ l -> respects R (body x a)) -> respects R (for_fold l body acc).
Proof.
  revert acc. induction l as [|x l IH]; intros acc Hb; simpl.
  - apply respects_ret.
  - apply respects_bind.
    + apply Hb. left.
    + intros a. apply IH. intros y b Hy. apply Hb. by right.
Qed.

End Respects.

End MonadFacts.

(** ** What the primitive operations leave in the trace *)
Module OsFacts.
Import Py PyStr Os MonadFacts.

(** The run appended the events [evs], all of which satisfy [P]. *)
Definition ev_rel (P : event -> Prop) (w w' : World) : Prop :=
  exists evs, events w' = events w ++ evs /\ Forall P evs.

(** The run appended no event. *)
Definition same_events (w w' : World) : Prop := events w' = events w.

#[export] Instance ev_rel_preorder P : PreOrder (ev_rel P).
Proof.
  split.
  - intros w. exists []. by rewrite app_nil_r.
  - intros w1 w2 w3 (e1 & H1 & F1) (e2 & H2 & F2). exists (e1 ++ e2).
    split; [by rewrite H2, H1, app_assoc | by apply Forall_app].
Qed.

#[export] Instance same_events_preorder : PreOrder same_events.
Proof.
  split; [done | intros w1 w2 w3 H1 H2; unfold same_events in *; congruence].
Qed.

Lemma same_events_ev_rel P w w' : same_events w w' -> ev_rel P w w'.
Proof. intros Hs. exists []. by rewrite app_nil_r. Qed.

Lemma ev_rel_mono (P Q : event -> Prop) w w' :
  (forall e, P e -> Q e) -> ev_rel P w w' -> ev_rel Q w w'.
Proof.
  intros HPQ (evs & He & HF). exists evs. split; [done|].
  eapply Forall_impl; eauto.
Qed.

Lemma respects_weaken {S A} (R R' : S -> S -> Prop) (m : M S A) :
  (forall s s', R s s' -> R' s s') -> respects R m -> respects R' m.
Proof. intros Hw Hm s. apply Hw, Hm. Qed.

(** The primitive operations as equations on the world. *)
Lemma on_path_run {A} p (missing : result A) op w q :
  OsPath.resolve (cwd w) p = Some q ->
  on_path p missing op w = (op q (fs w), w).
Proof. intros Hq. unfold on_path. by rewrite Hq. Qed.

Lemma update_path_ok p op w q f :
  OsPath.resolve (cwd w) p = Some q -> op q (fs w) = Ok f ->
  update_path p op w = (Ok tt, set_fs f w).
Proof. intros Hq Hop. unfold update_path. by rewrite Hq, Hop. Qed.

Lemma update_path_raise p op w q e :
  OsPath.resolve (cwd w) p = Some q -> op q (fs w) = Raise e ->
  update_path p op w = (Raise e, w).
Proof. intros Hq Hop. unfold update_path. by rewrite Hq, Hop. Qed.

Lemma emit_run e w :
  emit e w = (Ok tt, mkWorld (fs w) (cwd w) (clock w) (events w ++ [e])).
Proof. reflexivity. Qed.

Lemma mkdir_ok_inv (p : string) (w w' : World) :
  mkdir p w = (Ok tt, w') ->
  exists q,
    OsPath.resolve (cwd w) p = Some q
    /\ FS.lookup q (fs w) = None
    /\ FS.isdir (FS.parent q) (fs w) = true
    /\ w' = set_fs (fs w ++ [(q, FS.Dir)]) w.
Proof.
  unfold mkdir, update_path.
  destruct (OsPath.resolve (cwd w) p) as [q|]; [|done].
  unfold FS.mkdir, FS.create, FS.isdir.
  destruct (FS.lookup q (fs w)) eqn:Hq; [done|].
  destruct (FS.lookup (FS.parent q) (fs w)) as [[]|] eqn:Hp; try done.
  intros [= <-]. exists q. by rewrite Hp.
Qed.

Lemma mkdir_raise_inv (p : string) (w w' : World) e :
  mkdir p w = (Raise e, w') -> w' = w.
Proof.
  unfold mkdir, update_path.
  destruct (OsPath.resolve (cwd w) p) as [q|]; [|by intros [= _ <-]].
  destruct (FS.mkdir p q (fs w)); [done | by intros [= _ <-]].
Qed.

Lemma silent_on_path {A} p (missing : result A) op :
  respects same_events (on_path p missing op).
Proof. intros w. unfold on_path. by destruct (OsPath.resolve _ _). Qed.

Lemma silent_update_path p op : respects same_events (update_path p op).
Proof.
  intros w. unfold update_path.
  destruct (OsPath.resolve _ _); [|done]. by destruct (op _ _).
Qed.

Lemma silent_copytree src dst : respects same_events (copytree src dst).
Proof.
  intros w. unfold copytree.
  destruct (OsPath.resolve (cwd w) src); destruct (OsPath.resolve (cwd w) dst);
    try done.
  by destruct (FS.copytree _ _ _ _ _).
Qed.

Lemma silent_chdir p : respects same_events (chdir p).
Proof.
  intros w. unfold chdir. destruct (OsPath.resolve _ _); [|done].
  by destruct (FS.lookup _ _) as [[]|].
Qed.

Lemma silent_tick : respects same_events tick.
Proof. by intros w. Qed.

Lemma silent_glob E pattern : respects same_events (glob E pattern).
Proof. by intros w. Qed.

Lemma silent_copyfile src dst : respects same_events (copyfile src dst).
Proof.
  apply respects_bind; [apply _ | apply silent_on_path |].
  intros a. apply silent_update_path.
Qed.

Lemma silent_copy src dst : respects same_events (copy src dst).
Proof.
  apply respects_bind; [apply _ | apply silent_on_path |].
  intros a. apply silent_copyfile.
Qed.

Lemma silent_mkdtemp_from fuel k dir : respects same_events (mkdtemp_from fuel k dir).
Proof.
  revert k. induction fuel as [|fuel IH]; intros k w; simpl; [done|].
  pose proof (silent_update_path (OsPath.join dir (temp_name k))
                (FS.mkdir (OsPath.join dir (temp_name k))) w) as Hm.
  fold (mkdir (OsPath.join dir (temp_name k))) in Hm.
  destruct (mkdir _ w) as [[u|e] w1]; simpl in *; [done|].
  destruct e; try done.
  etrans; [exact Hm | apply (IH (S k) w1)].
Qed.

Lemma silent_mkdtemp dir : respects same_events (mkdtemp dir).
Proof. apply silent_mkdtemp_from. Qed.

Lemma emits P e : P e -> respects (ev_rel P) (emit e).
Proof. intros HP w. exists [e]. split; [done | by constructor]. Qed.

Section Traced.
Context (P : event -> Prop).

Lemma quiet {A} (m : M World A) : respects same_events m -> respects (ev_rel P) m.
Proof. apply respects_weaken, same_events_ev_rel. Qed.

Lemma traced_http_request E url :
  P (EvHttp url) -> respects (ev_rel P) (http_request E url).
Proof.
  intros HP. unfold http_request.
  apply respects_bind; [apply _ | apply quiet, silent_tick |]. intros t.
  apply respects_bind; [apply _ | by apply emits |]. intros _.
  destruct (http_get E t url); [apply respects_ret | apply respects_raise]; apply _.
Qed.

Lemma traced_communicate E cmd :
  (forall o, P (EvExec cmd o)) -> respects (ev_rel P) (communicate E cmd).
Proof.
  intros HP. unfold communicate.
  apply respects_bind; [apply _ | apply quiet, silent_tick |]. intros t w.
  destruct (run_process E t (cwd w) cmd (fs w)) as [[[[rc out] err] f]|].
  - pose proof (emits P (EvExec cmd (Exited rc)) (HP _) (set_fs f w)) as He.
    unfold bind. destruct (emit _ (set_fs f w)) as [[u|e] w1] eqn:Hw; simpl in *.
    + destruct He as (evs & He & HF). exists evs. done.
    + destruct He as (evs & He & HF). exists evs. done.
  - pose proof (emits P (EvExec cmd SpawnFailed) (HP _) w) as He.
    unfold bind. destruct (emit _ w) as [[u|e] w1] eqn:Hw; simpl in *; done.
Qed.

Lemma traced_check_output E cmd :
  (forall o, P (EvExec cmd o)) -> respects (ev_rel P) (check_output E cmd).
Proof.
  intros HP. unfold check_output.
  apply respects_bind; [apply _ | by apply traced_communicate |].
  intros [[rc out] err].
  destruct (rc =? 0)%Z; [apply respects_ret | apply respects_raise]; apply _.
Qed.

End Traced.

End OsFacts.

(** ** The stager: traces *)
Module StagerTrace.
Import Py PyStr Os MonadFacts OsFacts Stager.

(** One structural step of a proof that a computation respects a relation
    on traces. *)
Ltac traced_step :=
  match goal with
  | |- PreOrder _ => apply _
  | |- forall _, _ => intro
  | |- respects _ (bind _ _) => apply respects_bind
  | |- respects _ (ret _) => apply respects_ret
  | |- respects _ (raise _) => apply respects_raise
  | |- respects _ (of_result _) => apply respects_of_result
  | |- respects _ (try_except _ _) => apply respects_try_except
  | |- respects _ (try_finally _ _) => apply respects_try_finally
  | |- respects _ (when _ _) => apply respects_when
  | |- respects _ (for_fold _ _ _) => apply respects_for_fold
  | |- respects (ev_rel _) (log _ _) => apply emits
  | |- respects (ev_rel _) (print _) => apply emits
  | |- respects (ev_rel _) (sleep _) => apply emits
  | |- respects (ev_rel _) (emit _) => apply emits
  | |- respects (ev_rel _) (http_request _ _) => apply traced_http_request
  | |- respects (ev_rel _) (check_output _ _) => apply traced_check_output
  | |- respects (ev_rel _) (communicate _ _) => apply traced_communicate
  | |- respects (ev_rel _) (isfile _) => apply quiet, silent_on_path
  | |- respects (ev_rel _) (isdir _) => apply quiet, silent_on_path
  | |- respects (ev_rel _) (exists_ _) => apply quiet, silent_on_path
  | |- respects (ev_rel _) (read_file _) => apply quiet, silent_on_path
  | |- respects (ev_rel _) (listdir _) => apply quiet, silent_on_path
  | |- respects (ev_rel _) (mkdir _) => apply quiet, silent_update_path
  | |- respects (ev_rel _) (makedirs _) => apply quiet, silent_update_path
  | |- respects (ev_rel _) (rmtree _) => apply quiet, silent_update_path
  | |- respects (ev_rel _) (write_file _ _) => apply quiet, silent_update_path
  | |- respects (ev_rel _) (copyfile _ _) => apply quiet, silent_copyfile
  | |- respects (ev_rel _) (copy _ _) => apply quiet, silent_copy
  | |- respects (ev_rel _) (copytree _ _) => apply quiet, silent_copytree
  | |- respects (ev_rel _) (chdir _) => apply quiet, silent_chdir
  | |- respects (ev_rel _) getcwd => apply respects_gets
  | |- respects (ev_rel _) (glob _ _) => apply quiet, silent_glob
  | |- respects (ev_rel _) (mkdtemp _) => apply quiet, silent_mkdtemp
  | |- respects _ (if ?c then _ else _) => destruct c
  | |- respects _ (match ?x with _ => _ end) => destruct x
  end.

Ltac traced := repeat traced_step.

Section Downloads.
Context (E : StagerEnv) (P : event -> Prop).
Hypothesis P_log : forall level msg, P (EvLog level msg).

Lemma traced_download_file from_url to_path :
  P (EvHttp from_url) -> respects (ev_rel P) (_download_file E from_url to_path).
Proof. intros HP. unfold _download_file. traced; auto. Qed.

Lemma traced_extra_package_step d package acc :
  P (EvHttp package) -> respects (ev_rel P) (extra_package_step E d package acc).
Proof.
  intros HP. unfold extra_package_step. traced; auto.
  by apply traced_download_file.
Qed.

Lemma traced_jar_package_step d package acc :
  P (EvHttp package) -> respects (ev_rel P) (jar_package_step E d package acc).
Proof.
  intros HP. unfold jar_package_step. traced; auto.
  by apply traced_download_file.
Qed.

End Downloads.

(** The events a rejected extra-package list may leave: log lines, and
    requests for the packages in [fetched]; nothing is staged or
    committed. *)
Definition only_fetches (fetched : list string) (ev : event) : Prop :=
  match ev with
  | EvLog _ _ => True
  | EvHttp url => url ∈ fetched
  | _ => False
  end.

Lemma only_fetches_mono l1 l2 ev :
  l1 ⊆ l2 -> only_fetches l1 ev -> only_fetches l2 ev.
Proof. intros Hs. destruct ev; simpl; auto. Qed.

(** The first loop of [_stage_extra_packages] cannot get past a package
    with an unsupported extension. *)
Lemma extra_loop_rejects E d bad post pre acc w :
  supported_extra_package bad = false ->
  exists e w',
    for_fold (pre ++ bad :: post) (extra_package_step E d) acc w = (Raise e, w')
    /\ ev_rel (only_fetches pre) w w'.
Proof.
  intros Hbad. revert acc w. induction pre as [|p pre IH]; intros acc w; simpl.
  - unfold bind, extra_package_step at 1. rewrite Hbad. simpl.
    eexists _, w. split; [done | reflexivity].
  - pose proof (traced_extra_package_step E (only_fetches (p :: pre))
                  (fun _ _ => I) d p acc (list_elem_of_here _ _) w) as Hstep.
    unfold bind. destruct (extra_package_step E d p acc w) as [[acc'|e] w1].
    + destruct (IH acc' w1) as (e & w' & Hrun & Hev). exists e, w'.
      split; [done|]. etrans; [exact Hstep|].
      eapply ev_rel_mono; [|exact Hev].
      intros ev. apply only_fetches_mono. set_solver.
    + by exists e, w1.
Qed.

End StagerTrace.

(** ** The stager: the extra-package path and the temporary directory *)
Module StagerFacts.
Import Py PyStr Os MonadFacts OsFacts Stager StagerTrace.

Section WithBackend.
Context {B : Type} `{Stager B} (E : StagerEnv).

Lemma liftW_run {A} (m : M World A) (st : State B) :
  liftW m st = ((m (world st)).1, mkState (m (world st)).2 (backend st)).
Proof. unfold liftW. by destruct (m (world st)). Qed.

(** Whatever file systems are registered, a list of extra packages that
    contains a package with an unsupported extension is rejected with an
    error before anything is staged: the backend is untouched and the trace
    shows no staging and no commit.  The only network requests made are for
    packages that stand before the unsupported one in the list. *)
Theorem extra_packages_unsupported_rejected
  (pre post : list string) (bad staging_location temp_dir : string) (st : State B) :
  supported_extra_package bad = false ->
  exists e st',
    _stage_extra_packages E (pre ++ bad :: post) staging_location temp_dir st
      = (Raise e, st')
    /\ backend st' = backend st
    /\ ev_rel (only_fetches pre) (world st) (world st').
Proof.
  intros Hbad. unfold _stage_extra_packages.
  unfold bind at 1. rewrite liftW_run.
  pose proof (silent_mkdtemp temp_dir (world st)) as Hsilent.
  destruct (mkdtemp temp_dir (world st)) as [[d|e] w1]; simpl in *.
  - unfold bind at 1. rewrite liftW_run. simpl.
    destruct (extra_loop_rejects E d bad post pre [] w1 Hbad) as (e & w' & Hrun & Hev).
    rewrite Hrun. simpl. eexists _, _. split; [done|]. split; [done|]. simpl.
    etrans; [apply same_events_ev_rel; exact Hsilent | exact Hev].
  - eexists _, _. split; [done|]. split; [done|]. simpl.
    by apply same_events_ev_rel.
Qed.

(** C2, as amended.  When [stage_job_resources] returns, the temporary
    directory it worked in, passed in or created, no longer exists. *)
Theorem temp_dir_removed_on_return
  (options : PipelineOptions) (build_setup_args : option (list string))
  (temp_dir : option string) (populate : option Populate)
  (staging_location : option string) (st st' : State B)
  (token : string) (resources : list string) :
  stage_job_resources E options build_setup_args temp_dir populate staging_location st
    = (Ok (token, resources), st') ->
  exists dir w1,
    choose_temp_dir E temp_dir (world st) = (Ok dir, w1)
    /\ exists_ dir (world st') = (Ok false, world st').
Proof.
  unfold stage_job_resources. intros Hrun.
  apply bind_ok_inv in Hrun as (dir & s1 & Hchoose & Hrun).
  apply bind_ok_inv in Hrun as (res & s2 & Hall & Hrun).
  apply bind_ok_inv in Hrun as ([] & s3 & Hrm & Hrun).
  apply bind_ok_inv in Hrun as (tok & s4 & Hcommit & Hret).
  injection Hret as _ _ <-.
  rewrite liftW_run in Hchoose. injection Hchoose as Hc1 Hc2.
  exists dir, (choose_temp_dir E temp_dir (world st)).2. split.
  { destruct (choose_temp_dir E temp_dir (world st)); simpl in *. by subst. }
  rewrite liftW_run in Hrm. injection Hrm as Hr1 Hr2.
  unfold rmtree, update_path in Hr1, Hr2.
  unfold self_commit_manifest, bind, liftW, emit, modify in Hcommit. simpl in Hcommit.
  destruct (commit_manifest _ _) as [r b]. injection Hcommit as _ <-. simpl.
  unfold exists_, on_path. simpl.
  destruct (OsPath.resolve (cwd (world s2)) dir) as [q|] eqn:Hres; [|done].
  destruct (FS.rmtree dir q (fs (world s2))) as [f|] eqn:Hfs; [|done].
  subst s3. simpl. rewrite Hres. unfold FS.exists_.
  by rewrite (FSFacts.lookup_rmtree _ _ _ _ Hfs).
Qed.

End WithBackend.

End StagerFacts.

(** ** The stager: no step commits *)
Module StagerSteps.
Import Py PyStr Os MonadFacts OsFacts Stager StagerTrace StagerFacts.

(** A computation that raises from every state. *)
Definition fails {S A} (m : M S A) : Prop := forall s, is_ok (m s).1 = false.

Lemma fails_bind_l {S A B} (m : M S A) (k : A -> M S B) :
  fails m -> fails (bind m k).
Proof.
  intros Hm s. specialize (Hm s). unfold bind.
  by destruct (m s) as [[a|e] s1].
Qed.

Lemma fails_bind_r {S A B} (m : M S A) (k : A -> M S B) :
  (forall a, fails (k a)) -> fails (bind m k).
Proof.
  intros Hk s. unfold bind. destruct (m s) as [[a|e] s1]; [apply Hk | done].
Qed.

Lemma fails_raise {S A} e : fails (@raise S A e).
Proof. by intros s. Qed.

Lemma respects_backoff_loop {S A} (R : S -> S -> Prop) `{!PreOrder R}
  (pause : N -> M S unit) retry_filter more delay (fn : M S A) :
  respects R fn -> (forall d, respects R (pause d)) ->
  respects R (backoff_loop pause retry_filter more delay fn).
Proof.
  intros Hfn Hp. revert delay. induction more as [|more IH]; intros delay; simpl.
  - apply respects_try_except; [apply _ | done |]. intros e.
    destruct (negb (retry_filter e)); apply respects_raise; apply _.
  - apply respects_try_except; [apply _ | done |]. intros e.
    destruct (negb (retry_filter e)); [apply respects_raise; apply _|].
    apply respects_bind; [apply _ | apply Hp | intros _; apply IH].
Qed.

(** The events of the local steps: anything but staging and committing. *)
Definition local_only (ev : event) : Prop :=
  match ev with
  | EvStage _ _ | EvCommit => False
  | _ => True
  end.

Definition not_commit (ev : event) : Prop := ev <> EvCommit.

Lemma local_only_not_commit ev : local_only ev -> not_commit ev.
Proof. by destruct ev. Qed.

Section Local.
Context (E : StagerEnv).

Lemma local_get_python_executable :
  respects (ev_rel local_only) (_get_python_executable E).
Proof.
  unfold _get_python_executable. traced.
Qed.

Lemma local_populate_requirements_cache rf cache :
  respects (ev_rel local_only) (_populate_requirements_cache E rf cache).
Proof.
  unfold _populate_requirements_cache, with_exponential_backoff.
  apply respects_backoff_loop; [apply _ | | intros d; by apply emits].
  unfold pip_download_requirements.
  apply respects_bind; [apply _ | apply local_get_python_executable |].
  intros python. traced; done.
Qed.

Lemma local_call_populate callable rf cache :
  respects (ev_rel local_only) (call_populate callable rf cache).
Proof.
  apply quiet. intros w. unfold call_populate.
  by destruct (callable rf cache (cwd w) (fs w)).
Qed.

Lemma local_build_setup_package sf dir args :
  respects (ev_rel local_only) (_build_setup_package E sf dir args).
Proof.
  unfold _build_setup_package. traced; try done.
  apply local_get_python_executable.
Qed.

Lemma local_first_existing files :
  respects (ev_rel local_only) (first_existing files).
Proof. unfold first_existing. traced; cbv beta; traced. Qed.

Lemma local_download_pypi_sdk_package dir fetch_binary lv li abi plat :
  respects (ev_rel local_only)
    (_download_pypi_sdk_package E dir fetch_binary lv li abi plat).
Proof.
  unfold _download_pypi_sdk_package.
  apply respects_bind; [apply _ | traced |]. intros version.
  apply respects_bind; [apply _ | apply local_get_python_executable |]. intros python.
  apply respects_bind; [apply _ | traced; done |]. intros plan.
  apply respects_bind; [apply _ | traced; done |]. intros _.
  apply respects_bind; [apply _ | traced; done |]. intros _.
  apply respects_bind; [apply _ | apply local_first_existing |]. intros found.
  traced.
Qed.

Lemma local_dump_session file : respects (ev_rel local_only) (dump_session E file).
Proof. unfold dump_session. traced. Qed.

Lemma local_choose_temp_dir temp_dir :
  respects (ev_rel local_only) (choose_temp_dir E temp_dir).
Proof. unfold choose_temp_dir. traced. Qed.

End Local.

Section Steps.
Context {B : Type} `{Stager B} (E : StagerEnv).

(** The relation [ev_rel P] on the world of a stager state. *)
Definition st_ev (P : event -> Prop) (st st' : State B) : Prop :=
  ev_rel P (world st) (world st').

#[export] Instance st_ev_preorder P : PreOrder (st_ev P).
Proof.
  split; [intros st; unfold st_ev; reflexivity|].
  intros s1 s2 s3 H1 H2. unfold st_ev in *. by etrans.
Qed.

Lemma staged_liftW P {A} (m : M World A) :
  respects (ev_rel P) m -> respects (st_ev P) (liftW m).
Proof. intros Hm st. rewrite liftW_run. apply Hm. Qed.

Lemma staged_stage_artifact (P : event -> Prop) local_path name :
  P (EvStage local_path name) ->
  respects (st_ev P) (self_stage_artifact local_path name).
Proof.
  intros HP st. unfold self_stage_artifact, bind. rewrite liftW_run. simpl.
  destruct (stage_artifact _ _ _ _) as [r b]. simpl.
  exists [EvStage local_path name]. split; [done | by constructor].
Qed.

Lemma nc_local {A} (m : M World A) :
  respects (ev_rel local_only) m -> respects (st_ev not_commit) (liftW m).
Proof.
  intros Hm. apply staged_liftW. eapply respects_weaken; [|exact Hm].
  intros w w'. apply ev_rel_mono, local_only_not_commit.
Qed.

Ltac nc_step :=
  match goal with
  | |- respects (st_ev _) (liftW (log _ _)) => apply staged_liftW, emits; done
  | |- respects (st_ev _) (liftW _) => apply nc_local
  | |- respects (st_ev _) (self_stage_artifact _ _) =>
      apply staged_stage_artifact; done
  | |- respects (ev_rel local_only) (_download_file _ _ _) =>
      apply traced_download_file; done
  | |- respects (ev_rel local_only) (extra_package_step _ _ _ _) =>
      apply traced_extra_package_step; done
  | |- respects (ev_rel local_only) (jar_package_step _ _ _ _) =>
      apply traced_jar_package_step; done
  | |- respects (ev_rel local_only) (_populate_requirements_cache _ _ _) =>
      apply local_populate_requirements_cache
  | |- respects (ev_rel local_only) (call_populate _ _ _) =>
      apply local_call_populate
  | |- respects (ev_rel local_only) (_build_setup_package _ _ _ _) =>
      apply local_build_setup_package
  | |- respects (ev_rel local_only) (_download_pypi_sdk_package _ _ _ _ _ _ _) =>
      apply local_download_pypi_sdk_package
  | |- respects (ev_rel local_only) (dump_session _ _) => apply local_dump_session
  | |- respects (ev_rel local_only) (choose_temp_dir _ _) => apply local_choose_temp_dir
  | |- respects _ (match ?x with _ => _ end _ _) => destruct x
  | |- respects _ (stage_package_step _ _ _) => unfold stage_package_step
  | |- respects _ (stage_cached_package _ _ _) => unfold stage_cached_package
  | |- _ => traced_step
  end.

Ltac nc := repeat (nc_step; cbv beta).

Lemma nc_stage_jar_packages pkgs sl dir :
  respects (st_ev not_commit) (_stage_jar_packages E pkgs sl dir).
Proof. unfold _stage_jar_packages. nc. Qed.

Lemma nc_stage_extra_packages pkgs sl dir :
  respects (st_ev not_commit) (_stage_extra_packages E pkgs sl dir).
Proof. unfold _stage_extra_packages. nc. Qed.

Lemma nc_stage_beam_sdk loc sl dir :
  respects (st_ev not_commit) (_stage_beam_sdk E loc sl dir).
Proof. unfold _stage_beam_sdk. nc. Qed.

Lemma nc_stage_requirements options populate sl res :
  respects (st_ev not_commit) (stage_requirements E options populate sl res).
Proof. unfold stage_requirements, fetch_requirements. nc. Qed.

Lemma nc_stage_setup_file options args dir sl res :
  respects (st_ev not_commit) (stage_setup_file E options args dir sl res).
Proof. unfold stage_setup_file. nc. Qed.

Lemma nc_stage_extra options dir sl res :
  respects (st_ev not_commit) (stage_extra E options dir sl res).
Proof.
  unfold stage_extra. destruct (extra_packages options); nc.
  apply nc_stage_extra_packages.
Qed.

Lemma nc_stage_jars options dir sl res :
  respects (st_ev not_commit) (stage_jars E options dir sl res).
Proof.
  unfold stage_jars. destruct (experiment_jar_packages options); nc.
  apply nc_stage_jar_packages.
Qed.

Lemma nc_stage_main_session options dir sl res :
  respects (st_ev not_commit) (stage_main_session E options dir sl res).
Proof. unfold stage_main_session. nc. Qed.

Lemma nc_stage_sdk options dir sl res :
  respects (st_ev not_commit) (stage_sdk E options dir sl res).
Proof.
  unfold stage_sdk. destruct (sdk_location options) as [loc|]; nc;
    try apply nc_stage_beam_sdk.
Qed.

Lemma nc_stage_worker_jar options sl res :
  respects (st_ev not_commit) (stage_worker_jar options sl res).
Proof. unfold stage_worker_jar. nc. Qed.

Lemma nc_stage_all options args dir populate sl :
  respects (st_ev not_commit) (stage_all E options args dir populate sl).
Proof.
  unfold stage_all. destruct sl as [sl|]; [|apply respects_raise; apply _].
  repeat (apply respects_bind; [apply _ | | intros ?]);
    auto using nc_stage_requirements, nc_stage_setup_file, nc_stage_extra,
      nc_stage_jars, nc_stage_main_session, nc_stage_sdk, nc_stage_worker_jar.
Qed.

Lemma fails_liftW {A} (m : M World A) : fails m -> fails (liftW (B:=B) m).
Proof. intros Hm st. rewrite liftW_run. apply Hm. Qed.

(** With [sdk_location] set to [default], the SDK block starts with the
    download of the source distribution; when that raises, the block raises
    without a call to the backend. *)
Lemma stage_sdk_default_fails options dir sl res (s : State B) :
  sdk_location options = Some "default" ->
  is_ok (_download_pypi_sdk_package E dir false "27" "cp" "cp27mu"
           "manylinux1_x86_64" (world s)).1 = false ->
  exists e s',
    stage_sdk E options dir sl res s = (Raise e, s')
    /\ backend s' = backend s
    /\ ev_rel local_only (world s) (world s').
Proof.
  intros Hsdk Hfail. unfold stage_sdk. rewrite Hsdk. simpl.
  unfold bind at 1. unfold _stage_beam_sdk. simpl.
  unfold bind at 1. rewrite liftW_run.
  pose proof (local_download_pypi_sdk_package E dir false "27" "cp" "cp27mu"
                "manylinux1_x86_64" (world s)) as Hev.
  destruct (_download_pypi_sdk_package E dir false "27" "cp" "cp27mu"
              "manylinux1_x86_64" (world s)) as [[f|e] w']; [done|].
  simpl in *. by eexists _, _.
Qed.

Lemma stage_all_fails options args dir populate sl :
  sdk_location options = Some "default" ->
  (forall d, fails (_download_pypi_sdk_package E d false "27" "cp" "cp27mu"
                      "manylinux1_x86_64")) ->
  fails (stage_all E options args dir populate sl).
Proof.
  intros Hsdk Hfail. unfold stage_all. destruct sl as [sl|]; [|apply fails_raise].
  do 5 (apply fails_bind_r; intros ?). apply fails_bind_l. intros s.
  match goal with
  | |- context [stage_sdk E options dir sl ?res s] =>
      destruct (stage_sdk_default_fails options dir sl res s Hsdk (Hfail dir (world s)))
        as (e & s' & -> & _)
  end.
  done.
Qed.

(** C4.  With [sdk_location] set to [default] and an SDK source
    distribution that cannot be obtained, [stage_job_resources] raises and
    the run contains no commit of the manifest; the SDK block itself raises
    without staging anything, leaving the backend as it found it. *)
Theorem missing_default_sdk_is_fatal
  (options : PipelineOptions) (build_setup_args : option (list string))
  (temp_dir : option string) (populate : option Populate)
  (staging_location : option string) (st : State B) :
  sdk_location options = Some "default" ->
  (forall d, fails (_download_pypi_sdk_package E d false "27" "cp" "cp27mu"
                      "manylinux1_x86_64")) ->
  (exists e st',
     stage_job_resources E options build_setup_args temp_dir populate
       staging_location st = (Raise e, st')
     /\ st_ev not_commit st st')
  /\ (forall dir sl res (s : State B),
       exists e s',
         stage_sdk E options dir sl res s = (Raise e, s')
         /\ backend s' = backend s
         /\ ev_rel local_only (world s) (world s')).
Proof.
  intros Hsdk Hfail. split.
  - unfold stage_job_resources, bind at 1.
    pose proof (nc_local _ (local_choose_temp_dir E temp_dir) st) as Hchoose.
    destruct (liftW (choose_temp_dir E temp_dir) st) as [[dir|e] s1];
      simpl in Hchoose; [|by eexists _, _].
    unfold bind at 1.
    pose proof (nc_stage_all options build_setup_args dir populate staging_location s1)
      as Hall.
    pose proof (stage_all_fails options build_setup_args dir populate staging_location
                  Hsdk Hfail s1) as Hraise.
    destruct (stage_all E options build_setup_args dir populate staging_location s1)
      as [[res|e] s2]; [done|].
    simpl in *. eexists _, _. split; [done|]. by etrans.
  - intros dir sl res s.
    by apply stage_sdk_default_fails, Hfail.
Qed.

End Steps.

End StagerSteps.


(** ** The stager: the requirements block and the returned list *)
Module StagerResources.
Import Py PyStr Os StrFacts PathFacts MonadFacts OsFacts Stager StagerTrace StagerFacts.






Section WithBackend.
Context {B : Type} `{Stager B} (E : StagerEnv).












End WithBackend.

End StagerResources.

(** ** The stager: the retried download of requirements *)
Module StagerRetry.
Import Py PyStr Os MonadFacts OsFacts Stager.

(** The outcomes of the subprocesses in a trace, and the pauses in it. *)
Definition exec_outcomes (evs : list event) : list proc_outcome :=
  omap (fun ev => match ev with EvExec _ o => Some o | _ => None end) evs.

Definition pauses (evs : list event) : list N :=
  omap (fun ev => match ev with EvSleep d => Some d | _ => None end) evs.

Definition nonzero_exit (o : proc_outcome) : Prop :=
  match o with
  | Exited rc => rc <> 0%Z
  | SpawnFailed => False
  end.

(** [n] pauses starting from [d], each twice the one before. *)
Fixpoint backoff_delays (d : N) (n : nat) : list N :=
  match n with
  | O => []
  | S k => d :: backoff_delays (2 * d)%N k
  end.

Lemma backoff_delays_exponential d n i :
  (i < n)%nat -> backoff_delays d n !! i = Some (d * 2 ^ N.of_nat i)%N.
Proof.
  revert d i. induction n as [|n IH]; intros d i Hi; [lia|].
  destruct i as [|i]; simpl.
  - f_equal. lia.
  - rewrite IH by lia. f_equal.
    replace (N.of_nat (S i)) with (N.succ (N.of_nat i)) by lia.
    rewrite N.pow_succ_r'. lia.
Qed.

Section Attempts.
Context (E : StagerEnv) (requirements_file cache_dir : string).

Definition pip_cmd (python : string) : list string :=
  [python; "-m"; "pip"; "download"; "--dest"; cache_dir; "-r";
   requirements_file; "--exists-action"; "i"; "--no-binary"; ":all:"].

Lemma attempt_run python w :
  _get_python_executable E w = (Ok python, w) ->
  pip_download_requirements E requirements_file cache_dir w
  = match run_process (os_env E) (clock w) (cwd w) (pip_cmd python) (fs w) with
    | Some (rc, _, _, f) =>
        (if (rc =? 0)%Z then Ok tt
         else Raise (CalledProcessError rc (pip_cmd python)),
         mkWorld f (cwd w) (S (clock w))
           (events w ++ [EvLog "info" "Executing command: %s";
                         EvExec (pip_cmd python) (Exited rc)]))
    | None =>
        (Raise (OSError "cannot start the program"),
         mkWorld (fs w) (cwd w) (S (clock w))
           (events w ++ [EvLog "info" "Executing command: %s";
                         EvExec (pip_cmd python) SpawnFailed]))
    end.
Proof.
  intros Hpy. unfold pip_download_requirements, bind. rewrite Hpy.
  fold (pip_cmd python). unfold log, emit, modify. simpl.
  unfold check_output, communicate, bind, tick. simpl.
  destruct (run_process (os_env E) (clock w) (cwd w) (pip_cmd python) (fs w))
    as [[[[rc out] err] f]|]; simpl.
  - destruct (rc =? 0)%Z; simpl; by rewrite <- app_assoc.
  - by rewrite <- app_assoc.
Qed.

(** One attempt, when the interpreter is known: a log line, one
    subprocess, and a result that mirrors how the subprocess ended. *)
Lemma attempt_with_python python w :
  _get_python_executable E w = (Ok python, w) ->
  exists o w1,
    (pip_download_requirements E requirements_file cache_dir w).2 = w1
    /\ events w1 = events w
                   ++ [EvLog "info" "Executing command: %s"; EvExec (pip_cmd python) o]
    /\ (pip_download_requirements E requirements_file cache_dir w).1
       = match o with
         | Exited rc =>
             if (rc =? 0)%Z then Ok tt
             else Raise (CalledProcessError rc (pip_cmd python))
         | SpawnFailed => Raise (OSError "cannot start the program")
         end.
Proof.
  intros Hpy. rewrite (attempt_run python w Hpy).
  destruct (run_process (os_env E) (clock w) (cwd w) (pip_cmd python) (fs w))
    as [[[[rc out] err] f]|].
  - exists (Exited rc). eexists. by repeat split.
  - exists SpawnFailed. eexists. by repeat split.
Qed.

Lemma python_cases :
  (exists python, forall w, _get_python_executable E w = (Ok python, w))
  \/ (forall w, _get_python_executable E w
                = (Raise (ValueError "Could not find Python executable."), w)).
Proof.
  unfold _get_python_executable.
  destruct (String.eqb _ "") eqn:Hp; [by right | left; eauto].
Qed.

(** The shape of the trace left by the retried download. *)
Definition retry_trace (limit : nat) (d : N) (evs : list event) : Prop :=
  (length (exec_outcomes evs) <= limit)%nat
  /\ pauses evs = backoff_delays d (length (exec_outcomes evs) - 1)
  /\ Forall nonzero_exit (removelast (exec_outcomes evs)).

Lemma backoff_loop_unfold {S A} (pause : N -> M S unit) retry_filter more d
  (fn : M S A) :
  backoff_loop pause retry_filter more d fn
  = try_except fn
      (fun exn_ =>
         if negb (retry_filter exn_) then raise exn_
         else match more with
              | O => raise exn_
              | S more' =>
                  bind (pause d)
                    (fun _ => backoff_loop pause retry_filter more' (2 * d)%N fn)
              end).
Proof. by destruct more. Qed.

Lemma bind_sleep {A} d (k : unit -> M World A) w :
  bind (sleep d) k w
  = k tt (mkWorld (fs w) (cwd w) (clock w) (events w ++ [EvSleep d])).
Proof. reflexivity. Qed.

Lemma outcomes_retry_step level msg cmd o d evs :
  exec_outcomes ([EvLog level msg; EvExec cmd o; EvSleep d] ++ evs)
  = o :: exec_outcomes evs.
Proof. reflexivity. Qed.

Lemma pauses_retry_step level msg cmd o d evs :
  pauses ([EvLog level msg; EvExec cmd o; EvSleep d] ++ evs) = d :: pauses evs.
Proof. reflexivity. Qed.

Lemma single_attempt_trace python o limit d :
  (1 <= limit)%nat ->
  retry_trace limit d
    [EvLog "info" "Executing command: %s"; EvExec (pip_cmd python) o].
Proof. intros Hl. unfold retry_trace. simpl. repeat split; auto. Qed.

Lemma backoff_with_python python more d w :
  (forall w, _get_python_executable E w = (Ok python, w)) ->
  exists evs,
    events (backoff_loop sleep retry_on_non_zero_exit more d
              (pip_download_requirements E requirements_file cache_dir) w).2
    = events w ++ evs
    /\ (1 <= length (exec_outcomes evs))%nat
    /\ retry_trace (S more) d evs.
Proof.
  intros Hpy. revert d w. induction more as [|more IH]; intros d w;
    rewrite backoff_loop_unfold; unfold try_except;
    destruct (attempt_with_python python w (Hpy w)) as (o & w1 & Hw1 & Hev & Hres);
    destruct (pip_download_requirements E requirements_file cache_dir w) as [r w'];
    cbn [fst snd] in Hw1, Hres; subst w'.
  - exists [EvLog "info" "Executing command: %s"; EvExec (pip_cmd python) o].
    split; [|split; [simpl; lia | apply single_attempt_trace; lia]].
    destruct r as [[]|e]; [done|].
    by destruct (negb (retry_on_non_zero_exit e)).
  - destruct r as [[]|e].
    { exists [EvLog "info" "Executing command: %s"; EvExec (pip_cmd python) o].
      split; [done|]. split; [simpl; lia | apply single_attempt_trace; lia]. }
    destruct (retry_on_non_zero_exit e) eqn:Hretry; cbn [negb].
    + rewrite bind_sleep.
      match goal with
      | |- context [backoff_loop _ _ more ?d2 _ ?w2] =>
          destruct (IH d2 w2) as (evs & Hevs & Hlen & Hlim & Hpau & Hnz)
      end.
      exists ([EvLog "info" "Executing command: %s"; EvExec (pip_cmd python) o;
               EvSleep d] ++ evs).
      split; [|split; [simpl; lia|]].
      { rewrite Hevs. cbn [events]. rewrite Hev. by rewrite <- !app_assoc. }
      unfold retry_trace. rewrite outcomes_retry_step, pauses_retry_step.
      destruct (exec_outcomes evs) as [|o2 outs] eqn:Houts; [simpl in Hlen; lia|].
      cbn [length removelast] in *. split; [lia|]. split.
      * rewrite Hpau. by replace (S (length outs) - 1)%nat with (length outs) by lia.
      * constructor; [|done].
        destruct o as [rc|]; [|injection Hres as ->; discriminate].
        destruct (rc =? 0)%Z eqn:Hrc; [done|]. by apply Z.eqb_neq.
    + exists [EvLog "info" "Executing command: %s"; EvExec (pip_cmd python) o].
      split; [done|]. split; [simpl; lia | apply single_attempt_trace; lia].
Qed.

Lemma backoff_without_python more d w :
  (forall w, _get_python_executable E w
             = (Raise (ValueError "Could not find Python executable."), w)) ->
  backoff_loop sleep retry_on_non_zero_exit more d
    (pip_download_requirements E requirements_file cache_dir) w
  = (Raise (ValueError "Could not find Python executable."), w).
Proof.
  intros Hpy. rewrite backoff_loop_unfold.
  unfold try_except, pip_download_requirements, bind. by rewrite Hpy.
Qed.

(** C6.  A run of [_populate_requirements_cache] starts at most 4
    subprocesses; between two consecutive ones it pauses, the first pause
    being the initial delay and each further pause twice the one before;
    and every attempt that was followed by another one had ended in a
    subprocess exit with a non-zero return code. *)
Theorem populate_requirements_cache_retries (w : World) :
  exists evs,
    events (_populate_requirements_cache E requirements_file cache_dir w).2
    = events w ++ evs
    /\ (length (exec_outcomes evs) <= 4)%nat
    /\ pauses evs
       = backoff_delays (initial_delay_secs E) (length (exec_outcomes evs) - 1)
    /\ Forall nonzero_exit (removelast (exec_outcomes evs)).
Proof.
  unfold _populate_requirements_cache, with_exponential_backoff.
  change (pred 4) with 3%nat.
  destruct python_cases as [[python Hpy] | Hpy].
  - destruct (backoff_with_python python 3 (initial_delay_secs E) w Hpy)
      as (evs & Hevs & _ & Htrace).
    exists evs. split; [done|]. exact Htrace.
  - rewrite backoff_without_python by done. exists []. simpl.
    rewrite app_nil_r. repeat split; auto; lia.
Qed.

End Attempts.

End StagerRetry.

(** ** The stager: jar packages staged twice *)
Module StagerJars.
Import Py PyStr Os StrFacts PathFacts FSFacts MonadFacts OsFacts Stager StagerFacts.

#[local] Arguments String.prefix : simpl never.

(** *** Names of temporary directories *)

Lemma has_char_app c (a b : string) :
  has_char c (a +:+ b) = has_char c a || has_char c b.
Proof.
  induction a as [|x a IH]; [done|]. rewrite sapp_cons. simpl.
  rewrite IH. by destruct (Ascii.eqb x c).
Qed.

Lemma digit_not_slash (m : nat) :
  (m < 10)%nat -> Ascii.eqb (ascii_of_nat (48 + m)) "/" = false.
Proof.
  intros Hm. do 10 (destruct m as [|m]; [reflexivity|]). lia.
Qed.

Lemma digits_fuel_plain fuel n acc :
  has_char "/" acc = false -> has_char "/" (digits_fuel fuel n acc) = false.
Proof.
  revert n acc. induction fuel as [|fuel IH]; intros n acc Hacc; [done|].
  cbn [digits_fuel].
  assert (has_char "/" (String (ascii_of_nat (48 + n mod 10)) acc) = false) as Hacc'.
  { cbn [has_char]. rewrite digit_not_slash; [done|].
    apply Nat.mod_upper_bound. lia. }
  destruct (n <? 10)%nat; [done | by apply IH].
Qed.

Lemma temp_name_is_name k : is_name (temp_name k).
Proof.
  split.
  - unfold temp_name. rewrite has_char_app. simpl.
    by apply digits_fuel_plain.
  - unfold temp_name. done.
Qed.

(** *** [mkdir], [mkdtemp] and [isfile] as equations *)

Lemma mkdtemp_from_inv fuel k dir w d w' :
  mkdtemp_from fuel k dir w = (Ok d, w') ->
  exists j q,
    d = OsPath.join dir (temp_name j)
    /\ OsPath.resolve (cwd w) d = Some q
    /\ FS.lookup q (fs w) = None
    /\ FS.isdir (FS.parent q) (fs w) = true
    /\ w' = set_fs (fs w ++ [(q, FS.Dir)]) w.
Proof.
  revert k. induction fuel as [|fuel IH]; intros k; [done|]. cbn [mkdtemp_from].
  destruct (mkdir (OsPath.join dir (temp_name k)) w) as [[[]|e] w1] eqn:Hmk.
  - intros [= <- <-]. apply mkdir_ok_inv in Hmk as (q & Hq & Hl & Hd & ->).
    by exists k, q.
  - apply mkdir_raise_inv in Hmk as ->. destruct e; try done. apply IH.
Qed.

Definition is_local (w : World) (p : string) : bool :=
  match OsPath.resolve (cwd w) p with
  | Some q => FS.isfile q (fs w)
  | None => false
  end.

Lemma isfile_run (p : string) (w : World) : isfile p w = (Ok (is_local w p), w).
Proof.
  unfold isfile, on_path, is_local. by destruct (OsPath.resolve (cwd w) p).
Qed.

(** *** Downloads *)

Lemma http_request_frame E url w :
  fs (http_request E url w).2 = fs w /\ cwd (http_request E url w).2 = cwd w.
Proof.
  unfold http_request, bind, tick, emit, modify. simpl.
  by destruct (http_get E (clock w) url).
Qed.

Lemma read_not_local (p : string) (w : World) :
  is_local w p = false -> is_ok (read_file p w).1 = false.
Proof.
  unfold is_local, read_file, on_path, FS.isfile, FS.read.
  destruct (OsPath.resolve (cwd w) p) as [q|]; [|done].
  by destruct (FS.lookup q (fs w)) as [[]|].
Qed.

Lemma copyfile_not_local (src dst : string) (w : World) :
  is_local w src = false -> is_ok (copyfile src dst w).1 = false.
Proof.
  intros Hl%read_not_local. unfold copyfile, bind.
  by destruct (read_file src w) as [[data|e] w1].
Qed.

Lemma is_local_mkdir (p src : string) (w w' : World) :
  mkdir p w = (Ok tt, w') -> is_local w src = false -> is_local w' src = false.
Proof.
  intros (q & _ & _ & _ & ->)%mkdir_ok_inv. unfold is_local. simpl.
  destruct (OsPath.resolve (cwd w) src) as [r|]; [|done].
  unfold FS.isfile. destruct r as [|x r]; [done|].
  rewrite lookup_app by done.
  destruct (FS.lookup (x :: r) (fs w)) as [[]|]; try done.
  simpl. intros _. by case_decide.
Qed.

(** A download that succeeds is an HTTP download: it ends with one write
    of the received bytes to the target.  The other branch copies from a
    local name, and the stager only downloads what is not a local file. *)
Lemma download_ok_inv (E : StagerEnv) (from_url to_path : string) (w w' : World) :
  is_local w from_url = false ->
  _download_file E from_url to_path w = (Ok tt, w') ->
  exists w2 content,
    fs w2 = fs w /\ cwd w2 = cwd w
    /\ write_file to_path content w2 = (Ok tt, w').
Proof.
  intros Hloc. unfold _download_file.
  destruct (startswith "http://" from_url || startswith "https://" from_url).
  - unfold try_except.
    destruct (bind (http_request (os_env E) from_url) _ w) as [[[]|e] w1] eqn:Hm.
    + intros [= <-]. apply bind_ok_inv in Hm as (r & w2 & Hreq & Hw).
      destruct (400 <=? r.1)%Z; [done|].
      exists w2, r.2. pose proof (http_request_frame (os_env E) from_url w) as [Hf Hc].
      rewrite Hreq in Hf, Hc. done.
    + unfold bind, log, emit, modify. simpl. done.
  - intros Hrun. exfalso.
    apply bind_ok_inv in Hrun as (d & w1 & Hd & Hrun).
    unfold isdir, on_path in Hd.
    assert (w1 = w) as -> by (destruct (OsPath.resolve (cwd w) _); by injection Hd).
    apply bind_ok_inv in Hrun as ([] & w2 & Hwhen & Hrun).
    assert (is_local w2 from_url = false) as Hloc2.
    { destruct (negb d); simpl in Hwhen; [|by injection Hwhen as <-].
      apply bind_ok_inv in Hwhen as ([] & w3 & Hlog & Hmk).
      injection Hlog as <-. eapply is_local_mkdir; [exact Hmk|]. exact Hloc. }
    apply copyfile_not_local with (dst := to_path) in Hloc2.
    by rewrite Hrun in Hloc2.
Qed.

(** A split that returns has found a file system for the path. *)
Lemma split_ok_inv {S} (has_fs : string -> bool) (p : string)
  (parts : string * string) (s s' : S) :
  of_result (FileSystems.split has_fs p) s = (Ok parts, s') ->
  has_fs p = true /\ parts = OsPath.split p /\ s' = s.
Proof.
  unfold of_result, FileSystems.split. destruct (has_fs p); [|done].
  by intros [= <- <-].
Qed.

(** *** Basenames *)

Lemma split_on_pieces_plain c (s : string) :
  Forall (fun x => has_char c x = false) (split_on c s).
Proof.
  induction s as [|a s IH]; simpl; [by repeat constructor|].
  destruct (Ascii.eqb a c) eqn:Ha; [by constructor|].
  destruct (split_on c s) as [|hd tl]; [by repeat constructor; simpl; rewrite Ha|].
  inversion IH as [|? ? Hhd Htl]; subst. constructor; [|done]. simpl. by rewrite Ha.
Qed.

Lemma basename_plain (p : string) : has_char "/" (OsPath.basename p) = false.
Proof.
  unfold OsPath.basename. pose proof (split_on_pieces_plain "/" p) as Hall.
  pose proof (split_on_nonempty "/" p) as Hne.
  destruct (exists_last Hne) as (l & x & Hl). rewrite Hl, last_last.
  rewrite Hl in Hall. by apply Forall_app in Hall as [_ [Hx _]%Forall_cons].
Qed.

Lemma endswith_nonempty (suf s : string) :
  suf <> "" -> endswith suf s = true -> s <> "".
Proof. intros Hsuf Hs ->. simpl in Hs. by destruct suf. Qed.

Lemma jar_basename_is_name (p : string) :
  endswith ".jar" (OsPath.basename p) = true -> is_name (OsPath.basename p).
Proof.
  intros Hj. split; [apply basename_plain|].
  by apply (endswith_nonempty ".jar").
Qed.

(** *** The download loop *)

(** The listing of the download directory grows by a name when a file of
    that name is written for the first time. *)
Definition add_name (names : list string) (n : string) : list string :=
  if bool_decide (n ∈ names) then names else names ++ [n].

Section Loop.
Context (E : StagerEnv) (w0 : World) (Dq : FS.path) (t d : string).
Hypothesis Hd : OsPath.resolve (cwd w0) d = Some (Dq ++ [t]).

(** What holds between two rounds of the loop: the current directory has
    not moved, the table is well formed, the download directory exists and
    lists [names], and nothing outside the temporary directory [Dq] has
    changed. *)
Definition loop_inv (names : list string) (w : World) : Prop :=
  cwd w = cwd w0
  /\ FS.wf (fs w) = true
  /\ FS.lookup (Dq ++ [t]) (fs w) = Some FS.Dir
  /\ FS.children (Dq ++ [t]) (fs w) = names
  /\ (forall q, FS.is_prefix Dq q = false -> FS.lookup q (fs w) = FS.lookup q (fs w0)).

(** The package does not lie in the temporary directory. *)
Definition outside_temp (p : string) : Prop :=
  forall q, OsPath.resolve (cwd w0) p = Some q -> FS.is_prefix Dq q = false.

Lemma is_local_inv names w p :
  loop_inv names w -> outside_temp p -> is_local w p = is_local w0 p.
Proof.
  intros (Hc & _ & _ & _ & Hframe) Hout. unfold is_local. rewrite Hc.
  destruct (OsPath.resolve (cwd w0) p) as [q|] eqn:Hq; [|done].
  unfold FS.isfile. by rewrite (Hframe q (Hout q Hq)).
Qed.

Lemma is_prefix_app (a b : FS.path) : FS.is_prefix a (a ++ b) = true.
Proof. apply is_prefix_spec. by exists b. Qed.

Lemma d_nonempty : d <> "".
Proof. intros ->. by unfold OsPath.resolve in Hd. Qed.

Lemma resolve_in_d cwd' (n : string) :
  cwd' = cwd w0 -> is_name n ->
  OsPath.resolve cwd' (OsPath.join d n) = Some ((Dq ++ [t]) ++ [n]).
Proof.
  intros -> Hn. rewrite resolve_join by done. unfold resolve_dir.
  pose proof d_nonempty as Hne. apply String.eqb_neq in Hne. by rewrite Hne, Hd.
Qed.

Lemma write_step names w w' (n content : string) :
  loop_inv names w -> is_name n ->
  write_file (OsPath.join d n) content w = (Ok tt, w') ->
  loop_inv (add_name names n) w'.
Proof.
  intros (Hc & Hwf & Hdir & Hch & Hframe) Hn. unfold write_file, update_path.
  rewrite (resolve_in_d (cwd w) n Hc Hn). unfold FS.write, FS.create.
  set (dq := Dq ++ [t]) in *.
  assert (dq ++ [n] <> dq) as Hne.
  { intros Heq. apply (f_equal length) in Heq. rewrite length_app in Heq.
    simpl in Heq. lia. }
  assert (forall q, FS.is_prefix Dq q = false -> q <> dq ++ [n]) as Hout.
  { intros q Hq ->. unfold dq in Hq. by rewrite <- app_assoc, is_prefix_app in Hq. }
  destruct (FS.lookup (dq ++ [n]) (fs w)) as [[c0|]|] eqn:Hl; [| done |].
  - intros [= <-]. unfold loop_inv. cbn [fs cwd set_fs]. fold dq.
    repeat split; [done | | | |].
    + by eapply wf_replace_file.
    + by rewrite lookup_replace_other.
    + rewrite children_replace, Hch. unfold add_name.
      rewrite bool_decide_true; [done|]. rewrite <- Hch.
      apply elem_of_children. destruct (dq ++ [n]) eqn:Hk; [by destruct dq|].
      rewrite <- Hk in *. unfold FS.lookup in Hl. rewrite Hk in Hl. rewrite Hk.
      by eexists.
    + intros q Hq. rewrite lookup_replace_other by (by apply Hout). by apply Hframe.
  - rewrite parent_snoc, Hdir. intros [= <-].
    unfold loop_inv. cbn [fs cwd set_fs]. fold dq.
    repeat split; [done | | | |].
    + apply wf_append; [done | by destruct dq |].
      rewrite parent_snoc. unfold FS.isdir. by rewrite Hdir.
    + by rewrite lookup_append_other.
    + rewrite children_append_child, Hch. unfold add_name.
      rewrite bool_decide_false; [done|]. rewrite <- Hch.
      rewrite elem_of_children. intros [nd Ha].
      destruct (dq ++ [n]) eqn:Hk; [by destruct dq|]. simpl in Hl. congruence.
    + intros q Hq. rewrite lookup_append_other by (by apply Hout). by apply Hframe.
Qed.


Lemma loop_inv_same_disk names w w2 :
  loop_inv names w -> fs w2 = fs w -> cwd w2 = cwd w -> loop_inv names w2.
Proof. intros Hinv Hf Hc. unfold loop_inv. by rewrite Hf, Hc. Qed.

(** One round of the first loop of [_stage_jar_packages]. *)
Lemma jar_step_inv names w (p : string) acc acc' w' :
  loop_inv names w -> outside_temp p ->
  jar_package_step E d p acc w = (Ok acc', w') ->
  endswith ".jar" (OsPath.basename p) = true
  /\ ((is_local w0 p = true /\ acc' = acc ++ [p] /\ loop_inv names w')
      \/ (is_local w0 p = false /\ acc' = acc
          /\ loop_inv (add_name names (OsPath.basename p)) w')).
Proof.
  intros Hinv Hout. unfold jar_package_step.
  destruct (endswith ".jar" (OsPath.basename p)) eqn:Hjar; [|done]. cbn [negb].
  intros Hrun. split; [done|].
  rewrite (bind_ok _ _ _ _ _ (isfile_run p w)) in Hrun.
  rewrite (is_local_inv names w p Hinv Hout) in Hrun.
  destruct (is_local w0 p) eqn:Hloc; cbn [negb] in Hrun.
  - left. by injection Hrun as <- <-.
  - right. destruct (_is_remote_path p); [|done].
    apply bind_ok_inv in Hrun as ([] & w1 & Hlog & Hrun).
    injection Hlog as <-.
    apply bind_ok_inv in Hrun as (parts & w1 & (_ & -> & ->)%split_ok_inv & Hrun).
    apply bind_ok_inv in Hrun as ([] & w2 & Hdl & Hrun).
    injection Hrun as <- <-. split; [done|]. split; [done|].
    apply download_ok_inv in Hdl as (w3 & content & Hf & Hc & Hwrite).
    + eapply write_step; [| |exact Hwrite].
      * eapply loop_inv_same_disk; [exact Hinv | exact Hf | exact Hc].
      * by apply jar_basename_is_name.
    + change (is_local w p = false).
      by rewrite (is_local_inv names w p Hinv Hout).
Qed.

Lemma jar_loop_inv pkgs names w acc acc' w' :
  loop_inv names w -> Forall outside_temp pkgs ->
  for_fold pkgs (jar_package_step E d) acc w = (Ok acc', w') ->
  acc' = acc ++ List.filter (is_local w0) pkgs
  /\ loop_inv
       (foldl add_name names
          (map OsPath.basename (List.filter (fun p => negb (is_local w0 p)) pkgs)))
       w'
  /\ Forall (fun p => endswith ".jar" (OsPath.basename p) = true) pkgs.
Proof.
  revert names w acc. induction pkgs as [|p pkgs IH]; intros names w acc Hinv Hout Hrun.
  - injection Hrun as <- <-. simpl. by rewrite app_nil_r.
  - apply Forall_cons in Hout as [Hp Hout]. simpl in Hrun.
    apply bind_ok_inv in Hrun as (acc1 & w1 & Hstep & Hrun).
    destruct (jar_step_inv names w p acc acc1 w1 Hinv Hp Hstep)
      as [Hjar [(Hloc & -> & Hinv1) | (Hloc & -> & Hinv1)]];
      destruct (IH _ _ _ Hinv1 Hout Hrun) as (-> & Hinv' & Hall);
      simpl; rewrite Hloc; simpl.
    + split; [by rewrite <- app_assoc|]. split; [done | by constructor].
    + split; [done|]. split; [done | by constructor].
Qed.

End Loop.

(** *** One invocation *)

(** The names one invocation returns: the basenames of the packages found
    on the local disk, in list order, then the basenames of the downloaded
    ones, each once, in the order of their first download. *)
Definition jar_names (w : World) (jar_packages : list string) : list string :=
  map OsPath.basename (List.filter (is_local w) jar_packages)
  ++ foldl add_name []
       (map OsPath.basename
          (List.filter (fun p => negb (is_local w p)) jar_packages)).

Lemma foldl_add_name_elem (l names : list string) (n : string) :
  n ∈ foldl add_name names l -> n ∈ names \/ n ∈ l.
Proof.
  revert names. induction l as [|x l IH]; intros names; simpl; [by left|].
  intros [Hin | Hin]%IH; [|right; by right].
  unfold add_name in Hin. case_bool_decide; [by left|].
  apply elem_of_app in Hin as [Hin | ->%list_elem_of_singleton]; [by left|].
  right; left.
Qed.

Lemma map_id_on {A} (f : A -> A) (l : list A) :
  (forall x, x ∈ l -> f x = x) -> f <$> l = l.
Proof.
  induction l as [|x l IH]; intros Hf; [done|]. rewrite fmap_cons.
  rewrite (Hf x) by left. f_equal. apply IH. intros y Hy. apply Hf. by right.
Qed.

Section Run.
Context {B : Type} `{Stager B} (E : StagerEnv).

Lemma stage_packages_names sl pkgs acc (s s' : State B) res :
  for_fold pkgs (stage_package_step sl) acc s = (Ok res, s') ->
  res = acc ++ map OsPath.basename pkgs
  /\ fs (world s') = fs (world s) /\ cwd (world s') = cwd (world s).
Proof.
  revert acc s. induction pkgs as [|pkg pkgs IH]; intros acc s Hrun; simpl in *.
  - injection Hrun as <- <-. by rewrite app_nil_r.
  - apply bind_ok_inv in Hrun as (acc' & s1 & Hstep & Hrun).
    apply IH in Hrun as (-> & Hf & Hc). unfold stage_package_step in Hstep.
    apply bind_ok_inv in Hstep as ([] & s2 & Hst & Hret). injection Hret as <- <-.
    unfold self_stage_artifact in Hst.
    apply bind_ok_inv in Hst as ([] & s3 & Hemit & Hst).
    rewrite liftW_run in Hemit. injection Hemit as <-.
    destruct (stage_artifact _ _ _ _) as [r b]. injection Hst as _ <-.
    simpl in *. by rewrite <- app_assoc.
Qed.

Lemma jar_run (Dq : FS.path) (jar_packages : list string)
  (staging_location temp_dir : string) (st st' : State B) (r : list string) :
  FS.wf (fs (world st)) = true ->
  resolve_dir (cwd (world st)) temp_dir = Some Dq ->
  Forall (outside_temp (world st) Dq) jar_packages ->
  _stage_jar_packages E jar_packages staging_location temp_dir st = (Ok r, st') ->
  r = jar_names (world st) jar_packages
  /\ Forall (fun p => endswith ".jar" (OsPath.basename p) = true) jar_packages
  /\ cwd (world st') = cwd (world st)
  /\ FS.wf (fs (world st')) = true
  /\ (forall q, FS.is_prefix Dq q = false ->
        FS.lookup q (fs (world st')) = FS.lookup q (fs (world st))).
Proof.
  intros Hwf HD Hout Hrun. unfold _stage_jar_packages in Hrun.
  apply bind_ok_inv in Hrun as (d & s1 & Hmk & Hrun).
  apply bind_ok_inv in Hrun as (L & s2 & Hloop & Hrun).
  apply bind_ok_inv in Hrun as (N & s3 & Hls & Hrun).
  apply bind_ok_inv in Hrun as (res & s4 & Hstage & Hret).
  injection Hret as <- <-.
  rewrite liftW_run in Hmk. injection Hmk as Hmk1 Hmk2.
  destruct (mkdtemp temp_dir (world st)) as [rd w1] eqn:Hmkd. simpl in *. subst rd.
  apply mkdtemp_from_inv in Hmkd as (j & q & -> & Hq & Hfresh & Hpar & ->).
  pose proof (temp_name_is_name j) as Hname.
  rewrite resolve_join, HD in Hq by done. injection Hq as <-.
  set (t := temp_name j) in *. set (w := world st) in *.
  assert (loop_inv w Dq t [] (world s1)) as Hinv.
  { subst s1. unfold loop_inv. cbn [world fs cwd set_fs].
    assert (Dq ++ [t] <> []) as Hne by (by destruct Dq).
    repeat split.
    - by apply wf_append.
    - by apply lookup_append_new.
    - rewrite children_append_other; [by apply children_fresh | done |].
      by apply parent_self.
    - intros q Hpre. apply lookup_append_other. intros ->.
      by rewrite is_prefix_app in Hpre. }
  assert (OsPath.resolve (cwd w) (OsPath.join temp_dir t) = Some (Dq ++ [t])) as Hd.
  { by rewrite resolve_join, HD. }
  rewrite liftW_run in Hloop. injection Hloop as Hl1 Hl2.
  destruct (for_fold jar_packages _ [] (world s1)) as [rl w2] eqn:Hfold.
  simpl in *. subst rl.
  destruct (jar_loop_inv E w Dq t _ Hd jar_packages [] (world s1) [] L w2 Hinv Hout Hfold)
    as (-> & Hinv2 & Hjars).
  rewrite liftW_run in Hls. injection Hls as Hls1 Hls2.
  destruct Hinv2 as (Hc2 & Hwf2 & Hdir2 & Hch2 & Hframe2).
  assert (world s2 = w2) as Hw2 by (by subst s2).
  unfold listdir, on_path in Hls1, Hls2. rewrite Hw2, Hc2, Hd in Hls1, Hls2.
  unfold FS.listdir in Hls1. rewrite Hdir2, Hch2 in Hls1. simpl in Hls1, Hls2.
  injection Hls1 as <-.
  apply stage_packages_names in Hstage as (-> & Hf4 & Hc4).
  assert (world s3 = w2) as Hw3 by (by subst s3).
  rewrite Hw3 in Hf4, Hc4. rewrite Hf4, Hc4.
  split; [|by repeat split].
  unfold jar_names. rewrite app_nil_l, fmap_app. f_equal.
  rewrite <- list_fmap_compose. apply map_id_on.
  intros n [Hn | Hn]%foldl_add_name_elem; [by apply elem_of_nil in Hn|].
  apply list_elem_of_fmap in Hn as (p & -> & _).
  simpl. apply basename_join, basename_plain.
Qed.

Lemma jar_names_frame (Dq : FS.path) (w w1 : World) (jar_packages : list string) :
  cwd w1 = cwd w ->
  (forall q, FS.is_prefix Dq q = false -> FS.lookup q (fs w1) = FS.lookup q (fs w)) ->
  Forall (outside_temp w Dq) jar_packages ->
  jar_names w1 jar_packages = jar_names w jar_packages.
Proof.
  intros Hc Hframe Hout.
  assert (forall p, In p jar_packages -> is_local w1 p = is_local w p) as Hloc.
  { intros p Hp. rewrite Forall_forall in Hout.
    specialize (Hout p (proj2 (list_elem_of_In _ _) Hp)).
    unfold is_local. rewrite Hc.
    destruct (OsPath.resolve (cwd w) p) as [q|] eqn:Hq; [|done].
    unfold FS.isfile. by rewrite (Hframe q (Hout q Hq)). }
  unfold jar_names. f_equal; f_equal; [|f_equal];
    apply List.filter_ext_in; intros p Hp; by rewrite (Hloc p Hp).
Qed.

Lemma jar_names_end_in_jar (w : World) (jar_packages : list string) :
  Forall (fun p => endswith ".jar" (OsPath.basename p) = true) jar_packages ->
  Forall (fun name => endswith ".jar" name = true) (jar_names w jar_packages).
Proof.
  intros Hall. rewrite Forall_forall in Hall. apply Forall_forall. intros n Hn.
  assert (exists p, p ∈ jar_packages /\ n = OsPath.basename p) as (p & Hp & ->);
    [|by apply Hall].
  unfold jar_names in Hn. apply elem_of_app in Hn as [Hn | Hn].
  - apply list_elem_of_fmap in Hn as (p & -> & Hp%list_elem_of_In%List.filter_In).
    exists p. split; [by apply list_elem_of_In, Hp | done].
  - apply foldl_add_name_elem in Hn as [Hn | Hn]; [by apply elem_of_nil in Hn|].
    apply list_elem_of_fmap in Hn as (p & -> & Hp%list_elem_of_In%List.filter_In).
    exists p. split; [by apply list_elem_of_In, Hp | done].
Qed.

(** C8.  Two invocations of [_stage_jar_packages] on the same list of jar
    packages, the second one run after the first, return the same list of
    names, and every name ends in [.jar].  The file system is well formed
    and no package lies in the temporary directory the invocations
    download to. *)
Theorem jar_packages_staged_twice (Dq : FS.path) (jar_packages : list string)
  (staging_location temp_dir : string) (st0 st1 st2 : State B)
  (r1 r2 : list string) :
  FS.wf (fs (world st0)) = true ->
  resolve_dir (cwd (world st0)) temp_dir = Some Dq ->
  Forall (outside_temp (world st0) Dq) jar_packages ->
  _stage_jar_packages E jar_packages staging_location temp_dir st0 = (Ok r1, st1) ->
  _stage_jar_packages E jar_packages staging_location temp_dir st1 = (Ok r2, st2) ->
  r1 = r2 /\ Forall (fun name => endswith ".jar" name = true) r1.
Proof.
  intros Hwf HD Hout Hrun1 Hrun2.
  destruct (jar_run Dq jar_packages staging_location temp_dir st0 st1 r1
              Hwf HD Hout Hrun1) as (-> & Hjars & Hc1 & Hwf1 & Hframe1).
  assert (Forall (outside_temp (world st1) Dq) jar_packages) as Hout1.
  { eapply Forall_impl; [exact Hout|]. intros p Hp q. rewrite Hc1. apply Hp. }
  rewrite <- Hc1 in HD.
  destruct (jar_run Dq jar_packages staging_location temp_dir st1 st2 r2
              Hwf1 HD Hout1 Hrun2) as (-> & _).
  split; [|by apply jar_names_end_in_jar].
  symmetry. by apply (jar_names_frame Dq).
Qed.

End Run.

End StagerJars.

(** ** The license script: the loop over dependencies and the final check *)
Module LicenseFacts.
Import Py PyStr Os StrFacts PathFacts FSFacts MonadFacts OsFacts PullLicenses.

#[local] Arguments String.prefix : simpl never.

(** Text search: a text contains each of its parts. *)
Lemma prefix_app_r (sub t u : string) :
  String.prefix sub t = true -> String.prefix sub (t +:+ u) = true.
Proof.
  revert sub. induction t as [|a t IH]; intros sub.
  - destruct sub; [by destruct u | done].
  - destruct sub as [|b sub]; [done|]. rewrite sapp_cons, !prefix_cons.
    destruct (Ascii.ascii_dec b a); [apply IH | done].
Qed.

Lemma prefix_refl (s : string) : String.prefix s s = true.
Proof.
  induction s as [|a s IH]; [done|]. rewrite prefix_cons.
  by destruct (Ascii.ascii_dec a a).
Qed.

Lemma contains_cons sub a (s : string) :
  contains sub (String a s)
  = if String.prefix sub (String a s) then true else contains sub s.
Proof. reflexivity. Qed.

Lemma contains_self (s : string) : contains s s = true.
Proof.
  destruct s as [|a s]; [done|]. by rewrite contains_cons, prefix_refl.
Qed.

Lemma contains_app_r (sub t u : string) :
  contains sub t = true -> contains sub (t +:+ u) = true.
Proof.
  induction t as [|a t IH].
  - destruct sub; [by destruct u | done].
  - rewrite sapp_cons, !contains_cons.
    destruct (String.prefix sub (String a t)) eqn:Hp.
    + intros _. rewrite <- sapp_cons. by rewrite prefix_app_r.
    + intros Ht. rewrite IH by done.
      by destruct (String.prefix sub (String a (t +:+ u))).
Qed.

Lemma contains_later (sub a s : string) :
  contains sub s = true -> contains sub (a +:+ s) = true.
Proof.
  intros Hs. induction a as [|x a IH]; [done|].
  rewrite sapp_cons, contains_cons, IH.
  by destruct (String.prefix sub (String x (a +:+ s))).
Qed.

Lemma join_with_cons sep x y (l : list string) :
  join_with sep (x :: y :: l) = x +:+ sep +:+ join_with sep (y :: l).
Proof. reflexivity. Qed.

Lemma contains_join_with sep (l : list string) (x : string) :
  x ∈ l -> contains x (join_with sep l) = true.
Proof.
  induction l as [|y l IH]; [by intros ?%elem_of_nil|].
  intros [->|Hx]%elem_of_cons.
  - destruct l as [|z l]; [apply contains_self|].
    rewrite join_with_cons. apply contains_app_r, contains_self.
  - destruct l as [|z l]; [by apply elem_of_nil in Hx|].
    rewrite join_with_cons. by apply contains_later, contains_later, IH.
Qed.

(** *** The names [pull_from_url] works with *)

(** Where [license_dir/dep] lies. *)
Definition out_dir (dep : string) : FS.path :=
  ["opt"; "apache"; "beam"; "third_party_licenses"; dep].

Lemma length_sapp (a b : string) :
  String.length (a +:+ b) = String.length a + String.length b.
Proof. induction a as [|x a IH]; [done|]. rewrite sapp_cons. simpl. by rewrite IH. Qed.

Lemma temp_is_name (dep : string) :
  is_name dep -> is_name ("temp_license_" +:+ dep).
Proof. intros [Hc _]. split; [exact Hc | discriminate]. Qed.

Lemma resolve_temp cwd (dep : string) :
  is_name dep ->
  OsPath.resolve cwd ("temp_license_" +:+ dep) = Some (cwd ++ ["temp_license_" +:+ dep]).
Proof.
  intros [Hc Hne]%temp_is_name.
  change (OsPath.resolve cwd ("temp_license_" +:+ dep))
    with (Some (cwd ++ OsPath.components ("temp_license_" +:+ dep))).
  by rewrite components_plain.
Qed.

Lemma resolve_temp_file cwd (dep name : string) :
  is_name dep -> is_name name ->
  OsPath.resolve cwd (("temp_license_" +:+ dep) +:+ String "/" name)
  = Some ((cwd ++ ["temp_license_" +:+ dep]) ++ [name]).
Proof.
  intros [Hc Hne]%temp_is_name [Hnc Hnne].
  change (OsPath.resolve cwd (("temp_license_" +:+ dep) +:+ String "/" name))
    with (Some (cwd ++ OsPath.components
                         (("temp_license_" +:+ dep) +:+ String "/" name))).
  by rewrite components_app_slash, !components_plain, app_assoc.
Qed.

Lemma resolve_out_dir cwd (dep : string) :
  is_name dep ->
  OsPath.resolve cwd (license_dir +:+ "/" +:+ dep) = Some (out_dir dep).
Proof.
  intros [Hc Hne].
  change (OsPath.resolve cwd (license_dir +:+ "/" +:+ dep))
    with (Some (OsPath.components (license_dir +:+ String "/" dep))).
  by rewrite components_app_slash, (components_plain dep).
Qed.

Lemma resolve_out_file cwd (dep name : string) :
  is_name dep -> is_name name ->
  OsPath.resolve cwd (license_dir +:+ "/" +:+ dep +:+ String "/" name)
  = Some (out_dir dep ++ [name]).
Proof.
  intros [Hc Hne] [Hnc Hnne].
  change (OsPath.resolve cwd (license_dir +:+ "/" +:+ dep +:+ String "/" name))
    with (Some (OsPath.components
                  (license_dir +:+ String "/" (dep +:+ String "/" name)))).
  by rewrite !components_app_slash, (components_plain dep), (components_plain name).
Qed.

(** The scratch directory of a dependency is not above its output
    directory, wherever the script runs. *)
Lemma scratch_outside cwd (dep : string) :
  FS.is_prefix (cwd ++ ["temp_license_" +:+ dep]) (out_dir dep ++ ["NOTICE"]) = false.
Proof.
  destruct (FS.is_prefix _ _) eqn:Hp; [|done]. exfalso.
  apply is_prefix_spec in Hp as (r & Hr).
  assert ("temp_license_" +:+ dep ∈ out_dir dep ++ ["NOTICE"]) as Hin.
  { rewrite Hr. set_solver. }
  unfold out_dir in Hin. cbn [app] in Hin.
  repeat (apply elem_of_cons in Hin as [Heq|Hin]; [try discriminate Heq|]).
  - apply (f_equal String.length) in Heq. rewrite length_sapp in Heq.
    simpl in Heq. lia.
  - by apply elem_of_nil in Hin.
Qed.

Section WithEnv.
Context (E : ScriptEnv).

(** Every name on the list appears, quoted, in the message. *)
Lemma message_lists_names (no_licenses : list string) (name : string) :
  name ∈ no_licenses ->
  contains (repr_str name) (missing_licenses_message E no_licenses) = true.
Proof.
  intros Hin. unfold missing_licenses_message, repr_list. cbv zeta.
  do 3 apply contains_later. apply contains_app_r.
  apply contains_later, contains_app_r, contains_join_with.
  apply list_elem_of_fmap. eauto.
Qed.

(** What [__main__] does before the loop: the output directory, the
    override file and the list of dependencies. *)
Definition startup
  : M World (gmap string (gmap string (gmap string string)) * list Dep) :=
  (do* makedirs license_dir in
   let* text := read_file "/tmp/dep_urls_py.yaml" in
   let* dep_config := of_result (yaml_full_load E text) in
   let* dependencies := run_pip_licenses E in
   ret (dep_config, dependencies))%py.

Lemma main_after_startup w dep_config dependencies w1 :
  startup w = (Ok (dep_config, dependencies), w1) ->
  main E w
  = bind (for_fold dependencies (license_step E dep_config) [])
      (fun no_licenses =>
         match no_licenses with
         | [] => ret tt
         | _ :: _ => raise (RuntimeError (missing_licenses_message E no_licenses))
         end) w1.
Proof.
  unfold startup, main. intros Hs.
  apply bind_ok_inv in Hs as ([] & wa & Ha & Hs).
  apply bind_ok_inv in Hs as (text & wb & Hb & Hs).
  apply bind_ok_inv in Hs as (cfg & wc & Hc & Hs).
  apply bind_ok_inv in Hs as (deps & wd & Hd & Hs).
  injection Hs as -> -> ->.
  unfold bind at 1. rewrite Ha. unfold bind at 1. rewrite Hb.
  unfold bind at 1. rewrite Hc. unfold bind at 1. by rewrite Hd.
Qed.

(** The dependencies are processed in turn; [processed w deps outcome w']
    records, for each, whether it obtained a license, the pip-licenses copy
    or the override having returned [True]. *)
Inductive processed (dep_config : gmap string (gmap string (gmap string string)))
  : World -> list Dep -> list (Dep * bool) -> World -> Prop :=
| processed_nil w : processed dep_config w [] [] w
| processed_cons w dep deps obtained w1 outcome w2 :
    obtain_license E dep_config dep w = (Ok obtained, w1) ->
    processed dep_config w1 deps outcome w2 ->
    processed dep_config w (dep :: deps) ((dep, obtained) :: outcome) w2.

(** The same record, computed. *)
Fixpoint run_outcomes (dep_config : gmap string (gmap string (gmap string string)))
  (deps : list Dep) (w : World) : option (list (Dep * bool) * World) :=
  match deps with
  | [] => Some ([], w)
  | dep :: deps' =>
      match obtain_license E dep_config dep w with
      | (Ok obtained, w1) =>
          match run_outcomes dep_config deps' w1 with
          | Some (outcome, w2) => Some ((dep, obtained) :: outcome, w2)
          | None => None
          end
      | (Raise _, _) => None
      end
  end.

Lemma run_outcomes_processed dep_config deps w outcome w' :
  run_outcomes dep_config deps w = Some (outcome, w') ->
  processed dep_config w deps outcome w'.
Proof.
  revert w outcome. induction deps as [|dep deps IH]; intros w outcome; simpl.
  - intros [= <- <-]. constructor.
  - destruct (obtain_license E dep_config dep w) as [[b|e] w1] eqn:Hob; [|done].
    destruct (run_outcomes dep_config deps w1) as [[o w2]|] eqn:Hrest; [|done].
    intros [= <- <-]. econstructor; [exact Hob | by apply IH].
Qed.

(** The lowercased names of the dependencies left without a license. *)
Definition offending (outcome : list (Dep * bool)) : list string :=
  map (fun x => lower (Name x.1)) (List.filter (fun x => negb x.2) outcome).

Lemma loop_collects dep_config w deps outcome w' acc :
  processed dep_config w deps outcome w' ->
  for_fold deps (license_step E dep_config) acc w = (Ok (acc ++ offending outcome), w').
Proof.
  intros Hp. revert acc. induction Hp as [w|w dep deps b w1 outcome w2 Hob _ IH];
    intros acc; simpl.
  - by rewrite app_nil_r.
  - unfold bind at 1, license_step at 1, bind at 1. rewrite Hob.
    destruct b; simpl; [apply IH|].
    rewrite IH. unfold offending. simpl. by rewrite <- app_assoc.
Qed.

Lemma offending_nil outcome :
  offending outcome = [] <-> Forall (fun x => x.2 = true) outcome.
Proof.
  unfold offending. induction outcome as [|[dep b] outcome IH]; simpl.
  - split; [constructor | done].
  - destruct b; simpl.
    + rewrite IH. split; [by constructor | by inversion 1].
    + split; [done | by inversion 1].
Qed.

(** C7.  Once every dependency has been processed, the run ends in one of
    two ways.  If every dependency obtained a license, it completes without
    error.  If at least one did not, it raises a [RuntimeError] whose
    message is built from the list of the lowercased names of all such
    dependencies, each of which appears in it. *)
Theorem main_reports_missing_licenses
  (w w1 w2 : World) (dep_config : gmap string (gmap string (gmap string string)))
  (dependencies : list Dep) (outcome : list (Dep * bool)) :
  startup w = (Ok (dep_config, dependencies), w1) ->
  processed dep_config w1 dependencies outcome w2 ->
  (Forall (fun x => x.2 = true) outcome -> main E w = (Ok tt, w2))
  /\ (Exists (fun x => x.2 = false) outcome ->
      main E w = (Raise (RuntimeError (missing_licenses_message E (offending outcome))), w2)
      /\ (forall dep, (dep, false) ∈ outcome -> lower (Name dep) ∈ offending outcome)
      /\ (forall name, name ∈ offending outcome ->
            contains (repr_str name) (missing_licenses_message E (offending outcome))
            = true)).
Proof.
  intros Hstart Hproc.
  rewrite (main_after_startup w dep_config dependencies w1 Hstart).
  unfold bind. rewrite (loop_collects dep_config w1 dependencies outcome w2 [] Hproc).
  rewrite app_nil_l. split.
  - intros Hall%offending_nil. by rewrite Hall.
  - intros Hex.
    assert (forall dep, (dep, false) ∈ outcome -> lower (Name dep) ∈ offending outcome)
      as Hmem.
    { intros dep Hin. unfold offending.
      apply (list_elem_of_fmap_2 (fun x : Dep * bool => lower (Name x.1)) _ (dep, false)).
      apply list_elem_of_In, List.filter_In. split; [by apply list_elem_of_In | done]. }
    split; [|split; [exact Hmem | apply message_lists_names]].
    apply Exists_exists in Hex as ([dep b] & Hin & Hb). simpl in Hb. subst b.
    apply Hmem in Hin. destruct (offending outcome); [by apply elem_of_nil in Hin | done].
Qed.

(** A call that returns is not repeated by the decorator. *)
Lemma retry_returns {S A} n (fn : M S A) s a s' :
  fn s = (Ok a, s') -> retry n fn s = (Ok a, s').
Proof.
  intros Hfn. unfold retry. destruct (pred n); simpl; unfold try_except;
    by rewrite Hfn.
Qed.

Lemma listdir_fresh_dir nm (fs : FS.t) (q : FS.path) :
  FS.wf fs = true -> FS.lookup q fs = None ->
  FS.listdir nm q (fs ++ [(q, FS.Dir)]) = Ok [].
Proof.
  intros Hwf Hq. assert (q <> []) as Hne by (by destruct q).
  unfold FS.listdir.
  assert (FS.lookup q (fs ++ [(q, FS.Dir)]) = Some FS.Dir) as ->.
  { destruct q; [done|]. unfold FS.lookup in *. rewrite assoc_app, Hq. simpl.
    by rewrite decide_True. }
  f_equal. unfold FS.children. rewrite omap_app.
  fold (FS.children q fs). rewrite (children_fresh fs q Hwf Hq).
  rewrite app_nil_l. apply omap_none. intros e ->%list_elem_of_singleton.
  unfold FS.child_name. cbn [fst]. destruct q as [|x q]; [done|].
  rewrite decide_False; [done|]. by apply parent_self.
Qed.

(** The run of [pull_from_url] on an override that says [skip] and names no
    notice: the scratch directory is created and removed, a line is
    printed, and the call returns [True]. *)
Lemma pull_from_url_skip_run (dep : string)
  (configs : gmap string (gmap string string)) (config : gmap string string)
  (w : World) :
  configs !! dep = Some config ->
  config !! "license" = Some "skip" ->
  config !! "notice" = None ->
  FS.wf (fs w) = true ->
  is_ok (mkdir ("temp_license_" +:+ dep) w).1 = true ->
  pull_from_url E dep configs w
  = (Ok true,
     mkWorld (fs w) (cwd w) (clock w)
       (events w ++ [EvPrint ("Skip pulling license for  " +:+ dep)])).
Proof.
  intros Hcfg Hlic Hnot Hwf Hok.
  destruct (mkdir ("temp_license_" +:+ dep) w) as [[[]|e] wm] eqn:Hmk; [|done].
  destruct (mkdir_ok_inv _ _ _ Hmk) as (q & Hres & Hq & _ & ->).
  apply retry_returns. unfold pull_from_url_body. rewrite Hcfg.
  rewrite (bind_ok _ _ _ _ _ Hmk).
  set (w1 := set_fs (fs w ++ [(q, FS.Dir)]) w).
  set (w2 := mkWorld (fs w1) (cwd w1) (clock w1)
               (events w1 ++ [EvPrint ("Skip pulling license for  " +:+ dep)])).
  assert (pull_from_url_try E dep config (license_dir +:+ "/" +:+ dep)
            ("temp_license_" +:+ dep) w1 = (Ok true, w2)) as Htry.
  { unfold pull_from_url_try. rewrite Hlic, Hnot.
    rewrite (bind_ok _ _ w1 "skip" w1) by done.
    change (String.eqb "skip" "skip") with true. cbv iota.
    unfold print. rewrite (bind_ok _ _ _ _ _ (emit_run _ w1)). fold w2.
    rewrite (bind_ok _ _ w2 tt w2) by done.
    assert (listdir ("temp_license_" +:+ dep) w2 = (Ok [], w2)) as Hls.
    { unfold listdir. rewrite (on_path_run _ _ _ w2 q) by done.
      by rewrite (listdir_fresh_dir _ _ _ Hwf Hq). }
    rewrite (bind_ok _ _ _ _ _ Hls).
    by rewrite (bind_ok _ _ w2 tt w2). }
  unfold finally_return_result, try_except. rewrite Htry.
  unfold rmtree.
  rewrite (update_path_ok _ _ w2 q (fs w)); [done | done |].
  apply (rmtree_fresh_dir _ _ _ Hwf Hq).
Qed.

(** The same with a notice that can be fetched and an output directory
    that has no entry for the dependency yet: the notice is downloaded to
    the scratch directory, which is copied to [license_dir/dep] and then
    removed. *)
Lemma pull_from_url_skip_notice_run (dep : string)
  (configs : gmap string (gmap string string)) (config : gmap string string)
  (url : string) (status : Z) (body : string) (w : World) :
  configs !! dep = Some config ->
  config !! "license" = Some "skip" ->
  config !! "notice" = Some url ->
  is_name dep ->
  FS.wf (fs w) = true ->
  is_ok (mkdir ("temp_license_" +:+ dep) w).1 = true ->
  http_get (os_env E) (clock w) url = Some (status, body) ->
  (status < 400)%Z ->
  (isdir license_dir w).1 = Ok true ->
  (exists_ (license_dir +:+ "/" +:+ dep) w).1 = Ok false ->
  pull_from_url E dep configs w
  = (Ok true,
     mkWorld (copied (out_dir dep) "NOTICE" body (fs w)) (cwd w) (S (clock w))
       (events w ++ [EvPrint ("Skip pulling license for  " +:+ dep); EvHttp url])).
Proof.
  intros Hcfg Hlic Hnot Hname Hwf Hok Hget Hstatus Hdir Hnew.
  destruct (mkdir ("temp_license_" +:+ dep) w) as [[[]|e] wm] eqn:Hmk; [|done].
  destruct (mkdir_ok_inv _ _ _ Hmk) as (q & Hres & Hq & Hqp & ->).
  rewrite (resolve_temp (cwd w) dep Hname) in Hres. injection Hres as <-.
  set (q := cwd w ++ ["temp_license_" +:+ dep]) in *.
  set (dst := out_dir dep).
  assert (FS.lookup dst (fs w) = None) as Hdst.
  { revert Hnew. unfold exists_. rewrite (on_path_run _ _ _ w dst).
    - cbn [fst]. unfold FS.exists_. by destruct (FS.lookup dst (fs w)).
    - by apply resolve_out_dir. }
  assert (FS.isdir (FS.parent dst) (fs w) = true) as Hdp.
  { revert Hdir. unfold isdir. rewrite (on_path_run _ _ _ w (FS.parent dst)) by done.
    cbn [fst]. intros [= Hd]. exact Hd. }
  pose proof (scratch_outside (cwd w) dep) as Hout. fold q dst in Hout.
  apply retry_returns. unfold pull_from_url_body. rewrite Hcfg.
  rewrite (bind_ok _ _ _ _ _ Hmk).
  set (printed := events w ++ [EvPrint ("Skip pulling license for  " +:+ dep)]).
  set (w1 := set_fs (fs w ++ [(q, FS.Dir)]) w).
  set (w2 := mkWorld (fs w ++ [(q, FS.Dir)]) (cwd w) (clock w) printed).
  set (w3 := mkWorld (scratch (fs w) q "NOTICE" body) (cwd w) (S (clock w))
               (printed ++ [EvHttp url])).
  set (w4 := set_fs (copied dst "NOTICE" body (scratch (fs w) q "NOTICE" body)) w3).
  assert (wget_download E url (("temp_license_" +:+ dep) +:+ "/NOTICE") w2
          = (Ok tt, w3)) as Hwget.
  { unfold wget_download, http_request. do 2 unfold bind at 1. unfold tick at 1.
    unfold bind at 1. rewrite emit_run. cbn [fst snd clock w2]. rewrite Hget.
    unfold ret at 1. cbn [fst].
    apply Z.leb_gt in Hstatus. rewrite Hstatus. unfold write_file.
    erewrite update_path_ok;
      [done
      | apply (resolve_temp_file _ dep "NOTICE" Hname); by split
      | apply (scratch_write (fs w) q dst "NOTICE" body Hwf Hq Hqp Hdst Hdp Hout)]. }
  assert (listdir ("temp_license_" +:+ dep) w3 = (Ok ["NOTICE"], w3)) as Hls.
  { unfold listdir. rewrite (on_path_run _ _ _ w3 q) by (by apply resolve_temp).
    unfold FS.listdir. cbn [fs w3].
    rewrite (scratch_lookup (fs w) q dst "NOTICE" body Hq Hqp Hdst Hdp Hout).
    by rewrite (scratch_children (fs w) q dst "NOTICE" body Hwf Hq Hqp Hdst Hdp Hout). }
  assert (copytree ("temp_license_" +:+ dep) (license_dir +:+ "/" +:+ dep) w3
          = (Ok tt, w4)) as Hcp.
  { unfold copytree. cbn [cwd fs w3].
    rewrite (resolve_temp (cwd w) dep Hname), (resolve_out_dir (cwd w) dep Hname).
    fold q dst.
    by rewrite (scratch_copytree (fs w) q dst "NOTICE" body Hwf Hq Hqp Hdst Hdp Hout). }
  assert (pull_from_url_try E dep config (license_dir +:+ "/" +:+ dep)
            ("temp_license_" +:+ dep) w1 = (Ok true, w4)) as Htry.
  { unfold pull_from_url_try. rewrite Hlic, Hnot.
    rewrite (bind_ok _ _ w1 "skip" w1) by done.
    change (String.eqb "skip" "skip") with true. cbv iota.
    unfold print. rewrite (bind_ok _ _ _ _ _ (emit_run _ w1)).
    change (mkWorld (fs w1) (cwd w1) (clock w1)
              (events w1 ++ [EvPrint ("Skip pulling license for  " +:+ dep)]))
      with w2.
    rewrite (bind_ok _ _ _ _ _ Hwget), (bind_ok _ _ _ _ _ Hls).
    by rewrite (bind_ok _ _ _ _ _ Hcp). }
  unfold finally_return_result, try_except. rewrite Htry.
  unfold rmtree.
  rewrite (update_path_ok _ _ w4 q (copied dst "NOTICE" body (fs w))).
  - unfold w4, w3, set_fs, printed. cbn [fs cwd clock events].
    by rewrite <- app_assoc.
  - by apply resolve_temp.
  - apply (scratch_rmtree (fs w) q dst "NOTICE" body Hwf Hq Hqp Hdst Hdp Hout).
Qed.

(** What a [notice] entry needs in order to be fetched and put in place: a
    dependency with a plain name, a server that answers the request, and an
    output directory (created by [__main__] before the loop) that has no
    entry for the dependency yet. *)
Definition notice_ready (config : gmap string string) (dep : string) (w : World)
  : Prop :=
  match config !! "notice" with
  | None => True
  | Some url =>
      is_name dep
      /\ (exists status body,
            http_get (os_env E) (clock w) url = Some (status, body)
            /\ (status < 400)%Z)
      /\ (isdir license_dir w).1 = Ok true
      /\ (exists_ (license_dir +:+ "/" +:+ dep) w).1 = Ok false
  end.

(** C10.  A dependency whose override entry has [license] set to [skip]
    counts as handled: [pull_from_url] returns [True], so the loop does not
    add the dependency to the list of missing licenses.  Yet no [LICENSE]
    file is written for it: the only file the call can create is the
    [NOTICE] of an entry that names one, and without such an entry the file
    system is left exactly as it was. *)
Theorem skip_counts_as_handled (dep : string)
  (configs : gmap string (gmap string string)) (config : gmap string string)
  (w : World) :
  configs !! dep = Some config ->
  config !! "license" = Some "skip" ->
  FS.wf (fs w) = true ->
  is_ok (mkdir ("temp_license_" +:+ dep) w).1 = true ->
  notice_ready config dep w ->
  exists w',
    pull_from_url E dep configs w = (Ok true, w')
    /\ (forall p, p <> out_dir dep ++ ["NOTICE"] ->
          FS.isfile p (fs w') = FS.isfile p (fs w))
    /\ (config !! "notice" = None -> fs w' = fs w)
    /\ (isfile (license_dir +:+ "/" +:+ dep +:+ "/LICENSE") w').1
       = (isfile (license_dir +:+ "/" +:+ dep +:+ "/LICENSE") w).1
    /\ (forall dep_config d no_licenses w0,
          dep_config !! "pip_dependencies" = Some configs ->
          lower (Name d) = dep ->
          copy_license_files d w0 = (Ok false, w) ->
          license_step E dep_config d no_licenses w0 = (Ok no_licenses, w')).
Proof.
  intros Hcfg Hlic Hwf Hmk Hready.
  assert (forall w', pull_from_url E dep configs w = (Ok true, w') ->
            forall dep_config d no_licenses w0,
              dep_config !! "pip_dependencies" = Some configs ->
              lower (Name d) = dep ->
              copy_license_files d w0 = (Ok false, w) ->
              license_step E dep_config d no_licenses w0 = (Ok no_licenses, w'))
    as Hstep.
  { intros w' Hrun dep_config d no_licenses w0 Hdc Hname Hcopy.
    unfold license_step, obtain_license, bind. rewrite Hcopy, Hdc. simpl.
    by rewrite Hname, Hrun. }
  unfold notice_ready in Hready.
  destruct (config !! "notice") as [url|] eqn:Hnot.
  - destruct Hready as (Hname & (status & body & Hget & Hstatus) & Hdir & Hnew).
    pose proof (pull_from_url_skip_notice_run dep configs config url status body w
                  Hcfg Hlic Hnot Hname Hwf Hmk Hget Hstatus Hdir Hnew) as Hrun.
    assert (FS.lookup (out_dir dep) (fs w) = None) as Hdst.
    { revert Hnew. unfold exists_.
      rewrite (on_path_run _ _ _ w (out_dir dep)) by (by apply resolve_out_dir).
      cbn [fst]. unfold FS.exists_. by destruct (FS.lookup (out_dir dep) (fs w)). }
    eexists. split; [exact Hrun|]. cbn [fs].
    split; [intros p Hp; by apply copied_isfile|]. split; [done|].
    split; [|by apply Hstep].
    unfold isfile.
    rewrite !(on_path_run _ _ _ _ (out_dir dep ++ ["LICENSE"]))
      by (by apply (resolve_out_file _ dep "LICENSE")).
    cbn [fst fs]. f_equal. apply copied_isfile; [done|].
    by intros [_ [=]]%app_inj_tail.
  - pose proof (pull_from_url_skip_run dep configs config w Hcfg Hlic Hnot Hwf Hmk)
      as Hrun.
    eexists. split; [exact Hrun|]. split; [done|]. split; [done|].
    split; [done | by apply Hstep].
Qed.

(** The handler of [pull_from_url] never reaches [result = False]: building
    its message raises. *)
Lemma handler_raises (dep : string) (e : exn) (w : World) :
  pull_from_url_except dep e w
  = (Raise (AttributeError "exception object has no attribute 'decode'"), w).
Proof. reflexivity. Qed.

(** Hence an exception in the [try] body of [pull_from_url] leaves the
    function through the [finally] block with [result] unbound (or with
    the error of the cleanup), never with a boolean. *)
Lemma pull_from_url_body_raises (dep : string)
  (configs : gmap string (gmap string string)) (config : gmap string string)
  (w w1 : World) :
  configs !! dep = Some config ->
  mkdir ("temp_license_" +:+ dep) w = (Ok tt, w1) ->
  is_ok (pull_from_url_try E dep config (license_dir +:+ "/" +:+ dep)
           ("temp_license_" +:+ dep) w1).1 = false ->
  is_ok (pull_from_url_body E dep configs w).1 = false.
Proof.
  intros Hcfg Hmk Htry. unfold pull_from_url_body. rewrite Hcfg.
  unfold bind. rewrite Hmk. unfold finally_return_result, try_except.
  destruct (pull_from_url_try E dep config _ _ w1) as [[b|e] w2]; [done|].
  rewrite handler_raises.
  by destruct (rmtree _ w2) as [[[]|e'] w3].
Qed.

End WithEnv.

End LicenseFacts.

(** ** The stager: whole calls of [stage_job_resources] *)
Module StagerCalls.
Import Py PyStr Os StrFacts PathFacts FSFacts MonadFacts OsFacts.
Import Stager StagerBase StagerTrace StagerFacts StagerSteps StagerJars.

Section AnyBackend.
Context {B : Type} `{Stager B} (E : StagerEnv).

(** The manifest is committed at most once, and nothing is observed after
    it: a call that returns has committed as its last action; a call that
    raises has not committed, unless the commit itself is what raised. *)
Theorem commit_is_last_action
  (options : PipelineOptions) (build_setup_args : option (list string))
  (temp_dir : option string) (populate : option Populate)
  (staging_location : option string) (st : State B) :
  let run := stage_job_resources E options build_setup_args temp_dir populate
               staging_location st in
  exists pre,
    Forall not_commit pre
    /\ match run.1 with
       | Ok _ => events (world run.2) = events (world st) ++ pre ++ [EvCommit]
       | Raise _ =>
           events (world run.2) = events (world st) ++ pre
           \/ events (world run.2) = events (world st) ++ pre ++ [EvCommit]
       end.
Proof.
  intros run. destruct run as [r s'] eqn:Hrun. subst run. cbn [fst snd].
  unfold stage_job_resources in Hrun. unfold bind at 1 in Hrun.
  destruct (nc_local _ (local_choose_temp_dir E temp_dir) st) as (e1 & He1 & Hf1).
  destruct (liftW (choose_temp_dir E temp_dir) st) as [[dir|e] s1];
    cbn [fst snd] in *.
  2:{ injection Hrun as <- <-. exists e1. auto. }
  unfold bind at 1 in Hrun.
  destruct (nc_stage_all E options build_setup_args dir populate staging_location s1)
    as (e2 & He2 & Hf2).
  destruct (stage_all E options build_setup_args dir populate staging_location s1)
    as [[res|e] s2]; cbn [fst snd] in *.
  2:{ injection Hrun as <- <-. exists (e1 ++ e2). split; [by apply Forall_app|].
      left. by rewrite He2, He1, app_assoc. }
  unfold bind at 1 in Hrun. rewrite liftW_run in Hrun.
  pose proof (silent_update_path dir (FS.rmtree dir) (world s2)) as Hrm.
  fold (rmtree dir) in Hrm. unfold same_events in Hrm.
  destruct (rmtree dir (world s2)) as [[[]|e] w3]; cbn [fst snd] in *.
  2:{ injection Hrun as <- <-. exists (e1 ++ e2). split; [by apply Forall_app|].
      left. cbn [world]. by rewrite Hrm, He2, He1, app_assoc. }
  unfold bind at 1, self_commit_manifest, bind at 1 in Hrun.
  rewrite liftW_run in Hrun. cbn [fst snd emit modify world backend] in Hrun.
  destruct (commit_manifest _ _) as [[tok|e] b]; injection Hrun as <- <-;
    cbn [fst snd world events];
    exists (e1 ++ e2); (split; [by apply Forall_app|]);
    [|right]; by rewrite Hrm, He2, He1, !app_assoc.
Qed.

(** [sdk_location] set to [container] stages no SDK: the call behaves
    exactly as on options without an [sdk_location] attribute. *)
Theorem container_sdk_stages_nothing
  (requirements_file requirements_cache setup_file : option string)
  (extra_packages : option (list string)) (jar_packages : option string)
  (save_main_session : bool) (dataflow_worker_jar : option string)
  (build_setup_args : option (list string)) (temp_dir : option string)
  (populate : option Populate) (staging_location : option string) (st : State B) :
  stage_job_resources E
    (mkOptions requirements_file requirements_cache setup_file extra_packages
       jar_packages save_main_session (Some "container") dataflow_worker_jar)
    build_setup_args temp_dir populate staging_location st
  = stage_job_resources E
      (mkOptions requirements_file requirements_cache setup_file extra_packages
         jar_packages save_main_session None dataflow_worker_jar)
      build_setup_args temp_dir populate staging_location st.
Proof. reflexivity. Qed.

(** Without a staging location the call raises, but only after it has
    chosen its temporary directory: one it had to create is left behind. *)
Theorem missing_staging_location
  (options : PipelineOptions) (build_setup_args : option (list string))
  (populate : option Populate) (st : State B) :
  let run := stage_job_resources E options build_setup_args None populate None st in
  is_ok run.1 = false
  /\ backend run.2 = backend st
  /\ events (world run.2) = events (world st)
  /\ (forall dir w1,
        mkdtemp (gettempdir E) (world st) = (Ok dir, w1) ->
        run = (Raise (RuntimeError "The staging_location must be specified."),
               mkState w1 (backend st))
        /\ isdir dir w1 = (Ok true, w1)
        /\ exists_ dir (world st) = (Ok false, world st)).
Proof.
  intros run. destruct run as [r s'] eqn:Hrun. subst run. cbn [fst snd].
  unfold stage_job_resources in Hrun. unfold bind at 1 in Hrun.
  rewrite liftW_run in Hrun. unfold choose_temp_dir in Hrun.
  pose proof (silent_mkdtemp (gettempdir E) (world st)) as Hsilent.
  destruct (mkdtemp (gettempdir E) (world st)) as [[dir|e] w1] eqn:Hmk;
    cbn [fst snd] in *.
  - unfold stage_all, bind, raise in Hrun. injection Hrun as <- <-.
    cbn [backend world].
    split; [done|]. split; [done|]. split; [done|].
    intros dir' w1' [= <- <-]. split; [done|].
    apply mkdtemp_from_inv in Hmk as (j & q & -> & Hres & Hq & Hqp & ->).
    assert (q <> []) as Hne by (by destruct q).
    split.
    + unfold isdir. rewrite (on_path_run _ _ _ _ q) by done.
      cbn [fs set_fs]. unfold FS.isdir. by rewrite lookup_append_new.
    + unfold exists_. rewrite (on_path_run _ _ _ _ q) by done.
      unfold FS.exists_. by rewrite Hq.
  - injection Hrun as <- <-.
    split; [done|]. split; [done|]. split; [done|]. intros dir w1' [=].
Qed.

End AnyBackend.

Section Abstract.
Context (E : StagerEnv).

(** The class [Stager] is abstract: on the class itself no call of
    [stage_job_resources] returns, whatever it is asked to stage. *)
Theorem abstract_stager_never_returns
  (options : PipelineOptions) (build_setup_args : option (list string))
  (temp_dir : option string) (populate : option Populate)
  (staging_location : option string) (st : State unit) :
  is_ok (@stage_job_resources unit abstract_stager E options build_setup_args
           temp_dir populate staging_location st).1 = false.
Proof.
  revert st. change (fails (@stage_job_resources unit abstract_stager E options
                              build_setup_args temp_dir populate staging_location)).
  unfold stage_job_resources.
  do 3 (apply fails_bind_r; intros ?). apply fails_bind_l.
  intros s. reflexivity.
Qed.

End Abstract.

End StagerCalls.

(** ** The stager: the names a call returns and the artifacts it staged *)
Module StagerNames.
Import Py PyStr Os StrFacts PathFacts FSFacts MonadFacts OsFacts.
Import Stager StagerTrace StagerFacts StagerSteps StagerResources StagerJars.

(** The artifact names of the staging calls in a trace, oldest first. *)
Definition staged_as (evs : list event) : list string :=
  omap (fun ev => match ev with EvStage _ name => Some name | _ => None end) evs.

(** A file name without a path. *)
Definition plain (n : string) : Prop := has_char "/" n = false.

Lemma staged_as_app (e1 e2 : list event) :
  staged_as (e1 ++ e2) = staged_as e1 ++ staged_as e2.
Proof. apply omap_app. Qed.

Section Accounting.
Context {B : Type} `{Stager B} (E : StagerEnv) (sl : string).

(** Between [s] and [s'] the run staged, among others and in this order,
    an artifact [sl/n] for each of the plain names [n] in [names]. *)
Definition accounts (s : State B) (names : list string) (s' : State B) : Prop :=
  exists evs,
    events (world s') = events (world s) ++ evs
    /\ Forall plain names
    /\ map (FileSystems.join sl) names `sublist_of` staged_as evs.

Lemma accounts_app s n1 s1 n2 s2 :
  accounts s n1 s1 -> accounts s1 n2 s2 -> accounts s (n1 ++ n2) s2.
Proof.
  intros (e1 & He1 & Hp1 & Hs1) (e2 & He2 & Hp2 & Hs2). exists (e1 ++ e2).
  split; [by rewrite He2, He1, app_assoc|]. split; [by apply Forall_app|].
  rewrite map_app, staged_as_app. by apply sublist_app.
Qed.

Lemma accounts_refl s : accounts s [] s.
Proof.
  exists []. rewrite app_nil_r. split; [done|]. split; [constructor | done].
Qed.

Lemma accounts_any {P : event -> Prop} {A} (m : M (State B) A) s r s' :
  respects (st_ev P) m -> m s = (r, s') -> accounts s [] s'.
Proof.
  intros Hm Hrun. destruct (Hm s) as (evs & He & _). rewrite Hrun in He.
  exists evs. split; [done|]. split; [constructor | apply sublist_nil_l].
Qed.

Lemma accounts_stage p n s r s' :
  plain n ->
  self_stage_artifact p (FileSystems.join sl n) s = (r, s') ->
  accounts s [n] s'.
Proof.
  intros Hn Hrun. unfold self_stage_artifact, bind in Hrun.
  rewrite liftW_run in Hrun. cbn [fst snd emit modify world backend] in Hrun.
  destruct (stage_artifact _ _ _ _) as [u b]. injection Hrun as _ <-.
  exists [EvStage p (FileSystems.join sl n)]. split; [done|].
  split; [by constructor | done].
Qed.

Lemma accounts_when (c : bool) (m : M (State B) unit) s r s' :
  respects (st_ev not_commit) m -> when c m s = (r, s') -> accounts s [] s'.
Proof.
  intros Hm. apply (accounts_any (P:=not_commit)). apply respects_when; [apply _ | done].
Qed.

End Accounting.

(** Inversion of a run that returned, step by step. *)
Ltac run_inv :=
  repeat match goal with
    | H : bind _ _ _ = (Ok _, _) |- _ =>
        let a := fresh "a" in let s := fresh "s" in let Ha := fresh "Hstep" in
        apply bind_ok_inv in H as (a & s & Ha & H)
    | H : ret _ _ = (Ok _, _) |- _ => unfold ret in H; injection H as <- <-
    | H : raise _ _ = (Ok _, _) |- _ => discriminate H
    | H : of_result _ _ = (Ok _, _) |- _ => unfold of_result in H; injection H as H <-
    | H : (if ?c then _ else _) _ = (Ok _, _) |- _ => destruct c eqn:?
    | H : (match ?x with _ => _ end) _ = (Ok _, _) |- _ => destruct x eqn:?
    end.

(** The events of a local step. *)
Ltac local_side :=
  first
    [ apply nc_local;
      try match goal with
          | |- respects _ (match ?x with _ => _ end _ _) => destruct x
          end;
      first
        [ apply local_choose_temp_dir
        | apply local_populate_requirements_cache
        | apply local_call_populate
        | apply local_build_setup_package
        | apply local_download_pypi_sdk_package
        | apply local_dump_session
        | apply traced_download_file; done
        | (apply respects_for_fold; [apply _|]; intros;
           first [ apply traced_extra_package_step; done
                 | apply traced_jar_package_step; done ])
        | (traced; done) ]
    | (apply respects_when; [apply _|]; apply nc_local; traced; done) ].

Ltac plain_side :=
  first [ assumption | apply basename_plain | reflexivity ].

(** One more step of the run added to what is accounted for so far. *)
Ltac accounts_step sl :=
  match goal with
  | Hacc : accounts sl ?s0 ?names ?s, H : accounts sl ?s ?more ?s1 |- _ =>
      let Hn := fresh "Hacc" in
      pose proof (accounts_app sl _ _ _ _ _ Hacc H) as Hn; clear Hacc H
  | Hacc : accounts sl ?s0 ?names ?s,
    H : self_stage_artifact ?p (FileSystems.join sl ?n) ?s = (_, ?s1) |- _ =>
      let Hn := fresh "Hacc" in
      assert (accounts sl s0 (names ++ [n]) s1) as Hn
        by (eapply accounts_app;
            [exact Hacc | eapply accounts_stage; [plain_side | exact H]]);
      clear Hacc H
  | Hacc : accounts sl ?s0 ?names ?s, H : ?m ?s = (_, ?s1) |- _ =>
      let Hn := fresh "Hacc" in
      assert (accounts sl s0 (names ++ []) s1) as Hn
        by (eapply accounts_app;
            [exact Hacc | eapply accounts_any; [|exact H]; local_side]);
      clear Hacc H
  end.

Ltac accounts_from sl s :=
  let Hacc := fresh "Hacc" in
  pose proof (accounts_refl sl s) as Hacc; repeat accounts_step sl.

Ltac accounts_done :=
  match goal with
  | Hacc : accounts _ _ _ _ |- _ =>
      eexists; split; [|exact Hacc]; simpl; by rewrite ?app_nil_r, <- ?app_assoc
  end.

Ltac accounts_exact :=
  match goal with
  | Hacc : accounts _ _ _ _ |- _ =>
      simpl in Hacc; rewrite ?app_nil_r in Hacc; rewrite <- ?app_assoc in Hacc;
      exact Hacc
  end.

Section Blocks.
Context {B : Type} `{Stager B} (E : StagerEnv) (sl : string).
Hypothesis sdk_tarball_plain : plain (DATAFLOW_SDK_TARBALL_FILE E).
Hypothesis session_file_plain : plain (PICKLED_MAIN_SESSION_FILE E).

(** A block that extends the list [res] with names it accounts for. *)
Definition accounting (block : list string -> M (State B) (list string)) : Prop :=
  forall res s res' s',
    block res s = (Ok res', s') ->
    exists names, res' = res ++ names /\ accounts sl s names s'.

Lemma accounts_cached_packages pkgs : accounting (for_fold pkgs (stage_cached_package sl)).
Proof.
  induction pkgs as [|pkg pkgs IH]; intros res s res' s' Hrun; simpl in Hrun.
  - injection Hrun as <- <-. exists []. split; [by rewrite app_nil_r|].
    apply accounts_refl.
  - apply bind_ok_inv in Hrun as (r1 & s1 & Hstep & Hrun).
    apply IH in Hrun as (names & -> & Hrest).
    unfold stage_cached_package in Hstep. run_inv. accounts_from sl s.
    accounts_done.
Qed.

Lemma accounts_packages pkgs : accounting (for_fold pkgs (stage_package_step sl)).
Proof.
  induction pkgs as [|pkg pkgs IH]; intros res s res' s' Hrun; simpl in Hrun.
  - injection Hrun as <- <-. exists []. split; [by rewrite app_nil_r|].
    apply accounts_refl.
  - apply bind_ok_inv in Hrun as (r1 & s1 & Hstep & Hrun).
    apply IH in Hrun as (names & -> & Hrest).
    unfold stage_package_step in Hstep. run_inv. accounts_from sl s.
    accounts_done.
Qed.

Lemma accounts_requirements options populate :
  accounting (stage_requirements E options populate sl).
Proof.
  intros res s res' s' Hrun. unfold stage_requirements in Hrun.
  destruct (requirements_file options) as [rf|].
  2:{ injection Hrun as <- <-. exists []. split; [by rewrite app_nil_r|].
      apply accounts_refl. }
  apply bind_ok_inv in Hrun as (r1 & s1 & Hfetch & Hrun).
  apply bind_ok_inv in Hrun as (pkgs & s2 & Hglob & Hrun).
  apply accounts_cached_packages in Hrun as (names & -> & Hrest).
  unfold fetch_requirements in Hfetch. run_inv. accounts_from sl s.
  accounts_done.
Qed.

Ltac accounts_nothing :=
  match goal with
  | H : (_, _) = (Ok _, _) |- _ => injection H as <- <-
  | H : ret _ _ = (Ok _, _) |- _ => injection H as <- <-
  end;
  exists []; split; [by rewrite app_nil_r | apply accounts_refl].

Lemma accounts_setup_file options args dir :
  accounting (stage_setup_file E options args dir sl).
Proof.
  intros res s res' s' Hrun. unfold stage_setup_file in Hrun.
  destruct (setup_file options) as [sf|]; [|accounts_nothing].
  run_inv. accounts_from sl s. accounts_done.
Qed.

Lemma accounts_extra_packages pkgs dir s res' s' :
  _stage_extra_packages E pkgs sl dir s = (Ok res', s') ->
  accounts sl s res' s'.
Proof.
  intros Hrun. unfold _stage_extra_packages in Hrun.
  apply bind_ok_inv in Hrun as (d & s1 & Hmk & Hrun).
  apply bind_ok_inv in Hrun as (locals & s2 & Hloop & Hrun).
  apply bind_ok_inv in Hrun as (names & s3 & Hls & Hrun).
  apply bind_ok_inv in Hrun as (staged & s4 & Hstage & Hrun).
  apply accounts_packages in Hstage as (l & -> & Hstage).
  run_inv. accounts_from sl s.
  accounts_exact.
Qed.

Lemma accounts_extra options dir : accounting (stage_extra E options dir sl).
Proof.
  intros res s res' s' Hrun. unfold stage_extra in Hrun.
  destruct (extra_packages options) as [pkgs|]; [|accounts_nothing].
  apply bind_ok_inv in Hrun as (staged & s1 & Hrun & Hret).
  injection Hret as <- <-. exists staged. split; [done|].
  by eapply accounts_extra_packages.
Qed.

Lemma accounts_jar_packages pkgs dir s res' s' :
  _stage_jar_packages E pkgs sl dir s = (Ok res', s') ->
  accounts sl s res' s'.
Proof.
  intros Hrun. unfold _stage_jar_packages in Hrun.
  apply bind_ok_inv in Hrun as (d & s1 & Hmk & Hrun).
  apply bind_ok_inv in Hrun as (locals & s2 & Hloop & Hrun).
  apply bind_ok_inv in Hrun as (names & s3 & Hls & Hrun).
  apply bind_ok_inv in Hrun as (staged & s4 & Hstage & Hrun).
  apply accounts_packages in Hstage as (l & -> & Hstage).
  run_inv. accounts_from sl s.
  accounts_exact.
Qed.

Lemma accounts_jars options dir : accounting (stage_jars E options dir sl).
Proof.
  intros res s res' s' Hrun. unfold stage_jars in Hrun.
  destruct (experiment_jar_packages options) as [pkgs|]; [|accounts_nothing].
  apply bind_ok_inv in Hrun as (staged & s1 & Hrun & Hret).
  injection Hret as <- <-. exists staged. split; [done|].
  by eapply accounts_jar_packages.
Qed.

Lemma accounts_main_session options dir :
  accounting (stage_main_session E options dir sl).
Proof.
  intros res s res' s' Hrun. unfold stage_main_session in Hrun.
  destruct (save_main_session options); [|accounts_nothing].
  run_inv. accounts_from sl s. accounts_done.
Qed.

Lemma accounts_worker_jar options : accounting (stage_worker_jar options sl).
Proof.
  intros res s res' s' Hrun. unfold stage_worker_jar in Hrun.
  destruct (dataflow_worker_jar options) as [jar|]; [|accounts_nothing].
  run_inv. accounts_from sl s. accounts_done.
Qed.

Lemma try_except_inv {S A} (m : M S A) (h : exn -> M S A) s r s' :
  try_except m h s = (r, s') ->
  (exists a, m s = (Ok a, s') /\ r = Ok a)
  \/ (exists e s1, m s = (Raise e, s1) /\ h e s1 = (r, s')).
Proof.
  unfold try_except. destruct (m s) as [[a|e] s1].
  - intros [= <- <-]. left. by exists a.
  - intros Hh. right. by exists e, s1.
Qed.

Lemma desired_sdk_filename_plain loc name :
  _desired_sdk_filename_in_staging_location E loc = Ok name -> plain name.
Proof.
  unfold _desired_sdk_filename_in_staging_location.
  destruct (endswith ".whl" loc); [|by intros [= <-]].
  unfold FileSystems.split. destruct (has_filesystem E loc); [|done].
  destruct (startswith "apache_beam" _); [|done].
  intros [= <-]. apply basename_plain.
Qed.

Lemma accounts_beam_sdk loc dir s res' s' :
  _stage_beam_sdk E loc sl dir s = (Ok res', s') ->
  accounts sl s res' s'.
Proof.
  intros Hrun. unfold _stage_beam_sdk in Hrun.
  destruct (String.eqb loc "pypi").
  - apply bind_ok_inv in Hrun as (f & s1 & Hdl & Hrun).
    apply bind_ok_inv in Hrun as (n1 & s2 & Hname & Hrun).
    unfold of_result in Hname. injection Hname as Hname <-.
    apply desired_sdk_filename_plain in Hname.
    apply bind_ok_inv in Hrun as ([] & s3 & Hlog & Hrun).
    apply bind_ok_inv in Hrun as ([] & s4 & Hstage & Hrun).
    apply try_except_inv in Hrun as [(l & Hbin & [= <-]) | (e & s5 & Hbin & Hh)].
    + apply bind_ok_inv in Hbin as (f2 & s5 & Hdl2 & Hbin).
      apply bind_ok_inv in Hbin as (n2 & s6 & Hname2 & Hbin).
      unfold of_result in Hname2. injection Hname2 as Hname2 <-.
      apply desired_sdk_filename_plain in Hname2.
      run_inv. accounts_from sl s. accounts_exact.
    + eapply (accounts_any sl) in Hbin.
      2:{ repeat (first [ local_side | apply staged_stage_artifact; done
                        | traced_step ]; cbv beta). }
      run_inv. accounts_from sl s. accounts_exact.
  - destruct (_is_remote_path loc); [|done].
    apply bind_ok_inv in Hrun as ([] & s1 & Hdl & Hrun).
    apply bind_ok_inv in Hrun as (n1 & s2 & Hname & Hrun).
    unfold of_result in Hname. injection Hname as Hname <-.
    apply desired_sdk_filename_plain in Hname.
    run_inv. accounts_from sl s. accounts_exact.
Qed.

Lemma accounts_sdk options dir : accounting (stage_sdk E options dir sl).
Proof.
  intros res s res' s' Hrun. unfold stage_sdk in Hrun.
  destruct (sdk_location options) as [loc|]; [|accounts_nothing].
  destruct (String.eqb loc "default" || _is_remote_path loc).
  { apply bind_ok_inv in Hrun as (staged & s1 & Hrun & Hret).
    injection Hret as <- <-. exists staged. split; [done|].
    by eapply accounts_beam_sdk. }
  destruct (String.eqb loc "container"); [accounts_nothing|].
  apply bind_ok_inv in Hrun as (d & s1 & Hd & Hrun).
  apply bind_ok_inv in Hrun as (f & s2 & Hf & Hrun).
  destruct f.
  - apply bind_ok_inv in Hrun as ([] & s3 & Hlog & Hrun).
    apply bind_ok_inv in Hrun as (n1 & s4 & Hname & Hrun).
    unfold of_result in Hname. injection Hname as Hname <-.
    apply desired_sdk_filename_plain in Hname.
    apply bind_ok_inv in Hrun as ([] & s5 & Hstage & Hrun).
    apply bind_ok_inv in Hrun as (parts & s6 & (_ & -> & ->)%split_ok_inv & Hret).
    injection Hret as <- <-.
    change (OsPath.split (FileSystems.join sl n1)).2
      with (OsPath.basename (OsPath.join sl n1)).
    rewrite basename_join by exact Hname.
    accounts_from sl s. accounts_done.
  - run_inv. accounts_from sl s. accounts_done.
Qed.

Lemma accounts_all options args dir populate s res' s' :
  stage_all E options args dir populate (Some sl) s = (Ok res', s') ->
  accounts sl s res' s'.
Proof.
  intros Hrun. unfold stage_all in Hrun.
  apply bind_ok_inv in Hrun as (r1 & s1 & (n1 & -> & H1)%accounts_requirements & Hrun).
  apply bind_ok_inv in Hrun as (r2 & s2 & (n2 & -> & H2)%accounts_setup_file & Hrun).
  apply bind_ok_inv in Hrun as (r3 & s3 & (n3 & -> & H3)%accounts_extra & Hrun).
  apply bind_ok_inv in Hrun as (r4 & s4 & (n4 & -> & H4)%accounts_jars & Hrun).
  apply bind_ok_inv in Hrun as (r5 & s5 & (n5 & -> & H5)%accounts_main_session & Hrun).
  apply bind_ok_inv in Hrun as (r6 & s6 & (n6 & -> & H6)%accounts_sdk & Hrun).
  apply accounts_worker_jar in Hrun as (n7 & -> & H7).
  simpl. rewrite <- !app_assoc.
  repeat (eapply accounts_app; [eassumption|]). exact H7.
Qed.

Lemma accounts_call options args temp_dir populate staging_location st token res st' :
  stage_job_resources E options args temp_dir populate staging_location st
    = (Ok (token, res), st') ->
  staging_location = Some sl -> accounts sl st res st'.
Proof.
  intros Hrun ->. unfold stage_job_resources in Hrun.
  apply bind_ok_inv in Hrun as (dir & s1 & Hdir & Hrun).
  apply bind_ok_inv in Hrun as (r & s2 & Hall%accounts_all & Hrun).
  apply bind_ok_inv in Hrun as ([] & s3 & Hrm & Hrun).
  apply bind_ok_inv in Hrun as (tok & s4 & Hcommit & Hret).
  injection Hret as _ <- <-.
  apply (accounts_any (P:=fun _ => True) sl) in Hcommit.
  2:{ intros s. unfold self_commit_manifest, bind. rewrite liftW_run.
      cbn [fst snd emit modify world backend].
      destruct (commit_manifest _ _) as [u b]. exists [EvCommit].
      split; [done | by constructor]. }
  accounts_from sl st. accounts_exact.
Qed.

(** The list a call returns holds file names, not paths: no name in it
    contains a slash (given that the two file names the module imports,
    for the SDK tarball and the pickled session, contain none). *)
Theorem returned_names_are_plain
  (options : PipelineOptions) (build_setup_args : option (list string))
  (temp_dir : option string) (populate : option Populate)
  (staging_location : option string) (st st' : State B)
  (token : string) (resources : list string) :
  stage_job_resources E options build_setup_args temp_dir populate staging_location st
    = (Ok (token, resources), st') ->
  staging_location = Some sl ->
  Forall (fun name => has_char "/" name = false) resources.
Proof.
  intros Hrun Hsl.
  by destruct (accounts_call _ _ _ _ _ _ _ _ _ Hrun Hsl) as (evs & _ & Hplain & _).
Qed.

(** Every name in the list a call returns was staged: the trace of the call
    shows, in the order of the list, a staging call for the artifact
    [staging_location/name] of each name. *)
Theorem returned_names_were_staged
  (options : PipelineOptions) (build_setup_args : option (list string))
  (temp_dir : option string) (populate : option Populate)
  (staging_location : option string) (st st' : State B)
  (token : string) (resources : list string) :
  stage_job_resources E options build_setup_args temp_dir populate staging_location st
    = (Ok (token, resources), st') ->
  staging_location = Some sl ->
  exists evs,
    events (world st') = events (world st) ++ evs
    /\ map (FileSystems.join sl) resources `sublist_of` staged_as evs.
Proof.
  intros Hrun Hsl.
  destruct (accounts_call _ _ _ _ _ _ _ _ _ Hrun Hsl) as (evs & Hev & _ & Hsub).
  by exists evs.
Qed.

End Blocks.



End StagerNames.

(** ** The stager: the helpers that work on the local machine *)
Module StagerLocal.
Import Py PyStr Os StrFacts PathFacts FSFacts MonadFacts OsFacts.
Import Stager StagerTrace StagerFacts StagerSteps StagerJars.

#[local] Arguments String.prefix : simpl never.

(** *** [os.getcwd] and [os.chdir] *)

Lemma components_join_with (c : list string) :
  Forall is_name c -> OsPath.components (join_with "/" c) = c.
Proof.
  induction 1 as [|x l [Hx Hne] Hl IH]; [done|].
  destruct l as [|y l].
  - by apply components_plain.
  - change (join_with "/" (x :: y :: l))
      with (x +:+ String "/" (join_with "/" (y :: l))).
    by rewrite components_app_slash, IH, components_plain.
Qed.

Lemma resolve_getcwd (c cwd' : list string) :
  Forall is_name c -> OsPath.resolve cwd' ("/" +:+ join_with "/" c) = Some c.
Proof.
  intros Hc. unfold OsPath.resolve.
  change ("/" +:+ join_with "/" c) with ("" +:+ String "/" (join_with "/" c)).
  rewrite sapp_nil_l. cbn [String.eqb]. unfold startswith. rewrite prefix_cons.
  destruct (Ascii.ascii_dec "/" "/"); [|done].
  assert (String.prefix "" (join_with "/" c) = true) as ->
    by (by destruct (join_with "/" c)).
  change (String "/" (join_with "/" c)) with ("" +:+ String "/" (join_with "/" c)).
  by rewrite components_app_slash, components_join_with.
Qed.

Lemma endswith_app_l (suf a b : string) :
  endswith suf b = true -> endswith suf (a +:+ b) = true.
Proof.
  intros Hb. induction a as [|x a IH]; [done|].
  rewrite sapp_cons, endswith_cons, IH. by destruct (String.eqb _ _).
Qed.

Lemma endswith_join (suf d n : string) :
  endswith suf n = true -> endswith suf (OsPath.join d n) = true.
Proof.
  intros Hn. unfold OsPath.join.
  destruct (startswith "/" n); [done|].
  destruct (String.eqb d "" || endswith "/" d); [by apply endswith_app_l|].
  by do 2 apply endswith_app_l.
Qed.

(** *** Reading back what was written *)

Lemma write_file_ok_inv p data w w' q :
  OsPath.resolve (cwd w) p = Some q -> write_file p data w = (Ok tt, w') ->
  exists f, FS.write p q data (fs w) = Ok f /\ w' = set_fs f w.
Proof.
  intros Hq. unfold write_file, update_path. rewrite Hq.
  destruct (FS.write p q data (fs w)) as [f|e]; [|done]. intros [= <-]. by exists f.
Qed.

Lemma read_after_write nm nm' (q : FS.path) (data : string) (fs fs' : FS.t) :
  FS.write nm q data fs = Ok fs' -> FS.read nm' q fs' = Ok data.
Proof.
  unfold FS.write, FS.create, FS.read.
  destruct (FS.lookup q fs) as [[c|]|] eqn:Hl; [| done |].
  - intros [= <-]. destruct q as [|x q]; [done|]. unfold FS.lookup in *.
    by rewrite assoc_replace, decide_True, Hl.
  - destruct (FS.lookup (FS.parent q) fs) as [[]|]; try done.
    intros [= <-]. rewrite lookup_append_new; [done | by destruct q | done].
Qed.

Lemma http_request_run (E : Env) (url : string) (w : World) :
  http_request E url w
  = (match http_get E (clock w) url with
     | Some r => Ok r
     | None => Raise (HttpLibError url)
     end,
     mkWorld (fs w) (cwd w) (S (clock w)) (events w ++ [EvHttp url])).
Proof.
  unfold http_request, bind, tick, emit, modify. cbn [fst snd fs cwd clock events].
  by destruct (http_get E (clock w) url).
Qed.

Section WithEnv.
Context (E : StagerEnv).

(** [_build_setup_package] leaves the process in the directory it was
    called in, whether it returns or raises, as long as that directory
    still exists when the [finally] clause runs; and a path it returns
    names a [.tar.gz] file. *)
Theorem build_setup_package_restores_cwd
  (setup_file temp_dir : string) (build_setup_args : option (list string))
  (w : World) :
  Forall is_name (cwd w) ->
  FS.isdir (cwd w)
    (fs (_build_setup_package E setup_file temp_dir build_setup_args w).2) = true ->
  cwd (_build_setup_package E setup_file temp_dir build_setup_args w).2 = cwd w
  /\ forall f,
       (_build_setup_package E setup_file temp_dir build_setup_args w).1 = Ok f ->
       endswith ".tar.gz" f = true.
Proof.
  intros Hnames.
  destruct (_build_setup_package E setup_file temp_dir build_setup_args w)
    as [r' w'] eqn:Hrun. cbn [fst snd].
  unfold _build_setup_package, bind at 1, getcwd, gets, try_finally in Hrun.
  match type of Hrun with
  | context [match ?body w with _ => _ end] =>
      destruct (body w) as [r w1] eqn:Hbody
  end.
  unfold chdir in Hrun. rewrite (resolve_getcwd (cwd w) (cwd w1) Hnames) in Hrun.
  unfold FS.isdir.
  destruct (FS.lookup (cwd w) (fs w1)) as [[]|] eqn:Hl; injection Hrun as <- <-;
    cbn [fs cwd set_cwd]; rewrite ?Hl; try done.
  intros _. split; [done|]. intros f ->.
  apply bind_ok_inv in Hbody as ([] & w2 & _ & Hbody).
  apply bind_ok_inv in Hbody as (args & w3 & _ & Hbody).
  apply bind_ok_inv in Hbody as ([] & w4 & _ & Hbody).
  apply bind_ok_inv in Hbody as (out & w5 & _ & Hbody).
  apply bind_ok_inv in Hbody as (files & w6 & Hglob & Hbody).
  destruct files as [|first rest]; [done|]. injection Hbody as <- _.
  injection Hglob as Hglob _.
  assert (first ∈ glob_paths (os_env E) (OsPath.join temp_dir "*.tar.gz") w5) as Hin
    by (rewrite Hglob; left).
  unfold glob_paths in Hin. rewrite (basename_join temp_dir "*.tar.gz") in Hin by done.
  apply list_elem_of_In, in_flat_map in Hin as (d & _ & Hin%list_elem_of_In).
  unfold glob_in_dir in Hin.
  apply list_elem_of_fmap in Hin as (name & -> & Hname%list_elem_of_In%List.filter_In).
  destruct Hname as [_ Hname]. unfold glob_match in Hname.
  apply andb_prop in Hname as [Hname _]. by apply endswith_join.
Qed.

(** Over HTTP, [_download_file] returns only when the server answered with
    a status below 400, and the target file then holds the body of the
    answer.  A request that fails, or that is answered with a status of 400
    or more, raises before the target is opened: the file system is as it
    was. *)
Theorem download_file_http (from_url to_path : string) (w : World) :
  startswith "http://" from_url || startswith "https://" from_url = true ->
  let run := _download_file E from_url to_path w in
  match http_get (os_env E) (clock w) from_url with
  | Some (status, body) =>
      if (400 <=? status)%Z then is_ok run.1 = false /\ fs run.2 = fs w
      else run.1 = Ok tt -> read_file to_path run.2 = (Ok body, run.2)
  | None => is_ok run.1 = false /\ fs run.2 = fs w
  end.
Proof.
  intros Hhttp run. destruct run as [r w'] eqn:Hrun. subst run. cbn [fst snd].
  unfold _download_file in Hrun. rewrite Hhttp in Hrun.
  unfold try_except, bind at 1 in Hrun. rewrite http_request_run in Hrun.
  destruct (http_get (os_env E) (clock w) from_url) as [[status body]|];
    [|by injection Hrun as <- <-].
  cbn [fst snd] in Hrun. destruct (400 <=? status)%Z eqn:Hstatus;
    [by injection Hrun as <- <-|].
  unfold write_file, update_path in Hrun. cbn [cwd fs] in Hrun.
  destruct (OsPath.resolve (cwd w) to_path) as [q|] eqn:Hq;
    [|by injection Hrun as <- <-].
  destruct (FS.write to_path q body (fs w)) as [f|e] eqn:Hw;
    [|by injection Hrun as <- <-].
  injection Hrun as <- <-. intros _.
  unfold read_file. rewrite (on_path_run _ _ _ _ q) by done.
  cbn [fs set_fs]. by rewrite (read_after_write _ to_path _ _ _ _ Hw).
Qed.

(** The loop over the expected files: the state is left alone, and a file
    it reports exists. *)
Lemma first_existing_inv (files : list string) (found : option string)
  (w : World) (r : option string) (w' : World) :
  for_fold files
    (fun sdk_file found =>
       match found with
       | Some _ => ret found
       | None => bind (exists_ sdk_file)
                   (fun e => ret (if e then Some sdk_file else None))
       end) found w = (Ok r, w') ->
  w' = w
  /\ match found, r with
     | Some x, _ => r = Some x
     | None, Some f => f ∈ files /\ exists_ f w = (Ok true, w)
     | None, None => True
     end.
Proof.
  revert found w. induction files as [|x files IH]; intros found w Hrun;
    simpl in Hrun.
  - injection Hrun as <- <-. split; [done|]. by destruct found.
  - apply bind_ok_inv in Hrun as (f1 & w1 & Hstep & Hrun).
    apply IH in Hrun as (-> & Hrest). destruct found as [y|].
    + by injection Hstep as <- <-.
    + assert (w1 = w /\ (f1 = Some x /\ exists_ x w = (Ok true, w) \/ f1 = None))
        as (-> & Hf1).
      { unfold bind, exists_, on_path in *.
        destruct (OsPath.resolve (cwd w) x) as [q|].
        - injection Hstep as <- <-. split; [done|].
          destruct (FS.exists_ q (fs w)); [left | right]; done.
        - injection Hstep as <- <-. split; [done|]. by right. }
      split; [done|]. destruct Hf1 as [[-> Hx] | ->].
      * subst r. split; [left | done].
      * destruct r as [f|]; [|done]. destruct Hrest as [Hin Hf].
        split; [by right | done].
Qed.

(** A path [_download_pypi_sdk_package] returns exists, lies in the
    download directory and carries the name [pip] gives the distribution
    of the installed version: the [.zip] or the [.tar.gz] for sources, the
    tagged [.whl] for a binary. *)
Theorem download_pypi_sdk_package_result
  (temp_dir : string) (fetch_binary : bool)
  (language_version_tag language_implementation_tag abi_tag platform_tag : string)
  (w : World) (sdk_file : string) (w' : World) :
  _download_pypi_sdk_package E temp_dir fetch_binary language_version_tag
    language_implementation_tag abi_tag platform_tag w = (Ok sdk_file, w') ->
  exists_ sdk_file w' = (Ok true, w')
  /\ exists version,
       distribution_version E (BEAM_PACKAGE_NAME E) = Some version
       /\ if fetch_binary then
            sdk_file
            = OsPath.join temp_dir
                (replace_char "-" "_" (BEAM_PACKAGE_NAME E) +:+ "-" +:+ version +:+ "-"
                 +:+ language_implementation_tag +:+ language_version_tag +:+ "-"
                 +:+ abi_tag +:+ "-" +:+ platform_tag +:+ ".whl")
          else
            sdk_file
            = OsPath.join temp_dir (BEAM_PACKAGE_NAME E +:+ "-" +:+ version +:+ ".zip")
            \/ sdk_file
               = OsPath.join temp_dir
                   (BEAM_PACKAGE_NAME E +:+ "-" +:+ version +:+ ".tar.gz").
Proof.
  intros Hrun. unfold _download_pypi_sdk_package in Hrun.
  apply bind_ok_inv in Hrun as (version & w1 & Hv & Hrun).
  destruct (distribution_version E (BEAM_PACKAGE_NAME E)) as [v|] eqn:Hdist; [|done].
  injection Hv as <- <-.
  apply bind_ok_inv in Hrun as (python & w2 & _ & Hrun).
  apply bind_ok_inv in Hrun as (plan & w3 & Hplan & Hrun).
  apply bind_ok_inv in Hrun as ([] & w4 & _ & Hrun).
  apply bind_ok_inv in Hrun as (out & w5 & _ & Hrun).
  apply bind_ok_inv in Hrun as (found & w6 & Hfound & Hrun).
  destruct found as [f|]; [|done]. injection Hrun as <- <-.
  unfold first_existing in Hfound.
  apply first_existing_inv in Hfound as (-> & Hin & Hex).
  split; [done|]. exists v. split; [done|].
  destruct fetch_binary; apply bind_ok_inv in Hplan as ([] & w7 & _ & Hplan);
    injection Hplan as <- _; cbn [snd] in Hin.
  - by apply list_elem_of_singleton in Hin.
  - apply elem_of_cons in Hin as [->|Hin]; [by left|].
    apply list_elem_of_singleton in Hin. by right.
Qed.

End WithEnv.

Section WithBackend.
Context {B : Type} `{Stager B} (E : StagerEnv).

(** Staging the binary distribution is best effort: a [RuntimeError] that
    [_stage_beam_sdk] lets through, asked for the SDK from PyPI, was raised
    by the download of the source distribution, by the choice of its staged
    name or by the staging of it, never by the steps for the binary
    distribution that follow. *)
Theorem binary_sdk_is_best_effort
  (staging_location temp_dir : string) (s : State B) (e : exn) (s' : State B) :
  _stage_beam_sdk E "pypi" staging_location temp_dir s = (Raise e, s') ->
  is_RuntimeError e = true ->
  let sources :=
    liftW (_download_pypi_sdk_package E temp_dir false "27" "cp" "cp27mu"
             "manylinux1_x86_64") s in
  match sources.1 with
  | Raise e0 => e0 = e
  | Ok sdk_local_file =>
      match _desired_sdk_filename_in_staging_location E sdk_local_file with
      | Raise e0 => e0 = e
      | Ok name =>
          (self_stage_artifact sdk_local_file
             (FileSystems.join staging_location name)
             (liftW (log "info" "Staging SDK sources from PyPI to %s") sources.2).2).1
          = Raise e
      end
  end.
Proof.
  intros Hrun He sources. subst sources.
  unfold _stage_beam_sdk in Hrun. cbn [String.eqb Ascii.eqb Bool.eqb] in Hrun.
  unfold bind at 1 in Hrun.
  destruct (liftW _ s) as [[f|e0] s1]; cbn [fst snd]; [|by injection Hrun as ->].
  unfold bind at 1, of_result at 1 in Hrun.
  destruct (_desired_sdk_filename_in_staging_location E f) as [name|e0];
    [|by injection Hrun as ->].
  unfold bind at 1 in Hrun.
  destruct (liftW (log _ _) s1) as [[[]|e0] s2] eqn:Hlog; cbn [fst snd].
  2:{ rewrite liftW_run in Hlog. discriminate Hlog. }
  unfold bind at 1 in Hrun.
  destruct (self_stage_artifact f _ s2) as [[[]|e0] s3]; cbn [fst];
    [|by injection Hrun as ->].
  exfalso. unfold try_except in Hrun.
  match type of Hrun with
  | context [match ?m s3 with _ => _ end] => destruct (m s3) as [[l|e1] s4]
  end; [done|].
  destruct (is_RuntimeError e1) eqn:He1.
  - unfold bind, liftW, log, emit, modify, ret in Hrun. discriminate Hrun.
  - injection Hrun as -> _. congruence.
Qed.

End WithBackend.


End StagerLocal.

(** ** The stager: jar packages and extra packages, list by list *)
Module StagerPackages.
Import Py PyStr Os StrFacts PathFacts FSFacts MonadFacts OsFacts.
Import Stager StagerTrace StagerFacts StagerSteps StagerJars StagerLocal.

(** The first loop of [_stage_jar_packages] cannot get past a package
    whose name does not end in [.jar]. *)
Lemma jar_loop_rejects E d bad post pre acc w :
  endswith ".jar" (OsPath.basename bad) = false ->
  exists e w',
    for_fold (pre ++ bad :: post) (jar_package_step E d) acc w = (Raise e, w')
    /\ ev_rel (only_fetches pre) w w'.
Proof.
  intros Hbad. revert acc w. induction pre as [|p pre IH]; intros acc w; simpl.
  - unfold bind, jar_package_step at 1. rewrite Hbad. simpl.
    eexists _, w. split; [done | reflexivity].
  - pose proof (traced_jar_package_step E (only_fetches (p :: pre))
                  (fun _ _ => I) d p acc (list_elem_of_here _ _) w) as Hstep.
    unfold bind. destruct (jar_package_step E d p acc w) as [[acc'|e] w1].
    + destruct (IH acc' w1) as (e & w' & Hrun & Hev). exists e, w'.
      split; [done|]. etrans; [exact Hstep|].
      eapply ev_rel_mono; [|exact Hev].
      intros ev. apply only_fetches_mono. set_solver.
    + by exists e, w1.
Qed.




Section Loop.
Context (E : StagerEnv) (w0 : World) (Dq : FS.path) (t d : string).
Hypothesis Hd : OsPath.resolve (cwd w0) d = Some (Dq ++ [t]).



End Loop.

Section Run.
Context {B : Type} `{Stager B} (E : StagerEnv).

(** A list of jar packages that contains a package whose name does not end
    in [.jar] is rejected with an error before anything is staged; the only
    requests made are for packages that stand before it in the list. *)
Theorem jar_packages_unsupported_rejected
  (pre post : list string) (bad staging_location temp_dir : string) (st : State B) :
  endswith ".jar" (OsPath.basename bad) = false ->
  exists e st',
    _stage_jar_packages E (pre ++ bad :: post) staging_location temp_dir st
      = (Raise e, st')
    /\ backend st' = backend st
    /\ ev_rel (only_fetches pre) (world st) (world st').
Proof.
  intros Hbad. unfold _stage_jar_packages.
  unfold bind at 1. rewrite liftW_run.
  pose proof (silent_mkdtemp temp_dir (world st)) as Hsilent.
  destruct (mkdtemp temp_dir (world st)) as [[d|e] w1]; simpl in *.
  - unfold bind at 1. rewrite liftW_run. simpl.
    destruct (jar_loop_rejects E d bad post pre [] w1 Hbad) as (e & w' & Hrun & Hev).
    rewrite Hrun. simpl. eexists _, _. split; [done|]. split; [done|]. simpl.
    etrans; [apply same_events_ev_rel; exact Hsilent | exact Hev].
  - eexists _, _. split; [done|]. split; [done|]. simpl.
    by apply same_events_ev_rel.
Qed.



End Run.

End StagerPackages.

(** ** The stager: extra packages where [http] has no file system *)
Module StagerSchemes.
Import Py PyStr Os StrFacts PathFacts FSFacts MonadFacts OsFacts.
Import Stager StagerTrace StagerFacts StagerJars StagerLocal.


Section NoHttp.
Context (E : StagerEnv).

(** No file system is registered for the schemes [http] and [https]. *)
Hypothesis no_http_filesystem :
  forall p, startswith "http://" p || startswith "https://" p = true ->
            has_filesystem E p = false.








Section WithBackend.
Context {B : Type} `{Stager B}.



End WithBackend.

End NoHttp.

End StagerSchemes.

(** ** The license script: the two ways to obtain a license *)
Module LicenseMore.
Import Py PyStr Os StrFacts PathFacts FSFacts MonadFacts OsFacts.
Import PullLicenses LicenseFacts StagerLocal StagerNames.

#[local] Arguments String.prefix : simpl never.

(** A name below a directory resolves below what the directory resolves
    to. *)
Lemma resolve_child cwd (a n : string) :
  a <> "" -> is_name n ->
  OsPath.resolve cwd (a +:+ String "/" n)
  = (fun q => q ++ [n]) <$> OsPath.resolve cwd a.
Proof.
  intros Ha [Hn Hne]. unfold OsPath.resolve.
  assert (String.eqb a "" = false) as -> by (by apply String.eqb_neq).
  assert (String.eqb (a +:+ String "/" n) "" = false) as ->.
  { apply String.eqb_neq. destruct a; [done|]. by rewrite sapp_cons. }
  rewrite (startswith_app "/" a) by done.
  rewrite components_app_slash, (components_plain n) by done.
  destruct (startswith "/" a); simpl; [done | by rewrite app_assoc].
Qed.

Lemma license_dir_below_nonempty (name : string) : license_dir +:+ "/" +:+ name <> "".
Proof. unfold license_dir. by rewrite sapp_cons. Qed.

Lemma retry_never_raising {S A} n (fn : M S A) :
  (forall s, is_ok (fn s).1 = true) -> forall s, retry n fn s = fn s.
Proof.
  intros Hfn s. specialize (Hfn s). unfold retry.
  destruct (pred n); simpl; unfold try_except; by destruct (fn s) as [[a|e] s1].
Qed.

Lemma copy_license_files_body_returns (dep : Dep) (w : World) :
  is_ok (copy_license_files_body dep w).1 = true.
Proof.
  unfold copy_license_files_body.
  destruct (String.eqb (lower (LicenseFile dep)) "unknown"); [done|].
  unfold try_except.
  match goal with |- context [match ?m w with _ => _ end] => by destruct (m w) as [[b|e] w1] end.
Qed.

(** The scratch directory of a dependency is not above anything in its
    output directory. *)
Lemma scratch_outside_license cwd (dep : string) :
  FS.is_prefix (cwd ++ ["temp_license_" +:+ dep]) (out_dir dep ++ ["LICENSE"]) = false.
Proof.
  destruct (FS.is_prefix _ _) eqn:Hp; [|done]. exfalso.
  apply is_prefix_spec in Hp as (r & Hr).
  assert ("temp_license_" +:+ dep ∈ out_dir dep ++ ["LICENSE"]) as Hin.
  { rewrite Hr. set_solver. }
  unfold out_dir in Hin. cbn [app] in Hin.
  repeat (apply elem_of_cons in Hin as [Heq|Hin]; [try discriminate Heq|]).
  - apply (f_equal String.length) in Heq. rewrite length_sapp in Heq.
    simpl in Heq. lia.
  - by apply elem_of_nil in Hin.
Qed.

Section Fetched.
Context (dep body : string) (w w2 : World).
Let q : FS.path := cwd w ++ ["temp_license_" +:+ dep].
Let dst : FS.path := out_dir dep.
Hypothesis Hname : is_name dep.
Hypothesis Hwf : FS.wf (fs w) = true.
Hypothesis Hq : FS.lookup q (fs w) = None.
Hypothesis Hqp : FS.isdir (FS.parent q) (fs w) = true.
Hypothesis Hdst : FS.lookup dst (fs w) = None.
Hypothesis Hdp : FS.isdir (FS.parent dst) (fs w) = true.
Hypothesis Hfs : fs w2 = scratch (fs w) q "LICENSE" body.
Hypothesis Hcwd : cwd w2 = cwd w.

(** What [pull_from_url] does once the license is in the scratch
    directory: the directory is copied to the output directory and
    removed. *)
Lemma license_put_in_place :
  bind (listdir ("temp_license_" +:+ dep))
    (fun entries =>
       bind match entries with
            | [] => ret tt
            | _ :: _ =>
                copytree ("temp_license_" +:+ dep) (license_dir +:+ "/" +:+ dep)
            end
         (fun _ => ret true)) w2
  = (Ok true, set_fs (copied dst "LICENSE" body (fs w2)) w2)
  /\ rmtree ("temp_license_" +:+ dep) (set_fs (copied dst "LICENSE" body (fs w2)) w2)
     = (Ok tt, set_fs (copied dst "LICENSE" body (fs w)) w2).
Proof.
  pose proof (scratch_outside_license (cwd w) dep) as Hout. fold q dst in Hout.
  assert (listdir ("temp_license_" +:+ dep) w2 = (Ok ["LICENSE"], w2)) as Hls.
  { unfold listdir. rewrite (on_path_run _ _ _ w2 q)
      by (rewrite Hcwd; by apply resolve_temp).
    unfold FS.listdir. rewrite Hfs.
    rewrite (scratch_lookup (fs w) q dst "LICENSE" body Hq Hqp Hdst Hdp Hout).
    by rewrite (scratch_children (fs w) q dst "LICENSE" body Hwf Hq Hqp Hdst Hdp Hout). }
  assert (copytree ("temp_license_" +:+ dep) (license_dir +:+ "/" +:+ dep) w2
          = (Ok tt, set_fs (copied dst "LICENSE" body (fs w2)) w2)) as Hcp.
  { unfold copytree. rewrite Hcwd.
    rewrite (resolve_temp (cwd w) dep Hname), (resolve_out_dir (cwd w) dep Hname).
    fold q dst. rewrite Hfs.
    by rewrite (scratch_copytree (fs w) q dst "LICENSE" body Hwf Hq Hqp Hdst Hdp Hout). }
  split.
  - by rewrite (bind_ok _ _ _ _ _ Hls), (bind_ok _ _ _ _ _ Hcp).
  - unfold rmtree.
    rewrite (update_path_ok _ _ _ q (copied dst "LICENSE" body (fs w))); [done | |].
    + cbn [cwd set_fs]. rewrite Hcwd. by apply resolve_temp.
    + cbn [fs set_fs]. rewrite Hfs.
      apply (scratch_rmtree (fs w) q dst "LICENSE" body Hwf Hq Hqp Hdst Hdp Hout).
Qed.

(** The output directory then holds the license, and the scratch
    directory is gone. *)
Lemma license_in_place (w' : World) :
  fs w' = copied dst "LICENSE" body (fs w) -> cwd w' = cwd w ->
  read_file ((license_dir +:+ "/" +:+ dep) +:+ "/LICENSE") w' = (Ok body, w')
  /\ exists_ ("temp_license_" +:+ dep) w' = (Ok false, w').
Proof.
  intros Hf Hc.
  pose proof (scratch_outside_license (cwd w) dep) as Hout. fold q dst in Hout.
  destruct (scratch_names (fs w) q dst "LICENSE" Hq Hqp Hdst Hdp Hout)
    as (Hne & _ & Hdq & _ & Hqdn & _).
  assert (dst <> []) as Hdne by done.
  split.
  - unfold read_file. rewrite (on_path_run _ _ _ _ (dst ++ ["LICENSE"])).
    2:{ rewrite Hc, (resolve_child _ (license_dir +:+ "/" +:+ dep) "LICENSE");
          [|apply license_dir_below_nonempty | done].
        by rewrite (resolve_out_dir (cwd w) dep Hname). }
    rewrite Hf. unfold FS.read, copied. rewrite lookup_append_new; [done | by destruct dst |].
    rewrite lookup_append_other; [by apply lookup_below_missing|].
    intros Heq. apply (f_equal length) in Heq. rewrite length_app in Heq.
    simpl in Heq. lia.
  - unfold exists_. rewrite (on_path_run _ _ _ _ q)
      by (rewrite Hc; by apply resolve_temp).
    rewrite Hf. unfold FS.exists_, copied.
    rewrite !lookup_append_other by done. by rewrite Hq.
Qed.

End Fetched.

(** *** A directory that stays *)

Lemma makedirs_from_extends nm (base rest : FS.path) (fs fs' : FS.t) :
  FS.makedirs_from nm base rest fs = Ok fs' -> exists l, fs' = fs ++ l.
Proof.
  revert base fs. induction rest as [|c rest IH]; intros base fs Hrun.
  - injection Hrun as <-. exists []. by rewrite app_nil_r.
  - rewrite makedirs_from_cons in Hrun.
    destruct (FS.lookup (base ++ [c]) fs) as [n|].
    + destruct n; try done. by apply IH in Hrun.
    + apply IH in Hrun as (l & ->). eexists. by rewrite <- app_assoc.
Qed.

Lemma lookup_app_found (q : FS.path) (n : FS.node) (fs l : FS.t) :
  FS.lookup q fs = Some n -> FS.lookup q (fs ++ l) = Some n.
Proof.
  intros Hq. destruct q as [|x q]; [done|]. unfold FS.lookup in *.
  by rewrite assoc_app, Hq.
Qed.

Lemma write_keeps_dir nm (p q : FS.path) (data : string) (fs fs' : FS.t) :
  FS.write nm p data fs = Ok fs' ->
  FS.lookup q fs = Some FS.Dir -> FS.lookup q fs' = Some FS.Dir.
Proof.
  unfold FS.write, FS.create. intros Hw Hq.
  destruct (FS.lookup p fs) as [n|] eqn:Hp.
  - destruct n; try done; injection Hw as <-;
      rewrite lookup_replace_other; [done | congruence].
  - destruct (FS.lookup (FS.parent p) fs) as [[]|]; try done.
    injection Hw as <-. by apply lookup_app_found.
Qed.

Lemma copytree_keeps_dir nsrc ndst (src dst q : FS.path) (fs fs' : FS.t) :
  FS.copytree nsrc ndst src dst fs = Ok fs' ->
  FS.lookup q fs = Some FS.Dir -> FS.lookup q fs' = Some FS.Dir.
Proof.
  unfold FS.copytree, FS.makedirs. intros Hc Hq.
  destruct (FS.lookup src fs) as [[]|]; try done.
  destruct (FS.lookup dst fs); [done|].
  destruct (FS.makedirs_from ndst [] dst fs) as [f1|] eqn:Hmk; [|done].
  injection Hc as <-. apply makedirs_from_extends in Hmk as (l & ->).
  by do 2 apply lookup_app_found.
Qed.

(** The process stays where it is and the directory [q] stays a
    directory. *)
Definition keeps_dir (q : FS.path) (w w' : World) : Prop :=
  cwd w' = cwd w
  /\ (FS.lookup q (fs w) = Some FS.Dir -> FS.lookup q (fs w') = Some FS.Dir).

#[export] Instance keeps_dir_preorder q : PreOrder (keeps_dir q).
Proof.
  split; [done|]. intros w1 w2 w3 [Hc1 Hk1] [Hc2 Hk2].
  split; [congruence | auto].
Qed.

Lemma keeps_on_path {A} q p (missing : result A) op :
  respects (keeps_dir q) (on_path p missing op).
Proof. intros w. unfold on_path. by destruct (OsPath.resolve _ _). Qed.

Lemma keeps_emit q ev : respects (keeps_dir q) (emit ev).
Proof. by intros w. Qed.

Lemma keeps_write_file q p data : respects (keeps_dir q) (write_file p data).
Proof.
  intros w. unfold write_file, update_path.
  destruct (OsPath.resolve _ _) as [pq|]; [|done]. cbn beta.
  destruct (FS.write p pq data (fs w)) as [f|] eqn:Hw; [|done].
  split; [done|]. cbn [snd fs set_fs]. exact (write_keeps_dir p pq q data _ _ Hw).
Qed.

Lemma keeps_copytree q src dst : respects (keeps_dir q) (copytree src dst).
Proof.
  intros w. unfold copytree.
  destruct (OsPath.resolve (cwd w) src) as [s|];
    destruct (OsPath.resolve (cwd w) dst) as [d|]; try done.
  destruct (FS.copytree src dst s d (fs w)) as [f|] eqn:Hc; [|done].
  split; [done|]. cbn [snd fs set_fs]. exact (copytree_keeps_dir src dst s d q _ _ Hc).
Qed.

Lemma keeps_http_request q (E : Env) url : respects (keeps_dir q) (http_request E url).
Proof. intros w. rewrite http_request_run. done. Qed.

Section WithEnv.
Context (E : ScriptEnv).

(** [copy_license_files] never raises, so the retry decorator around it
    never has anything to repeat: the call is its first attempt. *)
Theorem copy_license_files_never_raises (dep : Dep) (w : World) :
  is_ok (copy_license_files dep w).1 = true
  /\ copy_license_files dep w = copy_license_files_body dep w.
Proof.
  assert (copy_license_files dep w = copy_license_files_body dep w) as Heq
    by apply retry_never_raising, copy_license_files_body_returns.
  split; [|done]. rewrite Heq. apply copy_license_files_body_returns.
Qed.

(** When [copy_license_files] returns [True], the output directory of the
    package holds a [LICENSE] with the very contents of the license file
    that [pip-licenses] reported. *)
Theorem copy_license_files_copies (dep : Dep) (w w' : World) :
  FS.wf (fs w) = true ->
  copy_license_files dep w = (Ok true, w') ->
  exists data,
    read_file (LicenseFile dep) w = (Ok data, w)
    /\ read_file ((license_dir +:+ "/" +:+ lower (Name dep)) +:+ "/LICENSE") w'
       = (Ok data, w').
Proof.
  intros Hwf Hrun. unfold copy_license_files in Hrun.
  rewrite (retry_never_raising 3 _ (copy_license_files_body_returns dep)) in Hrun.
  unfold copy_license_files_body in Hrun.
  destruct (String.eqb (lower (LicenseFile dep)) "unknown"); [done|].
  set (dest := license_dir +:+ "/" +:+ lower (Name dep)) in *.
  apply try_except_inv in Hrun as [(b & Hrun & [= <-]) | (e & w1 & _ & Hh)];
    [|by unfold bind, print, emit, modify, ret in Hh].
  apply bind_ok_inv in Hrun as ([] & w1 & Hmk & Hrun).
  apply bind_ok_inv in Hrun as ([] & w2 & Hcp & Hrun).
  apply bind_ok_inv in Hrun as ([] & w3 & Hpr & Hret). injection Hret as <-.
  injection Hpr as <-.
  apply mkdir_ok_inv in Hmk as (q & Hres & Hq & Hqp & ->).
  assert (q <> []) as Hne by (by destruct q).
  assert (OsPath.resolve (cwd w) (dest +:+ "/LICENSE") = Some (q ++ ["LICENSE"]))
    as Hdst.
  { rewrite (resolve_child _ dest "LICENSE"), Hres; [done | | done].
    apply license_dir_below_nonempty. }
  unfold copy in Hcp. apply bind_ok_inv in Hcp as (d & w4 & Hd & Hcp).
  unfold isdir in Hd. rewrite (on_path_run _ _ _ _ (q ++ ["LICENSE"])) in Hd by done.
  injection Hd as <- <-. cbn [fs set_fs] in Hcp.
  assert (FS.lookup (q ++ ["LICENSE"]) (fs w ++ [(q, FS.Dir)]) = None) as Hfresh.
  { rewrite lookup_append_other; [by apply lookup_below_missing|].
    intros Heq. apply (f_equal length) in Heq. rewrite length_app in Heq.
    simpl in Heq. lia. }
  unfold FS.isdir in Hcp. rewrite Hfresh in Hcp.
  unfold copyfile in Hcp. apply bind_ok_inv in Hcp as (data & w5 & Hrd & Hwr).
  exists data.
  unfold read_file, on_path in Hrd. cbn [cwd fs set_fs] in Hrd.
  destruct (OsPath.resolve (cwd w) (LicenseFile dep)) as [sq|] eqn:Hsq; [|done].
  injection Hrd as Hrd <-.
  assert (FS.read (LicenseFile dep) sq (fs w) = Ok data) as Hrd0.
  { revert Hrd. unfold FS.read.
    destruct (decide (sq = q)) as [->|Hsq'].
    - by rewrite lookup_append_new.
    - by rewrite lookup_append_other. }
  split.
  { unfold read_file. by rewrite (on_path_run _ _ _ _ sq), Hrd0. }
  apply (write_file_ok_inv (dest +:+ "/LICENSE") data
           (set_fs (fs w ++ [(q, FS.Dir)]) w) w2 (q ++ ["LICENSE"]) Hdst)
    in Hwr as (f & Hfw & ->).
  unfold read_file. rewrite (on_path_run _ _ _ _ (q ++ ["LICENSE"])) by done.
  cbn [fs set_fs]. by rewrite (read_after_write _ (dest +:+ "/LICENSE") _ _ _ _ Hfw).
Qed.

(** A dependency for which [pip-licenses] found no license file
    ([UNKNOWN], in any letter case) and that has no entry among the
    overrides is put on the list of missing licenses, and nothing is
    touched for it: no directory, no request, no line printed. *)
Theorem unknown_without_override_is_reported
  (dep_config : gmap string (gmap string (gmap string string)))
  (configs : gmap string (gmap string string)) (dep : Dep)
  (no_licenses : list string) (w : World) :
  lower (LicenseFile dep) = "unknown" ->
  dep_config !! "pip_dependencies" = Some configs ->
  configs !! lower (Name dep) = None ->
  license_step E dep_config dep no_licenses w
  = (Ok (no_licenses ++ [lower (Name dep)]), w).
Proof.
  intros Hlf Hdc Hcfg.
  assert (copy_license_files dep w = (Ok false, w)) as Hcopy.
  { apply retry_returns. unfold copy_license_files_body. by rewrite Hlf. }
  assert (pull_from_url E (lower (Name dep)) configs w = (Ok false, w)) as Hpull.
  { apply retry_returns. unfold pull_from_url_body. by rewrite Hcfg. }
  unfold license_step, obtain_license.
  rewrite (bind_ok _ _ w false w); [done|].
  rewrite (bind_ok _ _ w false w Hcopy). cbv iota. rewrite Hdc.
  rewrite (bind_ok _ _ w configs w) by done. exact Hpull.
Qed.

(** [run_bash_command] judges a command that could be started by its
    standard error alone: the exit code plays no part.  With nothing on
    standard error the decoded output is returned whatever the code; with
    anything on it the call raises, even after an exit with code 0:
    [RuntimeError] when the text on standard error can be decoded, the
    decoding error otherwise. *)
Theorem run_bash_command_ignores_exit_code
  (command : string) (w : World) (returncode : Z) (out err : string) (f : FS.t) :
  split_whitespace command <> [] ->
  run_process (os_env E) (clock w) (cwd w) (split_whitespace command) (fs w)
    = Some (returncode, out, err, f) ->
  match (run_bash_command E command w).1 with
  | Ok result_ => err = "" /\ decode_utf8 out = Ok result_
  | Raise e =>
      if String.eqb err "" then decode_utf8 out = Raise e
      else match decode_utf8 err with
           | Ok _ => is_RuntimeError e = true
           | Raise e' => e = e'
           end
  end.
Proof.
  unfold run_bash_command. intros Hcmd.
  destruct (split_whitespace command) as [|c cmd]; [done|]. intros Hproc.
  unfold bind at 1, communicate, bind at 1, tick.
  cbn [fst snd cwd fs clock]. rewrite Hproc.
  unfold bind, emit, modify, ret, of_result, raise. cbn [fst snd].
  destruct (String.eqb err "") eqn:Herr; cbn [negb].
  - apply String.eqb_eq in Herr. by destruct (decode_utf8 out).
  - by destruct (decode_utf8 err).
Qed.

(** The script cannot be run over its own output: when the output
    directory already exists, [__main__] raises [FileExistsError] at its
    first statement and does nothing else. *)
Theorem main_needs_fresh_output_dir (w : World) :
  (exists_ license_dir w).1 = Ok true ->
  main E w = (Raise (FileExistsError license_dir), w).
Proof.
  intros Hex. unfold main, bind at 1, makedirs, update_path.
  revert Hex. unfold exists_, on_path.
  change (OsPath.resolve (cwd w) license_dir)
    with (Some ["opt"; "apache"; "beam"; "third_party_licenses"]).
  cbn [fst]. unfold FS.exists_, FS.makedirs.
  by destruct (FS.lookup _ (fs w)).
Qed.

(** For a dependency that has an override, [pull_from_url] has two
    outcomes only: it returns [True], or the decorator gives up with
    [RetryError].  The [False] its handler means to return is never
    returned. *)
Theorem pull_from_url_never_false (dep : string)
  (configs : gmap string (gmap string string)) (w : World) :
  is_Some (configs !! dep) ->
  match (pull_from_url E dep configs w).1 with
  | Ok b => b = true
  | Raise e => exists last, e = RetryError last
  end.
Proof.
  intros [config Hcfg].
  assert (forall s b s', pull_from_url_body E dep configs s = (Ok b, s') -> b = true)
    as Hbody.
  { intros s b s'. unfold pull_from_url_body. rewrite Hcfg. intros Hrun.
    apply bind_ok_inv in Hrun as ([] & s1 & _ & Hrun).
    unfold finally_return_result, try_except in Hrun.
    destruct (pull_from_url_try E dep config _ _ s1) as [[b1|e1] s2] eqn:Htry.
    - destruct (rmtree _ s2) as [[[]|e2] s3]; [|done]. injection Hrun as <- _.
      unfold pull_from_url_try in Htry.
      apply bind_ok_inv in Htry as (lic & t1 & _ & Htry).
      apply bind_ok_inv in Htry as ([] & t2 & _ & Htry).
      apply bind_ok_inv in Htry as ([] & t3 & _ & Htry).
      apply bind_ok_inv in Htry as (entries & t4 & _ & Htry).
      apply bind_ok_inv in Htry as ([] & t5 & _ & Htry).
      by injection Htry as <- _.
    - rewrite handler_raises in Hrun.
      by destruct (rmtree _ s2) as [[[]|e2] s3]. }
  unfold pull_from_url, retry. cbn [pred retry_loop]. unfold try_except.
  destruct (pull_from_url_body E dep configs w) as [[b|e] w1] eqn:H1;
    [by apply Hbody in H1|].
  destruct (pull_from_url_body E dep configs w1) as [[b|e'] w2] eqn:H2;
    [by apply Hbody in H2|].
  destruct (pull_from_url_body E dep configs w2) as [[b|e''] w3] eqn:H3;
    [by apply Hbody in H3|].
  cbn [fst raise]. by eexists.
Qed.

(** What an override needs in order to be put in place: a dependency with
    a plain name, a scratch directory that can be created, and an output
    directory (created by [__main__] before the loop) that has no entry for
    the dependency yet. *)
Definition override_ready (dep : string) (w : World) : Prop :=
  is_name dep
  /\ FS.wf (fs w) = true
  /\ is_ok (mkdir ("temp_license_" +:+ dep) w).1 = true
  /\ (isdir license_dir w).1 = Ok true
  /\ (exists_ (license_dir +:+ "/" +:+ dep) w).1 = Ok false.

Lemma override_ready_inv (dep : string) (w : World) :
  override_ready dep w ->
  mkdir ("temp_license_" +:+ dep) w
  = (Ok tt, set_fs (fs w ++ [(cwd w ++ ["temp_license_" +:+ dep], FS.Dir)]) w)
  /\ FS.lookup (cwd w ++ ["temp_license_" +:+ dep]) (fs w) = None
  /\ FS.isdir (FS.parent (cwd w ++ ["temp_license_" +:+ dep])) (fs w) = true
  /\ FS.lookup (out_dir dep) (fs w) = None
  /\ FS.isdir (FS.parent (out_dir dep)) (fs w) = true.
Proof.
  intros (Hname & Hwf & Hok & Hdir & Hnew).
  destruct (mkdir ("temp_license_" +:+ dep) w) as [[[]|e] wm] eqn:Hmk; [|done].
  destruct (mkdir_ok_inv _ _ _ Hmk) as (q & Hres & Hq & Hqp & ->).
  rewrite (resolve_temp (cwd w) dep Hname) in Hres. injection Hres as <-.
  split; [done|]. split; [done|]. split; [done|]. split.
  - revert Hnew. unfold exists_. rewrite (on_path_run _ _ _ w (out_dir dep)).
    + cbn [fst]. unfold FS.exists_. by destruct (FS.lookup (out_dir dep) (fs w)).
    + by apply resolve_out_dir.
  - revert Hdir. unfold isdir.
    rewrite (on_path_run _ _ _ w (FS.parent (out_dir dep))) by done.
    cbn [fst]. intros [= Hd]. exact Hd.
Qed.

(** An override with a URL: when the server answers, the body of the
    answer ends up as [LICENSE] in the output directory of the dependency,
    the scratch directory is removed, and the call returns [True]. *)
Theorem pull_from_url_downloads_license (dep : string)
  (configs : gmap string (gmap string string)) (config : gmap string string)
  (url : string) (status : Z) (body : string) (w : World) :
  configs !! dep = Some config ->
  config !! "license" = Some url ->
  url <> "skip" -> url <> "manual" ->
  config !! "notice" = None ->
  override_ready dep w ->
  http_get (os_env E) (clock w) url = Some (status, body) ->
  (status < 400)%Z ->
  exists w',
    pull_from_url E dep configs w = (Ok true, w')
    /\ read_file ((license_dir +:+ "/" +:+ dep) +:+ "/LICENSE") w' = (Ok body, w')
    /\ exists_ ("temp_license_" +:+ dep) w' = (Ok false, w').
Proof.
  intros Hcfg Hlic Hskip Hmanual Hnot Hready Hget Hstatus.
  pose proof Hready as (Hname & Hwf & _).
  destruct (override_ready_inv dep w Hready) as (Hmk & Hq & Hqp & Hdst & Hdp).
  set (q := cwd w ++ ["temp_license_" +:+ dep]) in *.
  set (w1 := set_fs (fs w ++ [(q, FS.Dir)]) w) in *.
  set (w2 := mkWorld (scratch (fs w) q "LICENSE" body) (cwd w) (S (clock w))
               ((events w ++ [EvHttp url])
                ++ [EvPrint ("Successfully pulled license for " +:+ dep
                             +:+ " from internet.")])).
  destruct (license_put_in_place dep body w w2 Hname Hwf Hq Hqp Hdst Hdp eq_refl eq_refl)
    as [Htail Hrm].
  eexists. split.
  - apply retry_returns. unfold pull_from_url_body. rewrite Hcfg.
    rewrite (bind_ok _ _ _ _ _ Hmk). fold w1.
    assert (pull_from_url_try E dep config (license_dir +:+ "/" +:+ dep)
              ("temp_license_" +:+ dep) w1
            = (Ok true, set_fs (copied (out_dir dep) "LICENSE" body (fs w2)) w2))
      as Htry.
    { unfold pull_from_url_try. rewrite Hlic, Hnot.
      rewrite (bind_ok _ _ w1 url w1) by done.
      apply String.eqb_neq in Hskip, Hmanual. rewrite Hskip, Hmanual.
      assert (wget_download E url (("temp_license_" +:+ dep) +:+ "/LICENSE") w1
              = (Ok tt, mkWorld (scratch (fs w) q "LICENSE" body) (cwd w)
                          (S (clock w)) (events w ++ [EvHttp url]))) as Hwget.
      { unfold wget_download, bind at 1. rewrite http_request_run.
        cbn [clock w1 set_fs]. rewrite Hget. cbn [fst].
        apply Z.leb_gt in Hstatus. rewrite Hstatus. unfold write_file.
        erewrite update_path_ok;
          [done
          | apply (resolve_temp_file _ dep "LICENSE" Hname); by split
          | apply (scratch_write (fs w) q (out_dir dep) "LICENSE" body Hwf Hq Hqp
                     Hdst Hdp (scratch_outside_license (cwd w) dep))]. }
      rewrite (bind_ok _ _ w1 tt w2); [|by rewrite (bind_ok _ _ _ _ _ Hwget)].
      rewrite (bind_ok _ _ _ tt w2) by done.
      exact Htail. }
    unfold finally_return_result, try_except. rewrite Htry, Hrm. reflexivity.
  - by apply (license_in_place dep body w Hname Hwf Hq Hqp Hdst Hdp).
Qed.

(** An override that says [manual]: the license kept under
    [/tmp/manual_licenses] ends up, with the same contents, as [LICENSE] in
    the output directory of the dependency. *)
Theorem pull_from_url_copies_manual_license (dep : string)
  (configs : gmap string (gmap string string)) (config : gmap string string)
  (data : string) (w : World) :
  configs !! dep = Some config ->
  config !! "license" = Some "manual" ->
  config !! "notice" = None ->
  override_ready dep w ->
  read_file ("/tmp/manual_licenses/" +:+ dep +:+ "/LICENSE") w = (Ok data, w) ->
  exists w',
    pull_from_url E dep configs w = (Ok true, w')
    /\ read_file ((license_dir +:+ "/" +:+ dep) +:+ "/LICENSE") w' = (Ok data, w')
    /\ exists_ ("temp_license_" +:+ dep) w' = (Ok false, w').
Proof.
  intros Hcfg Hlic Hnot Hready Hread.
  pose proof Hready as (Hname & Hwf & _).
  destruct (override_ready_inv dep w Hready) as (Hmk & Hq & Hqp & Hdst & Hdp).
  set (q := cwd w ++ ["temp_license_" +:+ dep]) in *.
  set (w1 := set_fs (fs w ++ [(q, FS.Dir)]) w) in *.
  set (w2 := mkWorld (scratch (fs w) q "LICENSE" data) (cwd w) (clock w)
               (events w
                ++ [EvPrint ("Successfully copied license for " +:+ dep +:+
                             " from manual_licenses/" +:+ dep +:+ "/LICENSE.")])).
  destruct (license_put_in_place dep data w w2 Hname Hwf Hq Hqp Hdst Hdp eq_refl eq_refl)
    as [Htail Hrm].
  eexists. split.
  - apply retry_returns. unfold pull_from_url_body. rewrite Hcfg.
    rewrite (bind_ok _ _ _ _ _ Hmk). fold w1.
    assert (pull_from_url_try E dep config (license_dir +:+ "/" +:+ dep)
              ("temp_license_" +:+ dep) w1
            = (Ok true, set_fs (copied (out_dir dep) "LICENSE" data (fs w2)) w2))
      as Htry.
    { unfold pull_from_url_try. rewrite Hlic, Hnot.
      rewrite (bind_ok _ _ w1 "manual" w1) by done.
      change (String.eqb "manual" "skip") with false.
      change (String.eqb "manual" "manual") with true. cbv iota.
      assert (copyfile ("/tmp/manual_licenses/" +:+ dep +:+ "/LICENSE")
                (("temp_license_" +:+ dep) +:+ "/LICENSE") w1
              = (Ok tt, set_fs (scratch (fs w) q "LICENSE" data) w)) as Hcopy.
      { unfold copyfile.
        assert (read_file ("/tmp/manual_licenses/" +:+ dep +:+ "/LICENSE") w1
                = (Ok data, w1)) as Hread1.
        { revert Hread. unfold read_file, on_path. cbn [cwd fs w1 set_fs].
          destruct (OsPath.resolve (cwd w) _) as [mq|]; [|done].
          intros [= Hr]. f_equal. revert Hr. unfold FS.read.
          destruct mq as [|x mq]; [done|].
          rewrite (lookup_app (x :: mq) (fs w)) by done.
          by destruct (FS.lookup (x :: mq) (fs w)) as [[]|]. }
        rewrite (bind_ok _ _ _ _ _ Hread1). unfold write_file.
        erewrite update_path_ok;
          [done
          | apply (resolve_temp_file _ dep "LICENSE" Hname); by split
          | apply (scratch_write (fs w) q (out_dir dep) "LICENSE" data Hwf Hq Hqp
                     Hdst Hdp (scratch_outside_license (cwd w) dep))]. }
      rewrite (bind_ok _ _ w1 tt w2); [|by rewrite (bind_ok _ _ _ _ _ Hcopy)].
      rewrite (bind_ok _ _ _ tt w2) by done.
      exact Htail. }
    unfold finally_return_result, try_except. rewrite Htry, Hrm. reflexivity.
  - by apply (license_in_place dep data w Hname Hwf Hq Hqp Hdst Hdp).
Qed.

Lemma keeps_pull_from_url_try q dep config dest tmp :
  respects (keeps_dir q)
    (try_except (pull_from_url_try E dep config dest tmp) (pull_from_url_except dep)).
Proof.
  apply respects_try_except; [apply _ | | intros e w; by rewrite handler_raises].
  unfold pull_from_url_try, wget_download, copyfile, read_file, listdir, print.
  repeat first
    [ apply keeps_on_path | apply keeps_emit | apply keeps_write_file
    | apply keeps_copytree | apply keeps_http_request
    | match goal with
      | |- PreOrder _ => apply _
      | |- forall _, _ => intro
      | |- respects _ (bind _ _) => apply respects_bind
      | |- respects _ (ret _) => apply respects_ret
      | |- respects _ (raise _) => apply respects_raise
      | |- respects _ (if ?c then _ else _) => destruct c
      | |- respects _ (match ?x with _ => _ end) => destruct x
      end ].
Qed.

(** [pull_from_url] cleans up after itself on every path: if its scratch
    directory did not exist before the call, it does not exist after it,
    whether the call returned or the decorator gave up. *)
Theorem pull_from_url_removes_scratch (dep : string)
  (configs : gmap string (gmap string string)) (w : World) :
  exists_ ("temp_license_" +:+ dep) w = (Ok false, w) ->
  exists_ ("temp_license_" +:+ dep) (pull_from_url E dep configs w).2
  = (Ok false, (pull_from_url E dep configs w).2).
Proof.
  assert (forall s, exists_ ("temp_license_" +:+ dep) s = (Ok false, s) ->
            exists_ ("temp_license_" +:+ dep) (pull_from_url_body E dep configs s).2
            = (Ok false, (pull_from_url_body E dep configs s).2)) as Hbody.
  { intros s Hs. unfold pull_from_url_body.
    destruct (configs !! dep) as [config|]; [|done].
    unfold bind. destruct (mkdir _ s) as [[[]|e] s1] eqn:Hmk.
    2:{ apply mkdir_raise_inv in Hmk as ->. done. }
    apply mkdir_ok_inv in Hmk as (q & Hres & Hq & Hqp & ->).
    assert (q <> []) as Hne by (by destruct q).
    unfold finally_return_result.
    pose proof (keeps_pull_from_url_try q dep config (license_dir +:+ "/" +:+ dep)
                  ("temp_license_" +:+ dep) (set_fs (fs s ++ [(q, FS.Dir)]) s)) as [Hc Hk].
    destruct (try_except _ _ _) as [r s2]. cbn [snd cwd fs set_fs] in Hc, Hk.
    specialize (Hk (lookup_append_new q FS.Dir (fs s) Hne Hq)).
    unfold rmtree, update_path. rewrite Hc, Hres.
    destruct (FS.rmtree _ q (fs s2)) as [f|e] eqn:Hrm.
    - assert (exists_ ("temp_license_" +:+ dep) (set_fs f s2) = (Ok false, set_fs f s2)) as Hgone.
      { unfold exists_. rewrite (on_path_run _ _ _ _ q) by (by rewrite <- Hres, <- Hc).
        unfold FS.exists_. cbn [fs set_fs].
        by rewrite (lookup_rmtree _ _ _ _ Hrm). }
      by destruct r.
    - exfalso. unfold FS.rmtree in Hrm. destruct q; [done|]. by rewrite Hk in Hrm. }
  intros Hw. unfold pull_from_url, retry. cbn [pred retry_loop]. unfold try_except.
  pose proof (Hbody w Hw) as H1.
  destruct (pull_from_url_body E dep configs w) as [[b|e] w1]; [done|].
  pose proof (Hbody w1 H1) as H2.
  destruct (pull_from_url_body E dep configs w1) as [[b|e'] w2]; [done|].
  pose proof (Hbody w2 H2) as H3.
  by destruct (pull_from_url_body E dep configs w2) as [[b|e''] w3].
Qed.

End WithEnv.

End LicenseMore.
(** ** The stager on concrete inputs *)
Module StagerRuns.
Import Py PyStr Os OsFacts Stager StagerTrace StagerFacts StagerSteps
  StagerResources StagerRetry StagerJars StagerSchemes PathFacts Scenario ScenarioMore.



(** The run behind the witness, and a list with an address in it: the
    address has no file system, and the call stops there without a
    request. *)
Example extra_packages_local_run :
  let run := _stage_extra_packages offline_env ["/local/b.tar.gz"; "/local/a.zip"]
               "/staging" "/tmp/work" start1 in
  run.1 = Ok ["b.tar.gz"; "a.zip"; "extra_packages.txt"]
  /\ (read_file "/tmp/work/extra_packages.txt" (world run.2)).1
     = Ok ("b.tar.gz" +:+ newline +:+ "a.zip" +:+ newline).
Proof. vm_compute. repeat split. Qed.

Example extra_packages_with_address :
  let run := _stage_extra_packages offline_env ["http://host/a.tar.gz"; "/local/b.tar.gz"]
               "/staging" "/tmp/work" start1 in
  (exists msg, run.1 = Raise (ValueError msg))
  /\ events (world run.2)
     = [EvLog "info" "Downloading extra package: %s locally before staging"]
  /\ (exists_ "/tmp/work/extra_packages.txt" (world run.2)).1 = Ok false.
Proof. vm_compute. split; [by eexists | by split]. Qed.


(** A list of local packages that ends in a package with an unsupported
    extension: the error is the one about the extension. *)
Example extra_packages_rejected_run :
  let run := _stage_extra_packages offline_env ["/local/b.tar.gz"; "/local/notes.txt"]
               "/staging" "/tmp/work" start1 in
  (exists msg, run.1 = Raise (RuntimeError msg))
  /\ events (world run.2) = [] /\ backend run.2 = backend start1.
Proof. vm_compute. split; [by eexists | by split]. Qed.

Lemma extra_packages_unsupported_rejected_witness :
  exists e st',
    _stage_extra_packages offline_env (["/local/b.tar.gz"] ++ "/local/notes.txt" :: [])
      "/staging" "/tmp/work" start = (Raise e, st')
    /\ backend st' = backend start
    /\ ev_rel (only_fetches ["/local/b.tar.gz"]) (world start) (world st').
Proof.
  apply (extra_packages_unsupported_rejected offline_env
           ["/local/b.tar.gz"] [] "/local/notes.txt" "/staging" "/tmp/work" start).
  reflexivity.
Defined.

(** C2 as stated fails: a requirements file that does not exist makes
    [stage_job_resources] raise, and the temporary directory, whether it
    was passed in or created by the call, is still there. *)
Lemma temp_dir_left_on_error :
  let passed := stage_job_resources offline_env missing_requirements None
                  (Some "/tmp/work") None (Some "/staging") start in
  let created := stage_job_resources offline_env missing_requirements None
                   None None (Some "/staging") start in
  is_ok passed.1 = false
  /\ (isdir "/tmp/work" (world passed.2)).1 = Ok true
  /\ is_ok created.1 = false
  /\ (choose_temp_dir offline_env None (world start)).1 = Ok "/tmp/tmp0"
  /\ (isdir "/tmp/tmp0" (world created.2)).1 = Ok true.
Proof. vm_compute. repeat split. Qed.

Lemma temp_dir_removed_on_return_witness :
  let run := stage_job_resources offline_env local_extra None (Some "/tmp/work")
               None (Some "/staging") start in
  exists dir w1,
    choose_temp_dir offline_env (Some "/tmp/work") (world start) = (Ok dir, w1)
    /\ exists_ dir (world run.2) = (Ok false, world run.2).
Proof.
  intros run.
  apply (temp_dir_removed_on_return offline_env local_extra None (Some "/tmp/work")
           None (Some "/staging") start run.2 "token"
           ["b.tar.gz"; "extra_packages.txt"]).
  vm_compute. reflexivity.
Defined.

Lemma missing_default_sdk_is_fatal_witness :
  (exists e st',
     stage_job_resources offline_env default_sdk None (Some "/tmp/work") None
       (Some "/staging") start = (Raise e, st')
     /\ st_ev not_commit start st')
  /\ (forall dir sl res (s : State Disk),
       exists e s',
         stage_sdk offline_env default_sdk dir sl res s = (Raise e, s')
         /\ backend s' = backend s
         /\ ev_rel local_only (world s) (world s')).
Proof.
  apply (missing_default_sdk_is_fatal offline_env default_sdk None (Some "/tmp/work")
           None (Some "/staging") start).
  - reflexivity.
  - intros d w. reflexivity.
Defined.



(** The retried download on a machine where [pip] always exits with code
    1: four subprocesses, with pauses of 5, 10 and 20 seconds between
    them, and the last failure is raised. *)
Example populate_gives_up_after_four :
  let run := _populate_requirements_cache failing_pip_env "/local/requirements.txt"
               "/cache" (world start) in
  exec_outcomes (events run.2) = [Exited 1; Exited 1; Exited 1; Exited 1]
  /\ pauses (events run.2) = [5%N; 10%N; 20%N]
  /\ is_ok run.1 = false.
Proof. vm_compute. repeat split. Qed.

(** On a machine where [pip] cannot be started the failure is not a
    non-zero exit: one attempt, no pause. *)
Example populate_does_not_retry_spawn_failure :
  let run := _populate_requirements_cache offline_env "/local/requirements.txt"
               "/cache" (world start) in
  exec_outcomes (events run.2) = [SpawnFailed]
  /\ pauses (events run.2) = []
  /\ run.1 = Raise (OSError "cannot start the program").
Proof. vm_compute. repeat split. Qed.

(** Two invocations on a list of two jars: both return the names in the
    order of the list. *)
Lemma jar_packages_staged_twice_witness :
  let jar_packages := ["/local/e.jar"; "/local/d.jar"] in
  let first := _stage_jar_packages offline_env jar_packages "/staging" "/tmp/work" start1 in
  let second := _stage_jar_packages offline_env jar_packages "/staging" "/tmp/work"
                  first.2 in
  first.1 = Ok ["e.jar"; "d.jar"]
  /\ second.1 = Ok ["e.jar"; "d.jar"]
  /\ (["e.jar"; "d.jar"] = ["e.jar"; "d.jar"]
      /\ Forall (fun name => endswith ".jar" name = true) ["e.jar"; "d.jar"]).
Proof.
  intros jar_packages first second.
  split; [vm_compute; reflexivity|]. split; [vm_compute; reflexivity|].
  apply (jar_packages_staged_twice offline_env ["tmp"; "work"] jar_packages
           "/staging" "/tmp/work" start1 first.2 second.2).
  - vm_compute. reflexivity.
  - vm_compute. reflexivity.
  - repeat constructor; intros q Hq; vm_compute in Hq; by injection Hq as <-.
  - vm_compute. reflexivity.
  - vm_compute. reflexivity.
Defined.

Example jar_packages_second_run :
  let jar_packages := ["/local/e.jar"; "/local/d.jar"] in
  let first := _stage_jar_packages offline_env jar_packages "/staging" "/tmp/work" start1 in
  let second := _stage_jar_packages offline_env jar_packages "/staging" "/tmp/work"
                  first.2 in
  first.1 = Ok ["e.jar"; "d.jar"] /\ second.1 = Ok ["e.jar"; "d.jar"]
  /\ (isdir "/tmp/work/tmp0" (world second.2)).1 = Ok true
  /\ (isdir "/tmp/work/tmp1" (world second.2)).1 = Ok true.
Proof. vm_compute. repeat split. Qed.

End StagerRuns.

(** ** The license script on concrete inputs *)
Module LicenseRuns.
Import Py PyStr Os PullLicenses LicenseFacts Scenario.

(** C9 at an override whose URL cannot be fetched.  The download raises in
    the [try] body; the handler raises in turn while it builds its message,
    so [result] is never bound and the [return result] of the [finally]
    block raises [UnboundLocalError].  The decorator repeats the call, three
    requests in all, and gives up with [RetryError]; the script as a whole
    ends with that error instead of its list of missing licenses. *)
Theorem pull_from_url_failing_download :
  let E := script_env reported overrides in
  let call := pull_from_url E "pyyaml" overrides image in
  call.1 = Raise (RetryError (UnboundLocalError "result"))
  /\ events call.2 = [EvHttp "http://host/unreachable/LICENSE";
                      EvHttp "http://host/unreachable/LICENSE";
                      EvHttp "http://host/unreachable/LICENSE"]
  /\ (main E image).1 = Raise (RetryError (UnboundLocalError "result")).
Proof. vm_compute. repeat split. Qed.

Lemma main_reports_missing_licenses_witness :
  let E := script_env reported overrides_skip_only in
  let outcome := [(mkDep "six" "/site/six/LICENSE", true);
                  (mkDep "apache-beam" "UNKNOWN", true);
                  (mkDep "PyYAML" "UNKNOWN", false)] in
  let w2 := (main E image).2 in
  (Forall (fun x => x.2 = true) outcome -> main E image = (Ok tt, w2))
  /\ (Exists (fun x => x.2 = false) outcome ->
      main E image
      = (Raise (RuntimeError (missing_licenses_message E (offending outcome))), w2)
      /\ (forall dep, (dep, false) ∈ outcome -> lower (Name dep) ∈ offending outcome)
      /\ (forall name, name ∈ offending outcome ->
            contains (repr_str name) (missing_licenses_message E (offending outcome))
            = true)).
Proof.
  intros E outcome w2.
  apply (main_reports_missing_licenses E image (startup E image).2 w2
           {[ "pip_dependencies" := overrides_skip_only ]} reported outcome).
  - vm_compute. reflexivity.
  - apply run_outcomes_processed. vm_compute. reflexivity.
Defined.

(** The run behind the witness: the one dependency without a license and
    without an override is the one the error names. *)
Example main_names_pyyaml :
  let E := script_env reported overrides_skip_only in
  exists rest w,
    main E image
    = (Raise (RuntimeError
                ("Some dependencies are missing licenses at python3.7 environment. ['pyyaml'] "
                 +:+ rest)), w).
Proof. eexists _, _. vm_compute. reflexivity. Qed.

Lemma skip_counts_as_handled_witness :
  let E := script_env reported overrides_skip_notice in
  let config : gmap string string :=
    {[ "license" := "skip"; "notice" := "http://host/NOTICE" ]} in
  exists w',
    pull_from_url E "apache-beam" overrides_skip_notice image_started = (Ok true, w')
    /\ (forall p, p <> out_dir "apache-beam" ++ ["NOTICE"] ->
          FS.isfile p (fs w') = FS.isfile p (fs image_started))
    /\ (config !! "notice" = None -> fs w' = fs image_started)
    /\ (isfile (license_dir +:+ "/" +:+ "apache-beam" +:+ "/LICENSE") w').1
       = (isfile (license_dir +:+ "/" +:+ "apache-beam" +:+ "/LICENSE")
            image_started).1
    /\ (forall dep_config d no_licenses w0,
          dep_config !! "pip_dependencies" = Some overrides_skip_notice ->
          lower (Name d) = "apache-beam" ->
          copy_license_files d w0 = (Ok false, image_started) ->
          license_step E dep_config d no_licenses w0 = (Ok no_licenses, w')).
Proof.
  intros E config.
  apply (skip_counts_as_handled E "apache-beam" overrides_skip_notice config
           image_started).
  - vm_compute. reflexivity.
  - vm_compute. reflexivity.
  - vm_compute. reflexivity.
  - vm_compute. reflexivity.
  - split; [split; [reflexivity | discriminate]|].
    split; [exists 200%Z, "Notice"; split; [reflexivity | lia]|].
    split; vm_compute; reflexivity.
Defined.

(** The run behind the witness: the notice is the one file the call leaves
    in the output directory, and the scratch directory is gone. *)
Example skip_with_notice_run :
  let E := script_env reported overrides_skip_notice in
  let call := pull_from_url E "apache-beam" overrides_skip_notice image_started in
  call.1 = Ok true
  /\ (read_file "/opt/apache/beam/third_party_licenses/apache-beam/NOTICE" call.2).1
     = Ok "Notice"
  /\ (listdir "/opt/apache/beam/third_party_licenses/apache-beam" call.2).1
     = Ok ["NOTICE"]
  /\ (exists_ "temp_license_apache-beam" call.2).1 = Ok false.
Proof. vm_compute. repeat split. Qed.

(** Without a notice the call leaves the disk as it found it. *)
Example skip_without_notice_run :
  let E := script_env reported overrides_skip_only in
  let call := pull_from_url E "apache-beam" overrides_skip_only image in
  call.1 = Ok true /\ fs call.2 = fs image.
Proof. vm_compute. repeat split. Qed.

End LicenseRuns.

(** ** The further properties of the stager on concrete inputs *)
Module StagerMoreRuns.
Import Py PyStr Os OsFacts PathFacts Stager StagerTrace StagerFacts StagerRetry StagerJars
  StagerNames StagerLocal StagerPackages Scenario ScenarioMore.

(** A call that stages a requirements file, the two archives of its cache
    and two extra packages. *)
Example several_packages_run :
  let run := stage_job_resources offline_env several_packages None (Some "/tmp/work")
               (Some fake_populate) (Some "/staging") start1 in
  run.1 = Ok ("token",
              ["requirements.txt"; "six-1.0.tar.gz"; "pkg-2.0.tar.gz"; "b.tar.gz";
               "a.zip"; "extra_packages.txt"])
  /\ staged_as (events (world run.2))
     = ["/staging/requirements.txt"; "/staging/six-1.0.tar.gz";
        "/staging/pkg-2.0.tar.gz"; "/staging/b.tar.gz"; "/staging/a.zip";
        "/staging/extra_packages.txt"].
Proof. vm_compute. repeat split. Qed.

Lemma returned_names_are_plain_witness :
  Forall (fun name => has_char "/" name = false)
    ["requirements.txt"; "six-1.0.tar.gz"; "pkg-2.0.tar.gz"; "b.tar.gz";
     "a.zip"; "extra_packages.txt"].
Proof.
  refine (returned_names_are_plain offline_env "/staging" _ _ several_packages None
            (Some "/tmp/work") (Some fake_populate) (Some "/staging") start1
            (stage_job_resources offline_env several_packages None (Some "/tmp/work")
               (Some fake_populate) (Some "/staging") start1).2
            "token" _ _ _).
  - reflexivity.
  - reflexivity.
  - vm_compute. reflexivity.
  - reflexivity.
Defined.

Lemma returned_names_were_staged_witness :
  let run := stage_job_resources offline_env several_packages None (Some "/tmp/work")
               (Some fake_populate) (Some "/staging") start1 in
  exists evs,
    events (world run.2) = events (world start1) ++ evs
    /\ map (FileSystems.join "/staging")
         ["requirements.txt"; "six-1.0.tar.gz"; "pkg-2.0.tar.gz"; "b.tar.gz";
          "a.zip"; "extra_packages.txt"]
       `sublist_of` staged_as evs.
Proof.
  intros run.
  refine (returned_names_were_staged offline_env "/staging" _ _ several_packages None
            (Some "/tmp/work") (Some fake_populate) (Some "/staging") start1 run.2
            "token" _ _ _).
  - reflexivity.
  - reflexivity.
  - vm_compute. reflexivity.
  - reflexivity.
Defined.

(** [setup.py sdist] on a machine that builds one archive: the path of the
    archive is returned, and the process is back in [/tmp]. *)
Example build_setup_package_run :
  let run := _build_setup_package builder_env "/local/setup.py" "/tmp/work" None in_tmp in
  run.1 = Ok "/tmp/work/apache-beam-2.0.tar.gz"
  /\ cwd run.2 = ["tmp"]
  /\ exec_outcomes (events run.2) = [Exited 0].
Proof. vm_compute. repeat split. Qed.

Lemma build_setup_package_restores_cwd_witness :
  let run := _build_setup_package builder_env "/local/setup.py" "/tmp/work" None in_tmp in
  cwd run.2 = cwd in_tmp
  /\ forall f, run.1 = Ok f -> endswith ".tar.gz" f = true.
Proof.
  intros run.
  apply (build_setup_package_restores_cwd builder_env "/local/setup.py" "/tmp/work"
           None in_tmp).
  - constructor; [split; [reflexivity | discriminate] | constructor].
  - vm_compute. reflexivity.
Defined.

Lemma download_file_http_witness :
  let w := world start in
  let run := _download_file offline_env "http://host/a.tar.gz" "/tmp/work/a.tar.gz" w in
  match http_get (os_env offline_env) (clock w) "http://host/a.tar.gz" with
  | Some (status, body) =>
      if (400 <=? status)%Z then is_ok run.1 = false /\ fs run.2 = fs w
      else run.1 = Ok tt -> read_file "/tmp/work/a.tar.gz" run.2 = (Ok body, run.2)
  | None => is_ok run.1 = false /\ fs run.2 = fs w
  end.
Proof.
  intros w.
  apply (download_file_http offline_env "http://host/a.tar.gz" "/tmp/work/a.tar.gz" w).
  reflexivity.
Defined.

(** The run behind the witness: the body that was served is in the
    file. *)
Example download_file_run :
  let run := _download_file offline_env "http://host/a.tar.gz" "/tmp/work/a.tar.gz"
               (world start) in
  run.1 = Ok tt /\ (read_file "/tmp/work/a.tar.gz" run.2).1 = Ok "A".
Proof. vm_compute. repeat split. Qed.

(** A request that is answered with status 404 raises and leaves no
    file. *)
Example download_file_not_found :
  let run := _download_file offline_env "http://host/gone.tar.gz" "/tmp/work/gone.tar.gz"
               (world start) in
  is_ok run.1 = false
  /\ (exists_ "/tmp/work/gone.tar.gz" run.2).1 = Ok false.
Proof. vm_compute. repeat split. Qed.

Lemma download_pypi_sdk_package_result_witness :
  let run := _download_pypi_sdk_package builder_env "/tmp/work" false "27" "cp" "cp27mu"
               "manylinux1_x86_64" (world start) in
  exists_ "/tmp/work/apache-beam-2.0.tar.gz" run.2 = (Ok true, run.2)
  /\ exists version,
       distribution_version builder_env (BEAM_PACKAGE_NAME builder_env) = Some version
       /\ ("/tmp/work/apache-beam-2.0.tar.gz"
           = OsPath.join "/tmp/work"
               (BEAM_PACKAGE_NAME builder_env +:+ "-" +:+ version +:+ ".zip")
           \/ "/tmp/work/apache-beam-2.0.tar.gz"
              = OsPath.join "/tmp/work"
                  (BEAM_PACKAGE_NAME builder_env +:+ "-" +:+ version +:+ ".tar.gz")).
Proof.
  intros run.
  apply (download_pypi_sdk_package_result builder_env "/tmp/work" false "27" "cp"
           "cp27mu" "manylinux1_x86_64" (world start)
           "/tmp/work/apache-beam-2.0.tar.gz" run.2).
  vm_compute. reflexivity.
Defined.

Lemma binary_sdk_is_best_effort_witness :
  let e := RuntimeError
             "Please set --sdk_location command-line option or install a valid apache-beam distribution." in
  let sources :=
    liftW (_download_pypi_sdk_package offline_env "/tmp/work" false "27" "cp" "cp27mu"
             "manylinux1_x86_64") start in
  match sources.1 with
  | Raise e0 => e0 = e
  | Ok sdk_local_file =>
      match _desired_sdk_filename_in_staging_location offline_env sdk_local_file with
      | Raise e0 => e0 = e
      | Ok name =>
          (self_stage_artifact sdk_local_file
             (FileSystems.join "/staging" name)
             (liftW (log "info" "Staging SDK sources from PyPI to %s") sources.2).2).1
          = Raise e
      end
  end.
Proof.
  intros e.
  apply (binary_sdk_is_best_effort offline_env "/staging" "/tmp/work" start e
           (_stage_beam_sdk offline_env "pypi" "/staging" "/tmp/work" start).2).
  - vm_compute. reflexivity.
  - reflexivity.
Defined.

(** On a machine where [pip] delivers the sources only, the call returns
    with the sources staged: the binary distribution is not missed. *)
Example sources_only_sdk_run :
  let run := _stage_beam_sdk builder_env "pypi" "/staging" "/tmp/work" start in
  run.1 = Ok ["dataflow_python_sdk.tar"]
  /\ staged_as (events (world run.2)) = ["/staging/dataflow_python_sdk.tar"].
Proof. vm_compute. repeat split. Qed.

Lemma jar_packages_unsupported_rejected_witness :
  exists e st',
    _stage_jar_packages offline_env
      (["/local/e.jar"] ++ "/local/notes.txt" :: ["/local/d.jar"])
      "/staging" "/tmp/work" start1 = (Raise e, st')
    /\ backend st' = backend start1
    /\ ev_rel (only_fetches ["/local/e.jar"]) (world start1) (world st').
Proof.
  apply (jar_packages_unsupported_rejected offline_env ["/local/e.jar"]
           ["/local/d.jar"] "/local/notes.txt" "/staging" "/tmp/work" start1).
  reflexivity.
Defined.



End StagerMoreRuns.

(** ** The further properties of the license script on concrete inputs *)
Module LicenseMoreRuns.
Import Py PyStr Os PullLicenses LicenseFacts LicenseMore Scenario ScenarioMore.

Lemma copy_license_files_copies_witness :
  let dep := mkDep "six" "/site/six/LICENSE" in
  let w' := (copy_license_files dep image_started).2 in
  exists data,
    read_file (LicenseFile dep) image_started = (Ok data, image_started)
    /\ read_file ((license_dir +:+ "/" +:+ lower (Name dep)) +:+ "/LICENSE") w'
       = (Ok data, w').
Proof.
  intros dep w'.
  apply (copy_license_files_copies dep image_started w').
  - vm_compute. reflexivity.
  - vm_compute. reflexivity.
Defined.

(** The run behind the witness. *)
Example copy_license_files_run :
  let call := copy_license_files (mkDep "six" "/site/six/LICENSE") image_started in
  call.1 = Ok true
  /\ (read_file "/opt/apache/beam/third_party_licenses/six/LICENSE" call.2).1 = Ok "MIT"
  /\ events call.2 = [EvPrint "Successfully pulled license for six with pip-licenses."].
Proof. vm_compute. repeat split. Qed.

Lemma unknown_without_override_is_reported_witness :
  let dep := mkDep "PyYAML" "UNKNOWN" in
  license_step licensed_env {[ "pip_dependencies" := overrides_skip_only ]} dep
    ["numpy"] image_started
  = (Ok (["numpy"] ++ [lower (Name dep)]), image_started).
Proof.
  intros dep.
  apply (unknown_without_override_is_reported licensed_env
           {[ "pip_dependencies" := overrides_skip_only ]} overrides_skip_only dep
           ["numpy"] image_started).
  - reflexivity.
  - vm_compute. reflexivity.
  - vm_compute. reflexivity.
Defined.

Lemma run_bash_command_ignores_exit_code_witness :
  let command := "pip-licenses --with-license-file --format=json" in
  match (run_bash_command licensed_env command image).1 with
  | Ok result_ => "" = "" /\ decode_utf8 "[]" = Ok result_
  | Raise e =>
      if String.eqb "" "" then decode_utf8 "[]" = Raise e
      else match decode_utf8 "" with
           | Ok _ => is_RuntimeError e = true
           | Raise e' => e = e'
           end
  end.
Proof.
  intros command.
  apply (run_bash_command_ignores_exit_code licensed_env command image 1%Z "[]" ""
           (fs image)).
  - vm_compute. discriminate.
  - reflexivity.
Defined.

(** The run behind the witness: the program exits with code 1, and its
    output is returned. *)
Example run_bash_command_exit_1 :
  let run := run_bash_command licensed_env "pip-licenses --with-license-file --format=json"
               image in
  run.1 = Ok "[]"
  /\ events run.2
     = [EvExec ["pip-licenses"; "--with-license-file"; "--format=json"] (Exited 1)].
Proof. vm_compute. repeat split. Qed.

Lemma main_needs_fresh_output_dir_witness :
  main licensed_env image_started = (Raise (FileExistsError license_dir), image_started).
Proof.
  apply (main_needs_fresh_output_dir licensed_env image_started).
  vm_compute. reflexivity.
Defined.

Lemma pull_from_url_never_false_witness :
  match (pull_from_url (script_env reported overrides) "pyyaml" overrides image).1 with
  | Ok b => b = true
  | Raise e => exists last, e = RetryError last
  end.
Proof.
  apply (pull_from_url_never_false (script_env reported overrides) "pyyaml" overrides
           image).
  vm_compute. eexists. reflexivity.
Defined.

Lemma pull_from_url_downloads_license_witness :
  exists w',
    pull_from_url licensed_env "pkg" overrides_url image_started = (Ok true, w')
    /\ read_file ((license_dir +:+ "/" +:+ "pkg") +:+ "/LICENSE") w' = (Ok "BSD", w')
    /\ exists_ ("temp_license_" +:+ "pkg") w' = (Ok false, w').
Proof.
  apply (pull_from_url_downloads_license licensed_env "pkg" overrides_url
           {[ "license" := "http://host/pkg/LICENSE" ]} "http://host/pkg/LICENSE"
           200%Z "BSD" image_started).
  - vm_compute. reflexivity.
  - vm_compute. reflexivity.
  - discriminate.
  - discriminate.
  - vm_compute. reflexivity.
  - split; [split; [reflexivity | discriminate]|].
    repeat split; vm_compute; reflexivity.
  - reflexivity.
  - lia.
Defined.

Lemma pull_from_url_copies_manual_license_witness :
  exists w',
    pull_from_url licensed_env "pkg" overrides_manual manual_started = (Ok true, w')
    /\ read_file ((license_dir +:+ "/" +:+ "pkg") +:+ "/LICENSE") w'
       = (Ok "Apache-2.0", w')
    /\ exists_ ("temp_license_" +:+ "pkg") w' = (Ok false, w').
Proof.
  apply (pull_from_url_copies_manual_license licensed_env "pkg" overrides_manual
           {[ "license" := "manual" ]} "Apache-2.0" manual_started).
  - vm_compute. reflexivity.
  - vm_compute. reflexivity.
  - vm_compute. reflexivity.
  - split; [split; [reflexivity | discriminate]|].
    repeat split; vm_compute; reflexivity.
  - vm_compute. reflexivity.
Defined.

Lemma pull_from_url_removes_scratch_witness :
  let call := pull_from_url (script_env reported overrides) "pyyaml" overrides image in
  exists_ ("temp_license_" +:+ "pyyaml") call.2 = (Ok false, call.2).
Proof.
  intros call.
  apply (pull_from_url_removes_scratch (script_env reported overrides) "pyyaml"
           overrides image).
  vm_compute. reflexivity.
Defined.

End LicenseMoreRuns.
